(** * Menstrual-cycle tracker: broker integration and analytics choreography

    A shallow embedding of the message-queue handlers, the prediction
    engine and the reminder scheduler of the three Python services
    (cycle-tracking, analytics, notification), with the properties the
    specification states about them.

    Conventions of the embedding.
    - A [datetime.date] is its proleptic Gregorian ordinal
      ([date.toordinal()]), an integer; [date + timedelta(days=n)] is
      addition and [(a - b).days] is subtraction.  The bounds of Python's
      date type (years 1..9999) are not modelled.
    - A Python float that holds a quotient of integers is the exact
      rational ([Q]); [int(x)], [round(x)], [x < c] and the truthiness of
      [x] are taken on that rational.
    - A table is the list of its rows in insertion order; an ORM object is
      the position of its row in the session's view of the table together
      with its attributes, so that an attribute assignment is an update in
      place ([<[i:=a]> rows]).  A query without ORDER BY answers in table
      order, so that [.first()] is the first match ([list_find]).
    - Code that can raise runs in a state-and-exception monad over the
      service's world (committed store, session, pending failures). *)

From Stdlib Require Import ZArith QArith Lqa Ascii DecimalString.
From Stdlib Require DecimalZ DecimalPos.
From stdpp Require Import base tactics option list sorting strings.

Local Open Scope Z_scope.

(** ** Python numerics *)

Module Py.

(** [a / n] for an [int] numerator and a list length: true division. *)
Definition true_div (a : Z) (n : nat) : Q := Qmake a (Pos.of_nat n).

(** [int(x)]: truncation toward zero. *)
Definition int (x : Q) : Z := Z.quot (Qnum x) (Zpos (Qden x)).


(** [x < y] on floats. *)
Definition lt (x y : Q) : bool :=
  (Qnum x * Zpos (Qden y) <? Qnum y * Zpos (Qden x)).

(** Truthiness of a float: everything but zero. *)
Definition truthy (x : Q) : bool := negb (Qnum x =? 0).

(** [sum(xs)] over integers and over floats. *)
Definition sum (xs : list Z) : Z := foldr Z.add 0 xs.
Definition fsum (xs : list Q) : Q := foldr Qplus (0 # 1)%Q xs.

(** [str(n)] for an integer. *)
Definition str (n : Z) : string := NilZero.string_of_int (Z.to_int n).

End Py.

(** ** Dates *)

Module Date.

Definition date := Z.

Definition is_leap (y : Z) : bool :=
  (y mod 4 =? 0) && (negb (y mod 100 =? 0) || (y mod 400 =? 0)).

Definition days_before_year (y : Z) : Z :=
  let y' := y - 1 in y' * 365 + y' / 4 - y' / 100 + y' / 400.

Definition days_before_month (y m : Z) : Z :=
  let table := [0; 31; 59; 90; 120; 151; 181; 212; 243; 273; 304; 334] in
  nth (Z.to_nat (m - 1)) table 0
  + (if (2 <? m) && is_leap y then 1 else 0).

(** [date(y, m, d).toordinal()] *)
Definition ymd (y m d : Z) : date :=
  days_before_year y + days_before_month y m + d.

(** [d + timedelta(days=n)] and [d - timedelta(days=n)] *)
Definition add_days (d : date) (n : Z) : date := d + n.
Definition sub_days (d : date) (n : Z) : date := d - n.

(** [(a - b).days] *)
Definition days_between (a b : date) : Z := a - b.

End Date.

Abbreviation date := Date.date.

(** ** Exceptions and state: the monad the handlers run in *)

Module Exec.

Inductive exn :=
| JSONDecodeError | KeyError | ValueError | TypeError | AttributeError
| SQLAlchemyError | AMQPError.

Inductive outcome (A : Type) :=
| Returned (a : A)
| Raised (e : exn).
Arguments Returned {A} a.
Arguments Raised {A} e.

Definition M (W A : Type) : Type := W → outcome A * W.

Section ops.
Context {W : Type}.

Definition ret {A} (a : A) : M W A := λ w, (Returned a, w).

Definition bind {A B} (k : A → M W B) (m : M W A) : M W B :=
  λ w, match m w with
       | (Returned a, w') => k a w'
       | (Raised e, w') => (Raised e, w')
       end.

Definition raise {A} (e : exn) : M W A := λ w, (Raised e, w).

(** [try: m  except Exception as e: h e] *)
Definition try_except {A} (m : M W A) (h : exn → M W A) : M W A :=
  λ w, match m w with
       | (Returned a, w') => (Returned a, w')
       | (Raised e, w') => h e w'
       end.

(** [m], then [f] on the world whether [m] returned or raised: the
    exit of a [with] block. *)
Definition on_exit {A} (f : W → W) (m : M W A) : M W A :=
  λ w, let '(r, w') := m w in (r, f w').

Definition gets {A} (f : W → A) : M W A := λ w, (Returned (f w), w).
Definition modify (f : W → W) : M W unit := λ w, (Returned tt, f w).
End ops.

(** Run a computation on one component of the world. *)
Definition zoom {W V A} (get : W → V) (set : V → W → W) (m : M V A)
  : M W A :=
  λ w, let '(r, v') := m (get w) in (r, set v' w).

#[global] Instance M_ret {W} : MRet (M W) := @ret W.
#[global] Instance M_bind {W} : MBind (M W) := @bind W.

Definition returned {A} (r : outcome A) : bool :=
  match r with Returned _ => true | Raised _ => false end.

End Exec.

Import Exec.

(** ** The broker as the services see it (pika) *)

Module Pika.

(** What a service does to the outside world through pika and [time]. *)
Inductive io_event (P : Type) :=
| TryConnect
| Declared (topology : list string)
| Sleep (seconds : Z)
| Published (exchange routing_key : string) (body : P).
Arguments TryConnect {P}.
Arguments Declared {P} topology.
Arguments Sleep {P} seconds.
Arguments Published {P} exchange routing_key body.

(** [link]: the outcomes of the coming broker operations (a connection
    attempt with its declarations, or a publish), [true] when the
    operation raises; an exhausted list means a reachable broker.
    [io]: the trace so far. *)
Record Net (P : Type) := mkNet {
  link : list bool;
  io : list (io_event P)
}.
Arguments mkNet {P} link io.
Arguments link {P} n.
Arguments io {P} n.

Section ops.
Context {P : Type}.

Definition emit (e : io_event P) : M (Net P) unit :=
  modify (λ n, mkNet (link n) (io n ++ [e])).

(** One broker operation: raises when the link says so. *)
Definition operation : M (Net P) unit :=
  λ n, match link n with
       | true :: l => (Raised AMQPError, mkNet l (io n))
       | false :: l => (Returned tt, mkNet l (io n))
       | [] => (Returned tt, n)
       end.

(** The body of the [try] in [_connect]: open the connection and the
    channel, declare the topology. *)
Definition establish (topology : list string) : M (Net P) unit :=
  emit TryConnect ;; operation ;; emit (Declared topology).

(** [time.sleep(s)] *)
Definition sleep (s : Z) : M (Net P) unit := emit (Sleep s).

(** The retry loop the consumers and the cycle publisher share:
[[
    for attempt in range(max_retries):
        try:
            ...establish...
            return
        except Exception as e:
            if attempt < max_retries - 1:
                time.sleep(retry_delay)
            else:
                raise
]] *)
Fixpoint retry_loop (max_retries retry_delay : Z) (topology : list string)
    (attempts : list Z) : M (Net P) unit :=
  match attempts with
  | [] => mret tt
  | attempt :: rest =>
      try_except (establish topology)
        (λ e, if decide (attempt < max_retries - 1)
              then sleep retry_delay ;;
                   retry_loop max_retries retry_delay topology rest
              else raise e)
  end.

(** [range(n)] *)
Definition range (n : Z) : list Z := seqZ 0 n.

Definition connect_with_retry (topology : list string) : M (Net P) unit :=
  let max_retries := 5 in
  let retry_delay := 5 in
  retry_loop max_retries retry_delay topology (range max_retries).

(** Observations on a trace. *)
Definition attempts (t : list (io_event P)) : nat :=
  length (omap (λ e, match e with TryConnect => Some tt | _ => None end) t).
Definition sleeps (t : list (io_event P)) : list Z :=
  omap (λ e, match e with Sleep s => Some s | _ => None end) t.
End ops.

End Pika.

(** ** A service's world: database session, broker, deliveries *)

Module Db.

(** What a consumer answers the broker for a delivery. *)
Inductive delivery :=
| BasicAck (delivery_tag : Z)
| BasicNack (delivery_tag : Z) (requeue : bool).

(** The world of one service, over its store [S], the payload [P] of
    the events it publishes and its module-level globals [G].
    - [committed]: what the database holds;
    - [session]: the open transaction as the session sees it (every
      query autoflushes first, so pending and flushed changes are
      visible alike);
    - [commits]: every state the database went through, oldest first;
    - [db_faults]: outcomes of the coming database round trips, [true]
      when the round trip raises;
    - [net]: the broker; [channel]: the answers given for deliveries. *)
Record World (S P G : Type) := mkWorld {
  committed : S;
  session : S;
  commits : list S;
  db_faults : list bool;
  net : Pika.Net P;
  channel : list delivery;
  globals : G
}.
Arguments mkWorld {S P G}.
Arguments committed {S P G} w.
Arguments session {S P G} w.
Arguments commits {S P G} w.
Arguments db_faults {S P G} w.
Arguments net {S P G} w.
Arguments channel {S P G} w.
Arguments globals {S P G} w.

Section ops.
Context {S P G : Type}.
Local Abbreviation World := (World S P G).

Definition set_session (f : S → S) (w : World) : World :=
  mkWorld (committed w) (f (session w)) (commits w) (db_faults w)
          (net w) (channel w) (globals w).
Definition set_db_faults (l : list bool) (w : World) : World :=
  mkWorld (committed w) (session w) (commits w) l (net w) (channel w)
          (globals w).
Definition set_net (n : Pika.Net P) (w : World) : World :=
  mkWorld (committed w) (session w) (commits w) (db_faults w) n
          (channel w) (globals w).
Definition set_channel (f : list delivery → list delivery) (w : World)
  : World :=
  mkWorld (committed w) (session w) (commits w) (db_faults w) (net w)
          (f (channel w)) (globals w).
Definition set_globals (g : G) (w : World) : World :=
  mkWorld (committed w) (session w) (commits w) (db_faults w) (net w)
          (channel w) g.

(** One round trip to the database. *)
Definition db_call : M World unit :=
  λ w, match db_faults w with
       | true :: l => (Raised SQLAlchemyError, set_db_faults l w)
       | false :: l => (Returned tt, set_db_faults l w)
       | [] => (Returned tt, w)
       end.

(** A query: a round trip, answered from the session's view. *)
Definition query {A} (f : S → A) : M World A :=
  db_call ;; gets (λ w, f (session w)).

(** [db.session.commit()] *)
Definition flushed (w : World) : World :=
  mkWorld (session w) (session w) (commits w ++ [session w])
          (db_faults w) (net w) (channel w) (globals w).
Definition commit : M World unit := db_call ;; modify flushed.

(** [db.session.rollback()] *)
Definition rollback_session (w : World) : World :=
  set_session (λ _, committed w) w.
Definition rollback : M World unit := modify rollback_session.

(** Leaving [with self.app.app_context()]: Flask-SQLAlchemy removes
    the session when the application context is torn down, which
    discards whatever the transaction had not committed. *)
Definition with_app_context {A} (m : M World A) : M World A :=
  on_exit rollback_session m.

(** [ch.basic_ack] and [ch.basic_nack] *)
Definition basic_ack (delivery_tag : Z) : M World unit :=
  modify (set_channel (λ c, c ++ [BasicAck delivery_tag])).
Definition basic_nack (delivery_tag : Z) (requeue : bool) : M World unit :=
  modify (set_channel (λ c, c ++ [BasicNack delivery_tag requeue])).

Definition on_net {A} (m : M (Pika.Net P) A) : M World A :=
  zoom net set_net m.
End ops.

(** Primary keys come from a sequence. *)
Definition next_id (ids : list Z) : Z := 1 + foldr Z.max 0 ids.

(** A date field of a JSON body: absent, an ISO date, or something
    [datetime.fromisoformat] rejects. *)
Inductive field := Missing | Iso (d : date) | Malformed.

(** [datetime.fromisoformat(d[key]).date()] *)
Definition fromisoformat {W} (f : field) : M W date :=
  match f with
  | Missing => raise KeyError
  | Iso d => mret d
  | Malformed => raise ValueError
  end.

End Db.

Import Db.

(** * Analytics service *)

Module Analytics.

(** ** config.py *)

Module Config.
Definition DEFAULT_CYCLE_LENGTH : Z := 28.
Definition CYCLE_EXCHANGE : string := "cycle_events".
Definition CYCLE_QUEUE : string := "analytics_cycle_queue".
Definition CYCLE_ROUTING_KEY : string := "cycle.#".
Definition PREDICTION_EXCHANGE : string := "prediction_events".
Definition PREDICTION_ROUTING_KEY : string := "prediction.new".
End Config.

(** ** models.py

    The [created_at] / [updated_at] timestamps are left out: no handler
    reads them. *)

Module CycleAnalytics.
Record t := mk {
  id : Z;
  user_id : Z;
  cycle_id : Z;
  start_date : date;
  end_date : option date;
  cycle_length : option Z;
  period_length : option Z;
  is_regular : option bool;
  average_cycle_length : option Q;
  cycle_variance : option Q
}.

(** [CycleAnalytics(user_id=..., cycle_id=..., start_date=...)], given
    the primary key the insert assigns. *)
Definition new (i u c : Z) (s : date) : t :=
  mk i u c s None None None None None None.

Definition set_end_date (v : option date) (a : t) : t :=
  mk (id a) (user_id a) (cycle_id a) (start_date a) v (cycle_length a)
     (period_length a) (is_regular a) (average_cycle_length a)
     (cycle_variance a).
Definition set_cycle_length (v : option Z) (a : t) : t :=
  mk (id a) (user_id a) (cycle_id a) (start_date a) (end_date a) v
     (period_length a) (is_regular a) (average_cycle_length a)
     (cycle_variance a).
Definition set_period_length (v : option Z) (a : t) : t :=
  mk (id a) (user_id a) (cycle_id a) (start_date a) (end_date a)
     (cycle_length a) v (is_regular a) (average_cycle_length a)
     (cycle_variance a).
Definition set_is_regular (v : option bool) (a : t) : t :=
  mk (id a) (user_id a) (cycle_id a) (start_date a) (end_date a)
     (cycle_length a) (period_length a) v (average_cycle_length a)
     (cycle_variance a).
Definition set_average_cycle_length (v : option Q) (a : t) : t :=
  mk (id a) (user_id a) (cycle_id a) (start_date a) (end_date a)
     (cycle_length a) (period_length a) (is_regular a) v
     (cycle_variance a).
Definition set_cycle_variance (v : option Q) (a : t) : t :=
  mk (id a) (user_id a) (cycle_id a) (start_date a) (end_date a)
     (cycle_length a) (period_length a) (is_regular a)
     (average_cycle_length a) v.
End CycleAnalytics.

Module Prediction.
(** [id] and [is_active] are unset on a freshly constructed object;
    the insert fills them (primary key, column default [True]). *)
Record t := mk {
  id : option Z;
  user_id : Z;
  predicted_start_date : date;
  confidence_score : Q;
  prediction_method : string;
  based_on_cycles : Z;
  notes : string;
  is_active : option bool;
  actual_start_date : option date
}.

Definition set_is_active (v : option bool) (p : t) : t :=
  mk (id p) (user_id p) (predicted_start_date p) (confidence_score p)
     (prediction_method p) (based_on_cycles p) (notes p) v
     (actual_start_date p).
Definition set_id (v : option Z) (p : t) : t :=
  mk v (user_id p) (predicted_start_date p) (confidence_score p)
     (prediction_method p) (based_on_cycles p) (notes p) (is_active p)
     (actual_start_date p).
End Prediction.

(** ** prediction_engine.py *)

Module PredictionEngine.
Import CycleAnalytics.

(** [.order_by(CycleAnalytics.start_date.desc())]: where two rows
    share a start date the database may return them in either order;
    the model fixes the order the merge sort gives. *)
Definition newer_first (a b : CycleAnalytics.t) : Prop :=
  start_date b ≤ start_date a.

#[global] Instance newer_first_dec : RelDecision newer_first.
Proof. intros a b. unfold newer_first. apply _. Defined.

Definition order_by_start_date_desc
  : list CycleAnalytics.t → list CycleAnalytics.t :=
  merge_sort newer_first.

(** [filter_by(user_id=user_id)] *)
Definition filter_by_user (user : Z) (rows : list CycleAnalytics.t) :=
  filter (λ a, user_id a = user) rows.

(** The query shared by the two statistics:
    [filter_by(user_id).filter(cycle_length.isnot(None))
       .order_by(start_date.desc()).limit(limit).all()] *)
Definition recent_with_length
    (rows : list CycleAnalytics.t) (user : Z) (limit : nat) :=
  take limit
    (order_by_start_date_desc
       (filter (λ a, is_Some (cycle_length a))
          (filter_by_user user rows))).

Definition cycle_lengths (analytics : list CycleAnalytics.t) : list Z :=
  omap cycle_length analytics.

Definition calculate_average_cycle_length_limit
    (rows : list CycleAnalytics.t) (user : Z) (limit : nat) : Q :=
  let analytics := recent_with_length rows user limit in
  match analytics with
  | [] => inject_Z Config.DEFAULT_CYCLE_LENGTH
  | _ =>
      let total_length := Py.sum (cycle_lengths analytics) in
      Py.true_div total_length (length analytics)
  end.

Definition calculate_average_cycle_length rows user : Q :=
  calculate_average_cycle_length_limit rows user 6.

Definition calculate_cycle_variance_limit
    (rows : list CycleAnalytics.t) (user : Z) (limit : nat) : Q :=
  let analytics := recent_with_length rows user limit in
  if decide (length analytics < 2)%nat then (0 # 1)%Q
  else
    let cycle_lengths := cycle_lengths analytics in
    let mean := Py.true_div (Py.sum cycle_lengths) (length cycle_lengths) in
    let squares :=
      (λ x, Qpower (inject_Z x - mean) 2) <$> cycle_lengths in
    (Py.fsum squares / inject_Z (Z.of_nat (length cycle_lengths)))%Q.

Definition calculate_cycle_variance rows user : Q :=
  calculate_cycle_variance_limit rows user 6.

(** [.order_by(start_date.desc()).first()] over the user's rows *)
Definition latest (rows : list CycleAnalytics.t) (user : Z)
  : option CycleAnalytics.t :=
  head (order_by_start_date_desc (filter_by_user user rows)).

Definition count (rows : list CycleAnalytics.t) (user : Z) : Z :=
  Z.of_nat (length (filter_by_user user rows)).

Definition predict_next_period
    (rows : list CycleAnalytics.t) (user : Z) : option Prediction.t :=
  match latest rows user with
  | None => None
  | Some latest_analytics =>
      let avg_cycle_length := calculate_average_cycle_length rows user in
      let variance := calculate_cycle_variance rows user in
      let '(confidence, is_regular) :=
        if Py.lt variance (2 # 1) then ((9 # 10)%Q, true)
        else if Py.lt variance (5 # 1) then ((3 # 4)%Q, true)
        else ((3 # 5)%Q, false) in
      let predicted_date :=
        Date.add_days (start_date latest_analytics)
                      (Py.int avg_cycle_length) in
      let cycle_count := count rows user in
      Some (Prediction.mk
              None user predicted_date confidence
              "average_cycle_length"
              (Z.min cycle_count 6)
              ("Predicted using " +:+ Py.str (Z.min cycle_count 6)
               +:+ " recent cycles. Cycle regularity: "
               +:+ (if is_regular then "regular" else "irregular"))
              None None)
  end.




End PredictionEngine.

(** ** message_queue.py *)

Module MessageQueue.

(** The body of a cycle event after [json.loads].  Both ids are
    integers, as in every event the cycle-tracking publisher builds. *)
Record CycleData := mkCycleData {
  cd_start_date : field;
  cd_end_date : field
}.

Record Message := mkMessage {
  event_type : option string;
  user_id : Z;
  cycle_id : Z;
  data : CycleData
}.

(** The prediction event put on the exchange. *)
Record PredictionEvent := mkPredictionEvent {
  pe_event_type : string;
  pe_prediction_id : option Z;
  pe_user_id : Z;
  pe_predicted_start_date : date;
  pe_confidence_score : Q;
  pe_data : Prediction.t
}.

Record Store := mkStore {
  analytics : list CycleAnalytics.t;
  predictions : list Prediction.t
}.

Definition World : Type := Db.World Store PredictionEvent unit.

Definition set_analytics
    (f : list CycleAnalytics.t → list CycleAnalytics.t) (s : Store)
  : Store :=
  mkStore (f (analytics s)) (predictions s).
Definition set_predictions
    (f : list Prediction.t → list Prediction.t) (s : Store) : Store :=
  mkStore (analytics s) (f (predictions s)).

(** *** Objects of the session *)

(** An ORM object of class CycleAnalytics: where its row is, and its
    attributes. *)
Definition object : Type := nat * CycleAnalytics.t.

(** [db.session.add(CycleAnalytics(...))] *)
Definition add_analytics (u c : Z) (s : date) : M World object :=
  rows ← gets (λ w, analytics (session w));
  let a := CycleAnalytics.new (next_id (CycleAnalytics.id <$> rows)) u c s in
  modify (set_session (set_analytics (λ rows, rows ++ [a]))) ;;
  mret (length rows, a).

(** [analytics.attr = v] *)
Definition setattr (f : CycleAnalytics.t → CycleAnalytics.t) (o : object)
  : M World object :=
  modify (set_session (set_analytics (λ rows, <[o.1 := f o.2]> rows))) ;;
  mret (o.1, f o.2).

(** [Prediction.query.filter_by(user_id=user_id, is_active=True)
      .update({'is_active': False})] *)
Definition deactivate (user : Z) (p : Prediction.t) : Prediction.t :=
  if decide (Prediction.user_id p = user
             ∧ Prediction.is_active p = Some true)
  then Prediction.set_is_active (Some false) p
  else p.

Definition deactivate_active (user : Z) : M World unit :=
  db_call ;;
  modify (set_session (set_predictions (fmap (deactivate user)))).

(** [db.session.add(prediction)]: the insert assigns the primary key
    and the column default of [is_active]. *)
Definition inserted (ids : list (option Z)) (p : Prediction.t)
  : Prediction.t :=
  Prediction.set_id (Some (next_id (omap id ids)))
    (Prediction.set_is_active
       (Some (default true (Prediction.is_active p))) p).

Definition add_prediction (p : Prediction.t) : M World Prediction.t :=
  rows ← gets (λ w, predictions (session w));
  let p' := inserted (Prediction.id <$> rows) p in
  modify (set_session (set_predictions (λ rows, rows ++ [p']))) ;;
  mret p'.

(** *** class MessagePublisher

    An object of the class is modelled by whether its connection is
    set. *)

Module MessagePublisher.

(** One attempt; a failure is logged and the publisher is left without a
    connection. *)
Definition _connect : M (Pika.Net PredictionEvent) bool :=
  try_except
    (Pika.establish [Config.PREDICTION_EXCHANGE] ;; mret true)
    (λ e, mret false).

(** [MessagePublisher()] *)
Definition __init__ : M (Pika.Net PredictionEvent) bool := _connect.

Definition publish_prediction (connection : bool)
    (prediction_data : Prediction.t) : M (Pika.Net PredictionEvent) unit :=
  try_except
    (connection ← (if connection then mret true else _connect);
     let message :=
       mkPredictionEvent "new_prediction"
         (Prediction.id prediction_data)
         (Prediction.user_id prediction_data)
         (Prediction.predicted_start_date prediction_data)
         (Prediction.confidence_score prediction_data)
         prediction_data in
     if connection : bool then
       Pika.operation ;;
       Pika.emit (Pika.Published Config.PREDICTION_EXCHANGE
                    Config.PREDICTION_ROUTING_KEY message)
     else raise AttributeError)
    (λ e, mret tt).
(** [publish_prediction], returning the connection it leaves in the
    object: the one it found, or the one its reconnect made. *)
Definition publish_prediction_self (connection : bool)
    (prediction_data : Prediction.t) : M (Pika.Net PredictionEvent) bool :=
  connection ← (if connection then mret true else _connect);
  try_except
    (let message :=
       mkPredictionEvent "new_prediction"
         (Prediction.id prediction_data)
         (Prediction.user_id prediction_data)
         (Prediction.predicted_start_date prediction_data)
         (Prediction.confidence_score prediction_data)
         prediction_data in
     if connection : bool then
       Pika.operation ;;
       Pika.emit (Pika.Published Config.PREDICTION_EXCHANGE
                    Config.PREDICTION_ROUTING_KEY message)
     else raise AttributeError)
    (λ e, mret tt) ;;
  mret connection.

(** [close()]: closes the connection the object holds, if any; closing
    is a broker operation and can raise like one. *)
Definition close (connection : bool) : M (Pika.Net PredictionEvent) unit :=
  if connection then Pika.operation else mret tt.

End MessagePublisher.

(** *** class MessageConsumer *)

Module MessageConsumer.

Definition _connect : M (Pika.Net PredictionEvent) unit :=
  Pika.connect_with_retry
    [Config.CYCLE_EXCHANGE; Config.CYCLE_QUEUE; Config.CYCLE_ROUTING_KEY].

(** [json.loads(body)] and [message['event_type']] *)
Definition json_loads (body : option Message) : M World Message :=
  match body with
  | None => raise JSONDecodeError
  | Some message =>
      match event_type message with
      | None => raise KeyError
      | Some _ => mret message
      end
  end.

(** The row before [analytics] in time:
    [filter_by(user_id).filter(start_date < analytics.start_date)
       .order_by(start_date.desc()).first()] *)
Definition prev_analytics (user : Z) (start : date)
    (rows : list CycleAnalytics.t) : option CycleAnalytics.t :=
  head (PredictionEngine.order_by_start_date_desc
          (filter (λ a, CycleAnalytics.start_date a < start)
             (PredictionEngine.filter_by_user user rows))).

(** Lines 97-130 of the callback: upsert the analytics row, refresh
    its statistics and its cycle length, commit. *)
Definition update_analytics (message : Message) : M World unit :=
  let cycle_data := data message in
  let user_id := user_id message in
  let cycle_id := cycle_id message in
  found ← query (λ s, list_find (λ a, CycleAnalytics.cycle_id a = cycle_id)
                                (analytics s));
  analytics ← match found with
              | Some o => mret o
              | None =>
                  start ← fromisoformat (cd_start_date cycle_data);
                  add_analytics user_id cycle_id start
              end;
  analytics ← match cd_end_date cycle_data with
              | Missing => mret analytics
              | Malformed => raise ValueError
              | Iso e =>
                  analytics ← setattr (CycleAnalytics.set_end_date (Some e))
                                      analytics;
                  setattr (λ a, CycleAnalytics.set_period_length
                                  (Some (Date.days_between e
                                           (CycleAnalytics.start_date a) + 1)) a)
                          analytics
              end;
  average ← query (λ s, PredictionEngine.calculate_average_cycle_length
                          (MessageQueue.analytics s) user_id);
  analytics ← setattr (CycleAnalytics.set_average_cycle_length (Some average))
                      analytics;
  variance ← query (λ s, PredictionEngine.calculate_cycle_variance
                           (MessageQueue.analytics s) user_id);
  analytics ← setattr (CycleAnalytics.set_cycle_variance (Some variance))
                      analytics;
  analytics ← setattr (CycleAnalytics.set_is_regular
                         (if Py.truthy variance
                          then Some (Py.lt variance (5 # 1))
                          else None))
                      analytics;
  prev ← query (λ s, prev_analytics user_id
                       (CycleAnalytics.start_date (analytics.2))
                       (MessageQueue.analytics s));
  match prev with
  | Some prev_analytics =>
      setattr (CycleAnalytics.set_cycle_length
                 (Some (Date.days_between
                          (CycleAnalytics.start_date (analytics.2))
                          (CycleAnalytics.start_date prev_analytics))))
              analytics ;; mret tt
  | None => mret tt
  end ;;
  commit.

(** Lines 132-147: with two rows or more, predict, supersede the
    active predictions, commit, publish. *)
Definition generate_prediction (user_id : Z) : M World unit :=
  n ← query (λ s, PredictionEngine.count (analytics s) user_id);
  if decide (2 ≤ n) then
    prediction ← query (λ s, PredictionEngine.predict_next_period
                               (analytics s) user_id);
    match prediction with
    | Some prediction =>
        deactivate_active user_id ;;
        prediction ← add_prediction prediction;
        commit ;;
        publisher ← on_net MessagePublisher.__init__;
        on_net (MessagePublisher.publish_prediction publisher prediction)
    | None => mret tt
    end
  else mret tt.

(** The [try] body of the callback, up to the acknowledgement. *)
Definition process_cycle_event (body : option Message) : M World unit :=
  message ← json_loads body;
  with_app_context
    (update_analytics message ;;
     generate_prediction (user_id message)).

(** [MessageConsumer.callback(ch, method, properties, body)] *)
Definition callback (delivery_tag : Z) (body : option Message)
  : M World unit :=
  try_except
    (process_cycle_event body ;;
     basic_ack delivery_tag)
    (λ e, basic_nack delivery_tag false).

End MessageConsumer.

End MessageQueue.

(** ** routes.py *)

Module Routes.
Import MessageQueue.

Inductive payload :=
| PredictionPayload (message : string) (prediction : Prediction.t)
| ErrorPayload (error : string) (message : option string).

(** [jsonify(...), status] *)
Definition response : Type := payload * Z.

(** [POST /predictions/generate] *)
Definition generate_prediction (user_id : Z) : M World response :=
  try_except
    (cycle_count ← query (λ s, PredictionEngine.count (analytics s) user_id);
     if decide (cycle_count < 2) then
       mret (ErrorPayload "Insufficient data for prediction"
               (Some "At least 2 cycles required for predictions"), 400)
     else
       prediction ← query (λ s, PredictionEngine.predict_next_period
                                  (analytics s) user_id);
       match prediction with
       | None => mret (ErrorPayload "Failed to generate prediction" None, 500)
       | Some prediction =>
           deactivate_active user_id ;;
           prediction ← add_prediction prediction;
           commit ;;
           try_except
             (publisher ← on_net MessagePublisher.__init__;
              connection ←
                on_net (MessagePublisher.publish_prediction_self
                          publisher prediction);
              on_net (MessagePublisher.close connection))
             (λ e, mret tt) ;;
           mret (PredictionPayload "Prediction generated successfully"
                   prediction, 201)
       end)
    (λ e, rollback ;;
          mret (ErrorPayload "Failed to generate prediction" None, 500)).

End Routes.

End Analytics.

(** * Cycle-tracking service *)

Module CycleTracking.

Module Config.
Definition CYCLE_EXCHANGE : string := "cycle_events".
Definition CYCLE_ROUTING_KEY : string := "cycle.new".
End Config.

(** ** models.py *)

Module Symptom.
Record t := mk {
  id : Z;
  cycle_id : Z;
  user_id : Z;
  date : Date.date;
  symptom_type : string;
  value : string;
  severity : option Z;
  notes : option string
}.
End Symptom.

Module Cycle.
Record t := mk {
  id : Z;
  user_id : Z;
  start_date : date;
  end_date : option date;
  cycle_length : option Z;
  period_length : option Z
}.

Definition set_end_date (v : option date) (c : t) : t :=
  mk (id c) (user_id c) (start_date c) v (cycle_length c)
     (period_length c).
Definition set_period_length (v : option Z) (c : t) : t :=
  mk (id c) (user_id c) (start_date c) (end_date c) (cycle_length c) v.

(** [cycle.to_dict()]: the row and, through the relationship, its
    symptoms. *)
Record dict := mkDict {
  row : t;
  symptoms : list Symptom.t
}.
End Cycle.

Record Store := mkStore {
  cycles : list Cycle.t;
  symptoms : list Symptom.t
}.

Definition set_cycles (f : list Cycle.t → list Cycle.t) (s : Store) : Store :=
  mkStore (f (cycles s)) (symptoms s).
Definition set_symptoms (f : list Symptom.t → list Symptom.t) (s : Store)
  : Store :=
  mkStore (cycles s) (f (symptoms s)).

Definition to_dict (s : Store) (c : Cycle.t) : Cycle.dict :=
  Cycle.mkDict c (filter (λ y, Symptom.cycle_id y = Cycle.id c) (symptoms s)).

(** ** message_queue.py *)

Module MessageQueue.

Record CycleEvent := mkCycleEvent {
  event_type : string;
  cycle_id : Z;
  user_id : Z;
  start_date : date;
  end_date : option date;
  data : Cycle.dict
}.

(** *** class MessagePublisher

    An object of the class is modelled by whether its connection is
    open when a publish starts; what a reconnect inside a publish leaves
    in the object is not tracked. *)

Module MessagePublisher.

Record t := mk { connection_open : bool }.

Definition _connect : M (Pika.Net CycleEvent) unit :=
  Pika.connect_with_retry [Config.CYCLE_EXCHANGE].

(** [MessagePublisher()]: the constructor connects, and raises when
    the connect does. *)
Definition __init__ : M (Pika.Net CycleEvent) t :=
  _connect ;; mret (mk true).

Definition publish_cycle_event (self : t) (cycle_data : Cycle.dict)
  : M (Pika.Net CycleEvent) unit :=
  try_except
    ((if connection_open self then mret tt else _connect) ;;
     let message :=
       mkCycleEvent "new_cycle_data"
         (Cycle.id (Cycle.row cycle_data))
         (Cycle.user_id (Cycle.row cycle_data))
         (Cycle.start_date (Cycle.row cycle_data))
         (Cycle.end_date (Cycle.row cycle_data))
         cycle_data in
     Pika.operation ;;
     Pika.emit (Pika.Published Config.CYCLE_EXCHANGE
                  Config.CYCLE_ROUTING_KEY message))
    (λ e, mret tt).

End MessagePublisher.

(** The module-level [publisher] is [None] or a publisher object. *)
Definition World : Type :=
  Db.World Store CycleEvent (option MessagePublisher.t).

(** [get_publisher()] *)
Definition get_publisher : M World MessagePublisher.t :=
  publisher ← gets globals;
  match publisher with
  | Some p => mret p
  | None =>
      p ← on_net MessagePublisher.__init__;
      modify (set_globals (Some p)) ;;
      mret p
  end.

End MessageQueue.

(** ** routes.py *)

Module Routes.
Import MessageQueue.

(** The JSON body of a request, as far as the routes read it. *)
Record CycleJson := mkCycleJson {
  j_start_date : field;
  j_end_date : field
}.

Record SymptomJson := mkSymptomJson {
  j_cycle_id : option Z;
  j_date : field;
  j_symptom_type : option string;
  j_value : option string;
  j_severity : option Z;
  j_notes : option string
}.

Inductive payload :=
| CyclePayload (c : Cycle.dict)
| SymptomPayload (s : Symptom.t)
| ErrorPayload (error : string).

(** [jsonify(...), status] *)
Definition response : Type := payload * Z.

(** The inner [try] of every mutating route:
[[
    try:
        publisher = get_publisher()
        publisher.publish_cycle_event(cycle.to_dict())
    except Exception as e:
        logger.error(...)
]] *)
Definition publish_event (cycle : Cycle.t) : M World unit :=
  try_except
    (publisher ← get_publisher;
     cycle_data ← gets (λ w, to_dict (session w) cycle);
     on_net (MessagePublisher.publish_cycle_event publisher cycle_data))
    (λ e, mret tt).

(** The outer [except] of every mutating route. *)
Definition failed (error : string) (e : exn) : M World response :=
  rollback ;; mret (ErrorPayload error, 500).

(** [POST /cycles] *)
Definition create_cycle (user_id : Z) (data : CycleJson) : M World response :=
  try_except
    (match j_start_date data with
     | Missing => mret (ErrorPayload "start_date is required", 400)
     | _ =>
         start ← fromisoformat (j_start_date data);
         end_ ← match j_end_date data with
                | Missing => mret None
                | f => d ← fromisoformat f; mret (Some d)
                end;
         rows ← gets (λ w, cycles (session w));
         let cycle :=
           Cycle.mk (next_id (Cycle.id <$> rows)) user_id start end_
                    None None in
         modify (set_session (set_cycles (λ rows, rows ++ [cycle]))) ;;
         commit ;;
         publish_event cycle ;;
         cycle_data ← gets (λ w, to_dict (session w) cycle);
         mret (CyclePayload cycle_data, 201)
     end)
    (failed "Failed to create cycle").

(** [PUT /cycles/<cycle_id>] *)
Definition update_cycle (user_id cycle_id : Z) (data : CycleJson)
  : M World response :=
  try_except
    (found ← query (λ s, list_find (λ c, Cycle.id c = cycle_id
                                         ∧ Cycle.user_id c = user_id)
                                   (cycles s));
     match found with
     | None => mret (ErrorPayload "Cycle not found", 404)
     | Some (i, cycle) =>
         cycle ← match j_end_date data with
                 | Missing => mret cycle
                 | f =>
                     e ← fromisoformat f;
                     let cycle := Cycle.set_end_date (Some e) cycle in
                     let cycle :=
                       Cycle.set_period_length
                         (Some (Date.days_between e (Cycle.start_date cycle) + 1))
                         cycle in
                     modify (set_session (set_cycles (λ rows, <[i := cycle]> rows))) ;;
                     mret cycle
                 end;
         commit ;;
         publish_event cycle ;;
         cycle_data ← gets (λ w, to_dict (session w) cycle);
         mret (CyclePayload cycle_data, 200)
     end)
    (failed "Failed to update cycle").

(** [POST /symptoms] *)
Definition create_symptom (user_id : Z) (data : SymptomJson)
  : M World response :=
  try_except
    (match j_cycle_id data, j_date data, j_symptom_type data, j_value data with
     | None, _, _, _ => mret (ErrorPayload "cycle_id is required", 400)
     | _, Missing, _, _ => mret (ErrorPayload "date is required", 400)
     | _, _, None, _ => mret (ErrorPayload "symptom_type is required", 400)
     | _, _, _, None => mret (ErrorPayload "value is required", 400)
     | Some cycle_id, date_field, Some symptom_type, Some value =>
         found ← query (λ s, list_find (λ c, Cycle.id c = cycle_id
                                             ∧ Cycle.user_id c = user_id)
                                       (cycles s));
         match found with
         | None => mret (ErrorPayload "Cycle not found", 404)
         | Some (_, cycle) =>
             d ← fromisoformat date_field;
             rows ← gets (λ w, symptoms (session w));
             let symptom :=
               Symptom.mk (next_id (Symptom.id <$> rows)) cycle_id user_id d
                          symptom_type value (j_severity data)
                          (j_notes data) in
             modify (set_session (set_symptoms (λ rows, rows ++ [symptom]))) ;;
             commit ;;
             publish_event cycle ;;
             mret (SymptomPayload symptom, 201)
         end
     end)
    (failed "Failed to log symptom").

(** [GET /cycles/<cycle_id>] *)
Definition get_cycle (user_id cycle_id : Z) : M World response :=
  try_except
    (found ← query (λ s, list_find (λ c, Cycle.id c = cycle_id
                                         ∧ Cycle.user_id c = user_id)
                                   (cycles s));
     match found with
     | None => mret (ErrorPayload "Cycle not found", 404)
     | Some (_, cycle) =>
         cycle_data ← gets (λ w, to_dict (session w) cycle);
         mret (CyclePayload cycle_data, 200)
     end)
    (λ e, mret (ErrorPayload "Failed to retrieve cycle", 500)).

End Routes.

(** ** auth.py

    The same module guards the routes of the cycle-tracking, the
    notification and the user service. *)

Module Auth.
Import MessageQueue Routes.

(** The claims of a token, as far as the decorator reads them: the
    [user_id] claim if there is one, and whether there are any others (a
    payload without any claim is falsy). *)
Record payload := mkPayload {
  user_id : option Z;
  other_claims : bool
}.

(** [jwt.decode(token, Config.JWT_SECRET_KEY, algorithms=[...])] *)
Inductive jwt_result :=
| Claims (p : payload)
| ExpiredSignatureError
| InvalidTokenError.

(** [auth_header.split(' ')] *)
Fixpoint split (s : string) : list string :=
  match s with
  | EmptyString => [EmptyString]
  | String c s' =>
      if Ascii.eqb c " "%char then EmptyString :: split s'
      else match split s' with
           | field :: fields => String c field :: fields
           | [] => [String c EmptyString]
           end
  end.

Section token_required.
Context (jwt_decode : string → jwt_result).

Definition decode_token (token : string) : option payload :=
  match jwt_decode token with
  | Claims payload => Some payload
  | ExpiredSignatureError => None
  | InvalidTokenError => None
  end.

(** Truthiness of the payload, a dict. *)
Definition truthy (p : payload) : bool :=
  bool_decide (is_Some (user_id p)) || other_claims p.

(** [token_required(f)], called with the request's Authorization
    header if it has one. *)
Definition token_required (f : Z → M World response)
    (authorization : option string) : M World response :=
  let unauthorized (error : string) : M World response :=
    mret (ErrorPayload error, 401) in
  let verify (token : option string) : M World response :=
    match token with
    | None | Some EmptyString => unauthorized "Token is missing"
    | Some token =>
        match decode_token token with
        | None => unauthorized "Token is invalid or expired"
        | Some payload =>
            if negb (truthy payload)
            then unauthorized "Token is invalid or expired"
            else match user_id payload with
                 | Some user_id => f user_id
                 | None => raise KeyError
                 end
        end
    end in
  match authorization with
  | Some auth_header =>
      match split auth_header !! 1%nat with
      | Some token => verify (Some token)
      | None => unauthorized "Invalid token format"
      end
  | None => verify None
  end.
End token_required.

End Auth.

End CycleTracking.

(** * Notification service *)

Module Notification.

Module Config.
Definition PREDICTION_EXCHANGE : string := "prediction_events".
Definition PREDICTION_QUEUE : string := "notification_prediction_queue".
Definition PREDICTION_ROUTING_KEY : string := "prediction.#".
End Config.

(** ** models.py *)

Module NotificationPreference.
Record t := mk {
  id : Z;
  user_id : Z;
  period_reminder_enabled : option bool;
  reminder_days_before : Z;
  email_enabled : option bool;
  push_enabled : option bool
}.

(** [NotificationPreference(user_id=user_id)] once inserted: the
    column defaults. *)
Definition new (i u : Z) : t :=
  mk i u (Some true) 3 (Some true) (Some false).
Definition set_period_reminder_enabled (v : option bool) (p : t) : t :=
  mk (id p) (user_id p) v (reminder_days_before p) (email_enabled p)
     (push_enabled p).
Definition set_reminder_days_before (v : Z) (p : t) : t :=
  mk (id p) (user_id p) (period_reminder_enabled p) v (email_enabled p)
     (push_enabled p).
Definition set_email_enabled (v : option bool) (p : t) : t :=
  mk (id p) (user_id p) (period_reminder_enabled p) (reminder_days_before p)
     v (push_enabled p).
Definition set_push_enabled (v : option bool) (p : t) : t :=
  mk (id p) (user_id p) (period_reminder_enabled p) (reminder_days_before p)
     (email_enabled p) v.

End NotificationPreference.

Module Notification.
Record t := mk {
  id : Z;
  user_id : Z;
  prediction_id : option Z;
  notification_type : string;
  title : string;
  message : string;
  scheduled_for : date;
  status : string;
  sent_at : option date;
  error_message : option string
}.
Definition set_status (v : string) (n : t) : t :=
  mk (id n) (user_id n) (prediction_id n) (notification_type n) (title n)
     (message n) (scheduled_for n) v (sent_at n) (error_message n).
Definition set_sent_at (v : option date) (n : t) : t :=
  mk (id n) (user_id n) (prediction_id n) (notification_type n) (title n)
     (message n) (scheduled_for n) (status n) v (error_message n).
Definition set_error_message (v : option string) (n : t) : t :=
  mk (id n) (user_id n) (prediction_id n) (notification_type n) (title n)
     (message n) (scheduled_for n) (status n) (sent_at n) v.

End Notification.

Record Store := mkStore {
  preferences : list NotificationPreference.t;
  notifications : list Notification.t
}.

Definition set_preferences
    (f : list NotificationPreference.t → list NotificationPreference.t)
    (s : Store) : Store :=
  mkStore (f (preferences s)) (notifications s).
Definition set_notifications
    (f : list Notification.t → list Notification.t) (s : Store) : Store :=
  mkStore (preferences s) (f (notifications s)).

Definition World : Type := Db.World Store unit unit.

(** The [predicted_start_date] of a prediction event: absent, a string
    [YYYY-MM-DD], or anything else. *)
Inductive date_string :=
| NoDate
| IsoDate (year month day : Z)
| BadDate.

(** ** notification_manager.py *)

Module NotificationManager.

Definition days_in_month (y m : Z) : Z :=
  if m =? 2 then (if Date.is_leap y then 29 else 28)
  else if (m =? 4) || (m =? 6) || (m =? 9) || (m =? 11) then 30
  else 31.

(** [datetime.fromisoformat(predicted_date)], a midnight: its
    calendar date. *)
Definition fromisoformat (s : date_string) : M World (Z * Z * Z) :=
  match s with
  | NoDate => raise TypeError
  | BadDate => raise ValueError
  | IsoDate y m d =>
      if decide (1 ≤ y ≤ 9999 ∧ 1 ≤ m ≤ 12 ∧ 1 ≤ d ≤ days_in_month y m)
      then mret (y, m, d)
      else raise ValueError
  end.

Definition ordinal (ymd : Z * Z * Z) : date :=
  Date.ymd ymd.1.1 ymd.1.2 ymd.2.

(** [predicted_datetime.strftime("%B %d")] *)
Definition month_name (m : Z) : string :=
  nth (Z.to_nat (m - 1))
    ["January"; "February"; "March"; "April"; "May"; "June"; "July";
     "August"; "September"; "October"; "November"; "December"] "".

Definition strftime_B_d (ymd : Z * Z * Z) : string :=
  month_name ymd.1.2 +:+ " "
  +:+ (if ymd.2 <? 10 then "0" +:+ Py.str ymd.2 else Py.str ymd.2).

(** Truthiness of a nullable boolean column. *)
Definition truthy (b : option bool) : bool := default false b.

Definition create_period_reminder
    (user_id : Z) (prediction_id : option Z) (predicted_date : date_string)
  : M World (option Notification.t) :=
  try_except
    (found ← query (λ s, list_find
                           (λ p, NotificationPreference.user_id p = user_id)
                           (preferences s));
     preferences ←
       match found with
       | Some (_, p) => mret p
       | None =>
           rows ← gets (λ w, preferences (session w));
           let p := NotificationPreference.new
                      (next_id (NotificationPreference.id <$> rows))
                      user_id in
           modify (set_session (set_preferences (λ rows, rows ++ [p]))) ;;
           commit ;;
           mret p
       end;
     if negb (truthy (NotificationPreference.period_reminder_enabled
                        preferences))
     then mret None
     else
       predicted_datetime ← fromisoformat predicted_date;
       let days := NotificationPreference.reminder_days_before preferences in
       let reminder_date := Date.sub_days (ordinal predicted_datetime) days in
       rows ← gets (λ w, notifications (session w));
       let notification :=
         Notification.mk
           (next_id (Notification.id <$> rows))
           user_id prediction_id "period_reminder" "Period Reminder"
           ("Your period is predicted to start in " +:+ Py.str days
            +:+ " days (around " +:+ strftime_B_d predicted_datetime
            +:+ "). Make sure you are prepared!")
           reminder_date "pending" None None in
       modify (set_session (set_notifications (λ rows, rows ++ [notification]))) ;;
       commit ;;
       mret (Some notification))
    (λ e, rollback ;; mret None).

(** The two methods below read the clock and print an exception:
    [utcnow] is what [datetime.utcnow()] answers during the run (its
    calendar date; the run does not pass midnight), [str] the text of
    an exception. *)
Section delivery.
Context (utcnow : date) (str : exn → string).

(** [notification.attr = v] on an object the session holds: an update
    of its row, at the position the query found it. *)
Definition setattr (f : Notification.t → Notification.t) (notification : nat)
  : M World unit :=
  modify (set_session (set_notifications (alter f notification))).

Definition send_notification (notification : nat) : M World bool :=
  try_except
    (setattr (Notification.set_status "sent") notification ;;
     setattr (Notification.set_sent_at (Some utcnow)) notification ;;
     commit ;;
     mret true)
    (λ e,
       setattr (Notification.set_status "failed") notification ;;
       setattr (Notification.set_error_message (Some (str e))) notification ;;
       commit ;;
       mret false).

(** [Notification.status == 'pending', Notification.scheduled_for <= today] *)
Definition due (today : date) (n : Notification.t) : Prop :=
  Notification.status n = "pending" ∧ Notification.scheduled_for n ≤ today.

#[global] Instance due_dec today n : Decision (due today n).
Proof. unfold due. apply _. Defined.

(** The objects the query answers, in table order. *)
Definition pending (today : date) (rows : list Notification.t) : list nat :=
  (filter (λ o, due today o.2) (imap pair rows)).*1.

(** The loop:
[[
    sent_count = 0
    for notification in pending_notifications:
        if NotificationManager.send_notification(notification):
            sent_count += 1
]] *)
Fixpoint send_each (pending_notifications : list nat) (sent_count : Z)
  : M World Z :=
  match pending_notifications with
  | [] => mret sent_count
  | notification :: rest =>
      sent ← send_notification notification;
      send_each rest (if sent : bool then sent_count + 1 else sent_count)
  end.

Definition process_pending_notifications : M World Z :=
  try_except
    (let today := utcnow in
     pending_notifications ←
       query (λ s, pending today (notifications s));
     send_each pending_notifications 0)
    (λ e, mret 0).
End delivery.

End NotificationManager.

(** ** message_queue.py *)

Module MessageQueue.

Record Message := mkMessage {
  event_type : option string;
  user_id : Z;
  prediction_id : option Z;
  predicted_start_date : date_string
}.

(** *** class MessageConsumer *)

Module MessageConsumer.

Definition _connect : M (Pika.Net unit) unit :=
  Pika.connect_with_retry
    [Config.PREDICTION_EXCHANGE; Config.PREDICTION_QUEUE;
     Config.PREDICTION_ROUTING_KEY].

Definition json_loads (body : option Message) : M World Message :=
  match body with
  | None => raise JSONDecodeError
  | Some message =>
      match event_type message with
      | None => raise KeyError
      | Some _ => mret message
      end
  end.

(** The [try] body of the callback, up to the acknowledgement. *)
Definition process_prediction_event (body : option Message)
  : M World unit :=
  message ← json_loads body;
  with_app_context
    (notification ←
       NotificationManager.create_period_reminder
         (user_id message) (prediction_id message)
         (predicted_start_date message);
     mret tt).

(** [MessageConsumer.callback(ch, method, properties, body)] *)
Definition callback (delivery_tag : Z) (body : option Message)
  : M World unit :=
  try_except
    (process_prediction_event body ;;
     basic_ack delivery_tag)
    (λ e, basic_nack delivery_tag false).

End MessageConsumer.

(** [start_consumer(app)]: constructing the consumer connects; the thread
    it then starts is not modelled. *)
Definition start_consumer : M World unit := on_net MessageConsumer._connect.

End MessageQueue.

(** ** routes.py *)

Module Routes.

(** The JSON body of [PUT /preferences]: each key absent or present;
    the values present have the types of their columns. *)
Record PreferencesJson := mkPreferencesJson {
  j_period_reminder_enabled : option bool;
  j_reminder_days_before : option Z;
  j_email_enabled : option bool;
  j_push_enabled : option bool
}.

Inductive payload :=
| PreferencesPayload (message : option string)
                     (preferences : NotificationPreference.t)
| ProcessedPayload (message : string) (sent_count : Z)
| ErrorPayload (error : string).

(** [jsonify(...), status] *)
Definition response : Type := payload * Z.

(** An ORM object of class NotificationPreference: where its row is,
    and its attributes. *)
Definition object : Type := nat * NotificationPreference.t.

(** [preferences = NotificationPreference(user_id=user_id)] and
    [db.session.add(preferences)] *)
Definition add_preferences (user_id : Z) : M World object :=
  rows ← gets (λ w, preferences (session w));
  let p := NotificationPreference.new
             (next_id (NotificationPreference.id <$> rows)) user_id in
  modify (set_session (set_preferences (λ rows, rows ++ [p]))) ;;
  mret (length rows, p).

(** [preferences.attr = v] *)
Definition setattr (f : NotificationPreference.t → NotificationPreference.t)
    (o : object) : M World object :=
  modify (set_session (set_preferences (λ rows, <[o.1 := f o.2]> rows))) ;;
  mret (o.1, f o.2).

(** [GET /preferences] *)
Definition get_preferences (user_id : Z) : M World response :=
  try_except
    (found ← query (λ s, list_find
                           (λ p, NotificationPreference.user_id p = user_id)
                           (preferences s));
     preferences ← match found with
                   | Some o => mret o
                   | None =>
                       o ← add_preferences user_id;
                       commit ;;
                       mret o
                   end;
     mret (PreferencesPayload None preferences.2, 200))
    (λ e, mret (ErrorPayload "Failed to retrieve preferences", 500)).

(** [PUT /preferences] *)
Definition update_preferences (user_id : Z) (data : PreferencesJson)
  : M World response :=
  try_except
    (found ← query (λ s, list_find
                           (λ p, NotificationPreference.user_id p = user_id)
                           (preferences s));
     preferences ← match found with
                   | Some o => mret o
                   | None => add_preferences user_id
                   end;
     preferences ←
       match j_period_reminder_enabled data with
       | Some v =>
           setattr (NotificationPreference.set_period_reminder_enabled
                      (Some v)) preferences
       | None => mret preferences
       end;
     let rest (preferences : object) : M World response :=
       preferences ←
         match j_email_enabled data with
         | Some v =>
             setattr (NotificationPreference.set_email_enabled (Some v))
                     preferences
         | None => mret preferences
         end;
       preferences ←
         match j_push_enabled data with
         | Some v =>
             setattr (NotificationPreference.set_push_enabled (Some v))
                     preferences
         | None => mret preferences
         end;
       commit ;;
       mret (PreferencesPayload (Some "Preferences updated successfully")
               preferences.2, 200) in
     match j_reminder_days_before data with
     | Some days =>
         if decide (1 ≤ days ≤ 7) then
           preferences ←
             setattr (NotificationPreference.set_reminder_days_before days)
                     preferences;
           rest preferences
         else
           mret (ErrorPayload "reminder_days_before must be between 1 and 7",
                 400)
     | None => rest preferences
     end)
    (λ e, rollback ;; mret (ErrorPayload "Failed to update preferences", 500)).

(** [POST /notifications/process] *)
Definition process_notifications (utcnow : date) (str : exn → string)
  : M World response :=
  try_except
    (sent_count ←
       NotificationManager.process_pending_notifications utcnow str;
     mret (ProcessedPayload
             ("Processed " +:+ Py.str sent_count +:+ " notifications")
             sent_count, 200))
    (λ e, mret (ErrorPayload "Failed to process notifications", 500)).

End Routes.

(** ** app.py *)

Module App.

(** The part of [create_app()] that starts the consumer:
[[
    try:
        start_consumer(app)
    except Exception as e:
        logger.error(...)
]] *)
Definition create_app : M World unit :=
  try_except MessageQueue.start_consumer (λ e, mret tt).

End App.

End Notification.

(** * User service *)

Module UserService.

Module Config.
Definition JWT_EXPIRATION_HOURS : Z := 24.
End Config.

(** ** models.py *)

Module User.
Record t := mk {
  id : Z;
  email : string;
  username : string;
  password_hash : string;
  first_name : option string;
  last_name : option string;
  date_of_birth : option date;
  is_active : option bool
}.

Definition set_first_name (v : option string) (u : t) : t :=
  mk (id u) (email u) (username u) (password_hash u) v (last_name u)
     (date_of_birth u) (is_active u).
Definition set_last_name (v : option string) (u : t) : t :=
  mk (id u) (email u) (username u) (password_hash u) (first_name u) v
     (date_of_birth u) (is_active u).
Definition set_date_of_birth (v : option date) (u : t) : t :=
  mk (id u) (email u) (username u) (password_hash u) (first_name u)
     (last_name u) v (is_active u).

(** [user.to_dict()]: the row without its password hash. *)
Record dict := mkDict {
  d_id : Z;
  d_email : string;
  d_username : string;
  d_first_name : option string;
  d_last_name : option string;
  d_date_of_birth : option date;
  d_is_active : option bool
}.

Definition to_dict (u : t) : dict :=
  mkDict (id u) (email u) (username u) (first_name u) (last_name u)
         (date_of_birth u) (is_active u).

(** [user.check_password(password)], over werkzeug's
    [check_password_hash]. *)
Definition check_password (check_password_hash : string → string → bool)
    (u : t) (password : string) : bool :=
  check_password_hash (password_hash u) password.
End User.

Record Store := mkStore {
  users : list User.t
}.

Definition set_users (f : list User.t → list User.t) (s : Store) : Store :=
  mkStore (f (users s)).

(** The service publishes nothing and keeps no module-level state. *)
Definition World : Type := Db.World Store Empty_set unit.

(** ** auth.py *)

Module Auth.

(** The claims [generate_token] signs; [exp] and [iat] in seconds, as
    PyJWT writes them. *)
Record claims := mkClaims {
  user_id : Z;
  exp : Z;
  iat : Z
}.

(** [generate_token(user_id)], over [jwt.encode] with the service's
    key and algorithm; [utcnow] is the clock, read twice within the same
    second. *)
Definition generate_token (jwt_encode : claims → string)
    (utcnow user_id : Z) : string :=
  jwt_encode
    (mkClaims user_id (utcnow + Config.JWT_EXPIRATION_HOURS * 3600) utcnow).

End Auth.

(** ** routes.py *)

Module Routes.
Import Auth.

(** The JSON bodies, as far as the routes read them; a key of the
    profile body can be present with the value null. *)
Record RegisterJson := mkRegisterJson {
  j_email : option string;
  j_username : option string;
  j_password : option string;
  j_first_name : option string;
  j_last_name : option string
}.

Record LoginJson := mkLoginJson {
  l_email : option string;
  l_password : option string
}.

Record ProfileJson := mkProfileJson {
  p_first_name : option (option string);
  p_last_name : option (option string);
  p_date_of_birth : field
}.

Inductive payload :=
| UserPayload (message : string) (user : User.dict)
| TokenPayload (message token : string) (user : User.dict)
| ProfilePayload (user : User.dict)
| ErrorPayload (error : string).

(** [jsonify(...), status] *)
Definition response : Type := payload * Z.

(** [User.query.filter_by(email=email).first()] *)
Definition by_email (email : string) (s : Store) : option (nat * User.t) :=
  list_find (λ u, User.email u = email) (users s).

(** [User.query.filter_by(username=username).first()] *)
Definition by_username (username : string) (s : Store)
  : option (nat * User.t) :=
  list_find (λ u, User.username u = username) (users s).

(** [User.query.get(user_id)] *)
Definition get (user_id : Z) (s : Store) : option (nat * User.t) :=
  list_find (λ u, User.id u = user_id) (users s).

Section routes.
(** werkzeug's password hashing, the salt that
    [generate_password_hash] draws made an argument, and PyJWT's
    encoder. *)
Context (generate_password_hash : string → string → string)
        (check_password_hash : string → string → bool)
        (jwt_encode : claims → string).

(** [POST /register]; the row is built by [User(...)] and
    [user.set_password(data['password'])]. *)
Definition register (salt : string) (data : RegisterJson)
  : M World response :=
  try_except
    (match j_email data, j_username data, j_password data with
     | None, _, _ => mret (ErrorPayload "email is required", 400)
     | _, None, _ => mret (ErrorPayload "username is required", 400)
     | _, _, None => mret (ErrorPayload "password is required", 400)
     | Some email, Some username, Some password =>
         same_email ← query (by_email email);
         if bool_decide (is_Some same_email)
         then mret (ErrorPayload "Email already registered", 409)
         else
           same_username ← query (by_username username);
           if bool_decide (is_Some same_username)
           then mret (ErrorPayload "Username already taken", 409)
           else
             rows ← gets (λ w, users (session w));
             let user :=
               User.mk (next_id (User.id <$> rows)) email username
                       (generate_password_hash salt password)
                       (j_first_name data) (j_last_name data) None
                       (Some true) in
             modify (set_session (set_users (λ rows, rows ++ [user]))) ;;
             commit ;;
             mret (UserPayload "User registered successfully"
                               (User.to_dict user), 201)
     end)
    (λ e, rollback ;; mret (ErrorPayload "Registration failed", 500)).

(** [POST /login] *)
Definition login (utcnow : Z) (data : LoginJson) : M World response :=
  try_except
    (match l_email data, l_password data with
     | Some email, Some password =>
         found ← query (by_email email);
         match found with
         | None => mret (ErrorPayload "Invalid credentials", 401)
         | Some (_, user) =>
             if negb (User.check_password check_password_hash user password)
             then mret (ErrorPayload "Invalid credentials", 401)
             else if negb (default false (User.is_active user))
             then mret (ErrorPayload "Account is inactive", 403)
             else
               let token := generate_token jwt_encode utcnow (User.id user) in
               mret (TokenPayload "Login successful" token
                                  (User.to_dict user), 200)
         end
     | _, _ => mret (ErrorPayload "Email and password required", 400)
     end)
    (λ e, mret (ErrorPayload "Login failed", 500)).
End routes.

(** [GET /profile] *)
Definition get_profile (user_id : Z) : M World response :=
  try_except
    (found ← query (get user_id);
     match found with
     | None => mret (ErrorPayload "User not found", 404)
     | Some (_, user) => mret (ProfilePayload (User.to_dict user), 200)
     end)
    (λ e, mret (ErrorPayload "Failed to retrieve profile", 500)).

(** [setattr] on the row at index [i] of the session. *)
Definition setattr (i : nat) (f : User.t → User.t) : M World unit :=
  modify (set_session (set_users (alter f i))).

(** [PUT /profile] *)
Definition update_profile (user_id : Z) (data : ProfileJson)
  : M World response :=
  try_except
    (found ← query (get user_id);
     match found with
     | None => mret (ErrorPayload "User not found", 404)
     | Some (i, user) =>
         match p_first_name data with
         | Some v => setattr i (User.set_first_name v)
         | None => mret tt
         end ;;
         match p_last_name data with
         | Some v => setattr i (User.set_last_name v)
         | None => mret tt
         end ;;
         match p_date_of_birth data with
         | Missing => mret tt
         | f => d ← fromisoformat f;
                setattr i (User.set_date_of_birth (Some d))
         end ;;
         commit ;;
         user ← gets (λ w, default user (users (session w) !! i));
         mret (UserPayload "Profile updated successfully"
                           (User.to_dict user), 200)
     end)
    (λ e, rollback ;; mret (ErrorPayload "Failed to update profile", 500)).

(** [GET /users/<user_id>]; the caller's own id is not looked at. *)
Definition get_user (current_user_id user_id : Z) : M World response :=
  try_except
    (found ← query (get user_id);
     match found with
     | None => mret (ErrorPayload "User not found", 404)
     | Some (_, user) => mret (ProfilePayload (User.to_dict user), 200)
     end)
    (λ e, mret (ErrorPayload "Failed to retrieve user", 500)).

End Routes.

End UserService.

(** * Properties *)

(** ** Broker connection: retry and failure (C5) *)

Section connect.
Context {P : Type}.

(** Where time goes in a trace: [a] attempts, a sleep of [delay] seconds
    between one attempt and the next, the declarations after the last
    attempt when it went through. *)
Definition retry_trace (a : nat) (delay : Z) (declared : option (list string))
  : list (Pika.io_event P) :=
  mjoin (replicate (a - 1) [Pika.TryConnect; Pika.Sleep delay])
  ++ Pika.TryConnect
     :: match declared with
        | Some topology => [Pika.Declared topology]
        | None => []
        end.

(** A connect that retries, on the link [l]: at most five attempts five
    seconds apart, and the exception of the fifth failure for the
    caller. *)
Definition retries_then_raises_on {A} (topology : list string)
    (connect : M (Pika.Net P) A) (l : list bool) : Prop :=
  let r := connect (Pika.mkNet l []) in
  ∃ a : nat,
    (1 ≤ a ≤ 5)%nat
    ∧ Pika.attempts (Pika.io r.2) = a
    ∧ Pika.io r.2
      = retry_trace a 5 (if returned r.1 then Some topology else None)
    ∧ (take 5 l = replicate 5 true → r.1 = Raised AMQPError ∧ a = 5%nat)
    ∧ (take 5 l ≠ replicate 5 true → returned r.1 = true).

Definition retries_then_raises {A} (topology : list string)
    (connect : M (Pika.Net P) A) : Prop :=
  ∀ l : list bool, retries_then_raises_on topology connect l.

(** The loop never tries more often than its range is long, whatever
    the bound and the delay. *)
Lemma retry_loop_attempts_le max_retries retry_delay topology attempts n :
  (Pika.attempts (Pika.io (Pika.retry_loop (P:=P) max_retries retry_delay
                             topology attempts n).2)
   ≤ Pika.attempts (Pika.io n) + length attempts)%nat.
Proof.
  revert n. induction attempts as [|attempt rest IH]; intros n; simpl.
  - lia.
  - unfold try_except, Pika.establish, Pika.operation, Pika.emit, modify,
      mbind, M_bind, bind; simpl.
    destruct (Pika.link n) as [|[] l]; simpl.
    + unfold Pika.attempts. rewrite !omap_app, !length_app. simpl. lia.
    + case_decide.
      * unfold Pika.sleep, Pika.emit, modify, mbind, M_bind, bind; simpl.
        etrans; [apply IH|]. simpl.
        unfold Pika.attempts. rewrite !omap_app, !length_app. simpl. lia.
      * unfold raise; simpl.
        unfold Pika.attempts. rewrite !omap_app, !length_app. simpl. lia.
    + unfold Pika.attempts. rewrite !omap_app, !length_app. simpl. lia.
Qed.

Lemma connect_with_retry_spec topology :
  retries_then_raises topology (Pika.connect_with_retry topology).
Proof.
  intros l. unfold retries_then_raises_on.
  destruct l as [|[] [|[] [|[] [|[] [|[] l]]]]];
    vm_compute;
    first [ exists 1%nat; split_and!; [lia|lia|done|done|done|done..]
          | exists 2%nat; split_and!; [lia|lia|done|done|done|done..]
          | exists 3%nat; split_and!; [lia|lia|done|done|done|done..]
          | exists 4%nat; split_and!; [lia|lia|done|done|done|done..]
          | exists 5%nat; split_and!; [lia|lia|done|done|done|done..] ].
Qed.
End connect.

(** C5, as stated, fails: with the broker down for five operations in a
    row, the connect of the analytics service's prediction publisher
    neither makes five attempts nor raises. *)
Lemma analytics_publisher_connect_gives_up_quietly :
  ¬ retries_then_raises_on [Analytics.Config.PREDICTION_EXCHANGE]
      Analytics.MessageQueue.MessagePublisher._connect (replicate 5 true).
Proof.
  intros (a & _ & _ & _ & Hraise & _).
  destruct Hraise as [Hraise _]; [done|].
  vm_compute in Hraise. discriminate Hraise.
Qed.

(** What the caller makes of the exception is the caller's business: the
    notification service's [create_app] logs it and goes on without a
    consumer. *)
Lemma create_app_goes_on_without_consumer (w : Notification.World) :
  (Notification.App.create_app w).1 = Returned tt.
Proof.
  unfold Notification.App.create_app, try_except.
  by destruct (Notification.MessageQueue.start_consumer w) as [[[]|e] w'].
Qed.

(** C5 (amended): the connect of both consumers and of the cycle-event
    publisher retries: at most five attempts, a five-second sleep between
    one attempt and the next, and after the fifth failure the exception
    reaches the caller.  The connect of the analytics service's
    prediction publisher makes one attempt, never sleeps and never raises:
    it returns whether the connection stands. *)
Theorem connect_retry_policy :
  retries_then_raises [CycleTracking.Config.CYCLE_EXCHANGE]
    CycleTracking.MessageQueue.MessagePublisher._connect
  ∧ retries_then_raises
      [Analytics.Config.CYCLE_EXCHANGE; Analytics.Config.CYCLE_QUEUE;
       Analytics.Config.CYCLE_ROUTING_KEY]
      Analytics.MessageQueue.MessageConsumer._connect
  ∧ retries_then_raises
      [Notification.Config.PREDICTION_EXCHANGE;
       Notification.Config.PREDICTION_QUEUE;
       Notification.Config.PREDICTION_ROUTING_KEY]
      Notification.MessageQueue.MessageConsumer._connect
  ∧ ∀ l : list bool,
      let r := Analytics.MessageQueue.MessagePublisher._connect
                 (Pika.mkNet l []) in
      Pika.attempts (Pika.io r.2) = 1%nat
      ∧ Pika.sleeps (Pika.io r.2) = []
      ∧ r.1 = Returned (negb (bool_decide (head l = Some true))).
Proof.
  split_and!; try apply connect_with_retry_spec.
  intros [|[] l]; vm_compute; done.
Qed.

(** ** The statistics engine (C8, C1) *)

Section statistics.
Import Analytics Analytics.CycleAnalytics Analytics.PredictionEngine.

#[local] Instance newer_first_total : Total newer_first.
Proof. intros a b. unfold newer_first. lia. Qed.

#[local] Instance newer_first_trans : Transitive newer_first.
Proof. intros a b c. unfold newer_first. lia. Qed.

Lemma order_by_sorted rows :
  StronglySorted newer_first (order_by_start_date_desc rows).
Proof. apply StronglySorted_merge_sort; apply _. Qed.

Lemma order_by_perm rows : order_by_start_date_desc rows ≡ₚ rows.
Proof. apply merge_sort_Permutation. Qed.

(** [ORDER BY start_date DESC LIMIT n]: the rows kept are as many as
    asked for (or all), and none of them is older than a row left out. *)
Lemma limit_keeps_most_recent (n : nat) rows :
  let kept := take n (order_by_start_date_desc rows) in
  let older := drop n (order_by_start_date_desc rows) in
  rows ≡ₚ kept ++ older
  ∧ length kept = (n `min` length rows)%nat
  ∧ ∀ a b, a ∈ kept → b ∈ older → start_date b ≤ start_date a.
Proof.
  simpl. split_and!.
  - by rewrite take_drop, order_by_perm.
  - by rewrite length_take, order_by_perm.
  - intros a b Ha Hb.
    apply (StronglySorted_app_1_elem_of newer_first
             (take n (order_by_start_date_desc rows))
             (drop n (order_by_start_date_desc rows))); [|done..].
    rewrite take_drop. apply order_by_sorted.
Qed.

Lemma cycle_lengths_defined (analytics : list CycleAnalytics.t) :
  Forall (λ a, is_Some (cycle_length a)) analytics →
  cycle_length <$> analytics = Some <$> cycle_lengths analytics.
Proof.
  unfold cycle_lengths.
  induction 1 as [|a l [x Hx] _ IH]; [done|].
  csimpl. rewrite Hx. csimpl. by rewrite IH.
Qed.

Lemma recent_with_length_defined rows user limit :
  Forall (λ a, is_Some (cycle_length a)) (recent_with_length rows user limit).
Proof.
  unfold recent_with_length. apply Forall_take.
  rewrite order_by_perm. apply Forall_forall.
  by intros a [? _]%list_elem_of_filter.
Qed.

Lemma true_div_is_division (a : Z) (n : nat) :
  n ≠ 0%nat →
  (Py.true_div a n == inject_Z a / inject_Z (Z.of_nat n))%Q.
Proof.
  intros Hn. unfold Py.true_div, Qdiv, Qinv, inject_Z, Qmult, Qeq. simpl.
  destruct n as [|n]; [done|]. simpl.
  rewrite Pos.of_nat_succ. lia.
Qed.

(** The user's rows that carry a cycle length. *)
Definition with_length (rows : list CycleAnalytics.t) (user : Z) :=
  filter (λ a, user_id a = user ∧ is_Some (cycle_length a)) rows.

Lemma recent_with_length_eq rows user limit :
  recent_with_length rows user limit
  = take limit (order_by_start_date_desc (with_length rows user)).
Proof.
  unfold recent_with_length, with_length, filter_by_user.
  rewrite list_filter_filter. do 2 f_equal.
  apply list_filter_iff. intros a. split; intros []; by split.
Qed.

(** C8: [calculate_average_cycle_length] is the arithmetic mean of the
    cycle lengths of the user's six most recent rows that have one (of
    all of them when there are fewer), and the default 28 when the user
    has no such row. *)
Theorem average_is_mean_of_six_most_recent rows user :
  match with_length rows user with
  | [] => calculate_average_cycle_length rows user = inject_Z 28
  | _ =>
      ∃ (window older : list CycleAnalytics.t) (lengths : list Z),
        with_length rows user ≡ₚ window ++ older
        ∧ length window = (6 `min` length (with_length rows user))%nat
        ∧ (∀ a b, a ∈ window → b ∈ older → start_date b ≤ start_date a)
        ∧ cycle_length <$> window = Some <$> lengths
        ∧ (calculate_average_cycle_length rows user
           == inject_Z (Py.sum lengths) / inject_Z (Z.of_nat (length lengths)))%Q
  end.
Proof.
  unfold calculate_average_cycle_length, calculate_average_cycle_length_limit.
  pose proof (recent_with_length_defined rows user 6) as Hdef.
  rewrite recent_with_length_eq in *.
  destruct (limit_keeps_most_recent 6 (with_length rows user))
    as (Hperm & Hlen & Hrecent).
  destruct (with_length rows user) as [|e el] eqn:He.
  { done. }
  set (window := take 6 (order_by_start_date_desc (e :: el))) in *.
  assert (window ≠ []) as Hne.
  { intros Hnil. rewrite Hnil in Hlen. simpl in Hlen. lia. }
  exists window, (drop 6 (order_by_start_date_desc (e :: el))),
    (cycle_lengths window).
  split_and!; [done..| by apply cycle_lengths_defined |].
  assert (length (cycle_lengths window) = length window) as Hl.
  { rewrite <-(length_fmap Some), <-cycle_lengths_defined by done.
    by rewrite length_fmap. }
  rewrite Hl.
  destruct window as [|a l] eqn:Hw; [done|].
  apply true_div_is_division. done.
Qed.

(** The scenario of the specification: cycles of 28 and 30 days average
    to 29. *)
Definition two_cycles : list CycleAnalytics.t :=
  [ CycleAnalytics.mk 1 7 10 (Date.ymd 2023 12 4) None None None None None None;
    CycleAnalytics.mk 2 7 11 (Date.ymd 2024 1 1) None (Some 28) None None None None;
    CycleAnalytics.mk 3 7 12 (Date.ymd 2024 1 29) None (Some 30) None None None None ].

Example average_of_two_cycles_is_29 :
  (calculate_average_cycle_length two_cycles 7 == 29 # 1)%Q.
Proof. vm_compute. done. Qed.

Example prediction_for_two_cycles :
  (λ p, (Prediction.predicted_start_date p, Prediction.confidence_score p))
    <$> predict_next_period two_cycles 7
  = Some (Date.ymd 2024 2 27, (9 # 10)%Q).
Proof. vm_compute. reflexivity. Qed.

Lemma average_of_two_cycles_and_of_none :
  (∃ (window older : list CycleAnalytics.t) (lengths : list Z),
      with_length two_cycles 7 ≡ₚ window ++ older
      ∧ length window = (6 `min` length (with_length two_cycles 7))%nat
      ∧ (∀ a b, a ∈ window → b ∈ older → start_date b ≤ start_date a)
      ∧ cycle_length <$> window = Some <$> lengths
      ∧ (calculate_average_cycle_length two_cycles 7
         == inject_Z (Py.sum lengths) / inject_Z (Z.of_nat (length lengths)))%Q)
  ∧ calculate_average_cycle_length [] 7 = inject_Z 28.
Proof.
  split.
  - exact (average_is_mean_of_six_most_recent two_cycles 7).
  - exact (average_is_mean_of_six_most_recent [] 7).
Defined.

(** *** The predicted date *)

(** [latest]: a row of the user that no other row of the user is more
    recent than. *)
Lemma latest_is_most_recent rows user :
  match filter_by_user user rows with
  | [] => latest rows user = None
  | _ => ∃ a, latest rows user = Some a
              ∧ a ∈ filter_by_user user rows
              ∧ ∀ b, b ∈ filter_by_user user rows
                     → start_date b ≤ start_date a
  end.
Proof.
  unfold latest.
  pose proof (order_by_perm (filter_by_user user rows)) as Hperm.
  pose proof (order_by_sorted (filter_by_user user rows)) as Hsorted.
  destruct (filter_by_user user rows) as [|e el] eqn:He.
  - by apply Permutation_nil_r in Hperm as ->.
  - destruct (order_by_start_date_desc (e :: el)) as [|a l] eqn:Hs.
    { by apply Permutation_nil_l in Hperm. }
    exists a. split_and!; [done| |].
    + rewrite <-Hperm. left.
    + intros b Hb. rewrite <-Hperm in Hb.
      apply StronglySorted_cons in Hsorted as [Hall _].
      apply elem_of_cons in Hb as [->|Hb]; [done|].
      by eapply Forall_forall in Hall.
Qed.



(** Three cycles of 28, 29 and 29 days: the average is 86/3. *)
Definition three_cycles : list CycleAnalytics.t :=
  [ CycleAnalytics.mk 1 7 10 (Date.ymd 2024 1 1) None None None None None None;
    CycleAnalytics.mk 2 7 11 (Date.ymd 2024 1 29) None (Some 28) None None None None;
    CycleAnalytics.mk 3 7 12 (Date.ymd 2024 2 27) None (Some 29) None None None None;
    CycleAnalytics.mk 4 7 13 (Date.ymd 2024 3 27) None (Some 29) None None None None ].

End statistics.

(** ** Rows, objects and the row before in time *)

Section tables.
Import Analytics Analytics.CycleAnalytics Analytics.PredictionEngine.
Import (notations) Analytics.MessageQueue.
Local Abbreviation prev_analytics :=
  MessageQueue.MessageConsumer.prev_analytics.

(** An attribute assignment leaves the object where [.first()] found
    it, as long as the attribute is not the one searched by. *)
Lemma list_find_insert_keep {A} (P : A → Prop) `{!∀ x, Decision (P x)}
    (l : list A) i x y :
  list_find P l = Some (i, x) → P y →
  list_find P (<[i := y]> l) = Some (i, y).
Proof.
  intros (Hi & HP & Hleast)%list_find_Some HPy.
  apply list_find_Some. split_and!; [|done|].
  - apply list_lookup_insert_eq. by eapply lookup_lt_Some.
  - intros j z Hj Hlt. rewrite list_lookup_insert_ne in Hj by lia. eauto.
Qed.

(** A row added because none matched is the one that matches. *)
Lemma list_find_app_new {A} (P : A → Prop) `{!∀ x, Decision (P x)}
    (l : list A) x :
  list_find P l = None → P x →
  list_find P (l ++ [x]) = Some (length l, x).
Proof.
  intros Hn HPx. apply list_find_app_Some. right.
  split_and!; [done..|]. by rewrite Nat.sub_diag; simpl; rewrite decide_True.
Qed.

(** The first row by start date, newest first: a row none is more
    recent than. *)
Lemma head_newest_first rows :
  match head (order_by_start_date_desc rows) with
  | Some a => a ∈ rows ∧ ∀ b, b ∈ rows → start_date b ≤ start_date a
  | None => rows = []
  end.
Proof.
  pose proof (order_by_perm rows) as Hperm.
  pose proof (order_by_sorted rows) as Hsorted.
  destruct (order_by_start_date_desc rows) as [|a l]; simpl.
  - by apply Permutation_nil_l in Hperm.
  - split.
    + rewrite <-Hperm. left.
    + intros b Hb. rewrite <-Hperm in Hb.
      apply StronglySorted_cons in Hsorted as [Hall _].
      apply elem_of_cons in Hb as [->|Hb]; [done|].
      by eapply Forall_forall in Hall.
Qed.

(** Which row precedes in time depends on the rows only through their
    users and start dates. *)
Definition key (a : CycleAnalytics.t) : Z * date := (user_id a, start_date a).

Lemma prev_analytics_spec user start rows :
  match prev_analytics user start rows with
  | Some a =>
      a ∈ rows ∧ user_id a = user ∧ start_date a < start
      ∧ ∀ b, b ∈ rows → user_id b = user → start_date b < start →
             start_date b ≤ start_date a
  | None =>
      ∀ b, b ∈ rows → user_id b = user → start_date b < start → False
  end.
Proof.
  unfold prev_analytics, filter_by_user.
  pose proof (head_newest_first
                (filter (λ a, start_date a < start)
                   (filter (λ a, user_id a = user) rows))) as H.
  destruct (head _) as [a|].
  - destruct H as [Ha Hmax].
    apply list_elem_of_filter in Ha as [Hlt Ha].
    apply list_elem_of_filter in Ha as [Hu Ha].
    split_and!; [done..|]. intros b Hb Hbu Hblt. apply Hmax.
    by repeat (apply list_elem_of_filter; split).
  - intros b Hb Hbu Hblt.
    assert (b ∈ filter (λ a, start_date a < start)
                  (filter (λ a, user_id a = user) rows)) as Hin
      by by repeat (apply list_elem_of_filter; split).
    rewrite H in Hin. by apply elem_of_nil in Hin.
Qed.

Lemma key_twin (rows rows' : list CycleAnalytics.t) b :
  key <$> rows = key <$> rows' → b ∈ rows →
  ∃ b', b' ∈ rows' ∧ user_id b' = user_id b ∧ start_date b' = start_date b.
Proof.
  intros Hk Hb.
  apply (list_elem_of_fmap_2 key) in Hb. rewrite Hk in Hb.
  apply list_elem_of_fmap in Hb as (b' & [= Hu Hs] & Hb'). eauto.
Qed.

Lemma prev_analytics_key user start (rows rows' : list CycleAnalytics.t) :
  key <$> rows = key <$> rows' →
  start_date <$> prev_analytics user start rows
  = start_date <$> prev_analytics user start rows'.
Proof.
  intros Hk.
  pose proof (prev_analytics_spec user start rows) as H.
  pose proof (prev_analytics_spec user start rows') as H'.
  destruct (prev_analytics user start rows) as [a|],
           (prev_analytics user start rows') as [a'|]; simpl.
  - destruct H as (Ha & Hu & Hlt & Hmax), H' as (Ha' & Hu' & Hlt' & Hmax').
    destruct (key_twin _ _ _ Hk Ha) as (b' & Hb' & Hbu & Hbs).
    destruct (key_twin _ _ _ (eq_sym Hk) Ha') as (b & Hb & Hbu' & Hbs').
    f_equal.
    pose proof (Hmax' b' Hb' ltac:(congruence) ltac:(lia)).
    pose proof (Hmax b Hb ltac:(congruence) ltac:(lia)). lia.
  - destruct H as (Ha & Hu & Hlt & _).
    destruct (key_twin _ _ _ Hk Ha) as (b' & Hb' & Hbu & Hbs).
    destruct (H' b' Hb'); [congruence|lia].
  - destruct H' as (Ha' & Hu' & Hlt' & _).
    destruct (key_twin _ _ _ (eq_sym Hk) Ha') as (b & Hb & Hbu & Hbs).
    destruct (H b Hb); [congruence|lia].
  - done.
Qed.

Lemma prev_analytics_insert user start (rows : list CycleAnalytics.t) i a a0 :
  rows !! i = Some a0 → key a = key a0 →
  start_date <$> prev_analytics user start (<[i := a]> rows)
  = start_date <$> prev_analytics user start rows.
Proof.
  intros Hi Hk. apply prev_analytics_key.
  rewrite list_fmap_insert, Hk.
  apply list_insert_id. by rewrite list_lookup_fmap, Hi.
Qed.

End tables.

(** ** A weakest-precondition calculus for the handlers *)

Section wp.
Context {W : Type}.

(** [wp m Q E w]: run from [w], [m] ends in a world satisfying [Q] when
    it returns and [E] when it raises. *)
Definition wp {A} (m : M W A) (Q : A → W → Prop) (E : exn → W → Prop)
    (w : W) : Prop :=
  match m w with
  | (Returned a, w') => Q a w'
  | (Raised e, w') => E e w'
  end.

Lemma wp_ret {A} (a : A) Q E w : Q a w → wp (mret a) Q E w.
Proof. done. Qed.

Lemma wp_raise {A} e (Q : A → W → Prop) E w : E e w → wp (raise e) Q E w.
Proof. done. Qed.

Lemma wp_bind {A B} (m : M W A) (k : A → M W B) Q E w :
  wp m (λ a, wp (k a) Q E) E w → wp (m ≫= k) Q E w.
Proof.
  unfold wp, mbind, M_bind, bind. by destruct (m w) as [[a|e] w'].
Qed.

Lemma wp_gets {A} (f : W → A) Q E w : Q (f w) w → wp (gets f) Q E w.
Proof. done. Qed.

Lemma wp_modify (f : W → W) Q E w : Q tt (f w) → wp (modify f) Q E w.
Proof. done. Qed.

Lemma wp_try_except {A} (m : M W A) h Q E w :
  wp m Q (λ e, wp (h e) Q E) w → wp (try_except m h) Q E w.
Proof.
  unfold wp, try_except. by destruct (m w) as [[a|e] w'].
Qed.

Lemma wp_on_exit {A} (f : W → W) (m : M W A) Q E w :
  wp m (λ a w', Q a (f w')) (λ e w', E e (f w')) w → wp (on_exit f m) Q E w.
Proof.
  unfold wp, on_exit. by destruct (m w) as [[a|e] w'].
Qed.

Lemma wp_mono {A} (m : M W A) (Q Q' : A → W → Prop) (E E' : exn → W → Prop) w :
  wp m Q E w →
  (∀ a w', Q a w' → Q' a w') → (∀ e w', E e w' → E' e w') →
  wp m Q' E' w.
Proof.
  unfold wp. destruct (m w) as [[a|e] w']; auto.
Qed.

Lemma wp_and {A} (m : M W A) (Q1 Q2 : A → W → Prop) (E1 E2 : exn → W → Prop) w :
  wp m Q1 E1 w → wp m Q2 E2 w →
  wp m (λ a w', Q1 a w' ∧ Q2 a w') (λ e w', E1 e w' ∧ E2 e w') w.
Proof. unfold wp. by destruct (m w) as [[a|e] w']. Qed.

Lemma wp_self {A} (m : M W A) w :
  wp m (λ a w', m w = (Returned a, w')) (λ e w', m w = (Raised e, w')) w.
Proof. unfold wp. by destruct (m w) as [[a|e] w']. Qed.

Lemma wp_run {A} (m : M W A) Q E w :
  wp m Q E w →
  match (m w).1 with
  | Returned a => Q a (m w).2
  | Raised e => E e (m w).2
  end.
Proof. unfold wp. by destruct (m w) as [[a|e] w']. Qed.
End wp.

Lemma wp_zoom {W V A} (get : W → V) (set : V → W → W) (m : M V A) Q E w :
  wp m (λ a v, Q a (set v w)) (λ e v, E e (set v w)) (get w) →
  wp (zoom get set m) Q E w.
Proof.
  unfold wp, zoom. by destruct (m (get w)) as [[a|e] v].
Qed.

Section wp_db.
Context {S P G : Type}.
Local Abbreviation World := (Db.World S P G).

(** A round trip returns or raises; either way only the pending faults
    move. *)
Lemma wp_db_call (Q : unit → World → Prop) E w :
  (∀ l, Q tt (set_db_faults l w) ∧ E SQLAlchemyError (set_db_faults l w)) →
  wp db_call Q E w.
Proof.
  intros H. destruct w as [c s cs f n ch g]. unfold wp, db_call. simpl.
  destruct f as [|[] l]; apply H.
Qed.

(** A query returns what the session's view gives, or raises. *)
Lemma wp_query {A} (f : S → A) (Q : A → World → Prop) E w :
  (∀ l x, x = f (session w) →
          Q x (set_db_faults l w) ∧ E SQLAlchemyError (set_db_faults l w)) →
  wp (query f) Q E w.
Proof.
  intros H. apply wp_bind, wp_db_call. intros l. split; [|by eapply H].
  by apply wp_gets, H.
Qed.

Lemma wp_commit (Q : unit → World → Prop) E w :
  (∀ l, Q tt (flushed (set_db_faults l w))
        ∧ E SQLAlchemyError (set_db_faults l w)) →
  wp commit Q E w.
Proof.
  intros H. apply wp_bind, wp_db_call. intros l. split; [|apply H].
  apply wp_modify, H.
Qed.
End wp_db.

(** One step of symbolic execution. *)
Ltac wp_step :=
  lazymatch goal with
  | |- wp (mbind _ _) _ _ _ => apply wp_bind
  | |- wp (mret _) _ _ _ => apply wp_ret
  | |- wp (raise _) _ _ _ => apply wp_raise
  | |- wp (gets _) _ _ _ => apply wp_gets
  | |- wp (modify _) _ _ _ => apply wp_modify
  | |- wp rollback _ _ _ => apply wp_modify
  | |- wp (basic_ack _) _ _ _ => apply wp_modify
  | |- wp (basic_nack _ _) _ _ _ => apply wp_modify
  | |- wp (try_except _ _) _ _ _ => apply wp_try_except
  | |- wp (on_exit _ _) _ _ _ => apply wp_on_exit
  | |- wp (with_app_context _) _ _ _ => apply wp_on_exit
  | |- wp (zoom _ _ _) _ _ _ => apply wp_zoom
  | |- wp (on_net _) _ _ _ => apply wp_zoom
  | |- wp db_call _ _ _ => apply wp_db_call; intros ?; split
  | |- wp (query _) _ _ _ => apply wp_query; intros ? ? ?; split
  | |- wp commit _ _ _ => apply wp_commit; intros ?; split
  | |- wp (fromisoformat ?f) _ _ _ => destruct f eqn:?; simpl
  | |- wp (if ?b then _ else _) _ _ _ => destruct b
  | |- wp (match ?x with _ => _ end) _ _ _ =>
      first [is_var x; destruct x | destruct x eqn:?]
  | |- wp (let '(_, _) := ?x in _) _ _ _ => destruct x
  end.

Lemma wp_any {W A} (m : M W A) (Q : A → W → Prop) (E : exn → W → Prop) w :
  (∀ a w', Q a w') → (∀ e w', E e w') → wp m Q E w.
Proof. intros HQ HE. unfold wp. destruct (m w) as [[a|e] w']; auto. Qed.

(** ** Runs with and without database failures *)

Section survives.
Context {S P G : Type}.
Local Abbreviation World := (Db.World S P G).

(** Two worlds that differ at most in the failures to come. *)
Definition agree (w1 w2 : World) : Prop :=
  committed w1 = committed w2 ∧ session w1 = session w2
  ∧ commits w1 = commits w2 ∧ net w1 = net w2
  ∧ channel w1 = channel w2 ∧ globals w1 = globals w2.

(** What [m] returns and does when no round trip fails it, it returns
    and does all the more when none can fail. *)
Definition survives {A} (m : M World A) : Prop :=
  ∀ w1 w2 a w1',
    agree w1 w2 → db_faults w2 = [] → m w1 = (Returned a, w1') →
    ∃ w2', m w2 = (Returned a, w2') ∧ agree w1' w2' ∧ db_faults w2' = [].

Lemma survives_ret {A} (a : A) : survives (mret a).
Proof. intros w1 w2 a' w1' Hag Hf [= <- <-]. by exists w2. Qed.

Lemma survives_raise {A} e : survives (raise (A:=A) e).
Proof. by intros w1 w2 a' w1' Hag Hf [=]. Qed.

Lemma survives_bind {A B} (m : M World A) (k : A → M World B) :
  survives m → (∀ a, survives (k a)) → survives (m ≫= k).
Proof.
  intros Hm Hk w1 w2 b w1' Hag Hf. unfold mbind, M_bind, bind.
  destruct (m w1) as [[a|e] u1] eqn:Hm1; [|done].
  intros Hk1.
  destruct (Hm _ _ _ _ Hag Hf Hm1) as (u2 & -> & Hag' & Hf').
  by eapply Hk.
Qed.

Lemma survives_db_call : survives (db_call (S:=S) (P:=P) (G:=G)).
Proof.
  intros [c s cs f n ch g] [c2 s2 cs2 f2 n2 ch2 g2] [] w1'
    (?&?&?&?&?&?) Hf; simpl in *; subst.
  unfold db_call; simpl.
  destruct f as [|[] l]; intros [= <-]; by eexists.
Qed.

Lemma survives_gets_session {A} (f : S → A) :
  survives (gets (λ w : World, f (session w))).
Proof.
  intros w1 w2 a w1' Hag Hf [= <- <-]. exists w2.
  split_and!; [|done..]. unfold gets.
  destruct Hag as (_ & -> & _). done.
Qed.

Lemma survives_set_session (f : S → S) :
  survives (modify (set_session (P:=P) (G:=G) f)).
Proof.
  intros w1 w2 [] w1' (?&Hs&?&?&?&?) Hf [= <-].
  eexists. split; [done|]. unfold agree. simpl. by rewrite Hs.
Qed.

Lemma survives_query {A} (f : S → A) : survives (query (P:=P) (G:=G) f).
Proof.
  apply survives_bind; [apply survives_db_call|intros _].
  apply survives_gets_session.
Qed.

Lemma survives_commit : survives (commit (S:=S) (P:=P) (G:=G)).
Proof.
  apply survives_bind; [apply survives_db_call|intros _].
  intros w1 w2 [] w1' (?&Hs&Hc&?&?&?) Hf [= <-].
  eexists. split; [done|]. unfold agree. simpl. by rewrite Hs, Hc.
Qed.
End survives.

(** ** The analytics consumer (C2, C3, C4, C6, C10) *)

Section analytics_consumer.
Import Analytics Analytics.MessageQueue Analytics.MessageQueue.MessageConsumer.

Lemma update_analytics_frame message (w : World) :
  wp (update_analytics message)
     (λ _ w', committed w' = session w'
              ∧ predictions (session w') = predictions (session w)
              ∧ commits w' = commits w ++ [committed w']
              ∧ channel w' = channel w ∧ net w' = net w)
     (λ _ w', committed w' = committed w
              ∧ commits w' = commits w
              ∧ channel w' = channel w ∧ net w' = net w) w.
Proof.
  unfold update_analytics, add_analytics, setattr.
  repeat (wp_step; try done).
Qed.

Lemma predict_next_period_fresh rows user p :
  PredictionEngine.predict_next_period rows user = Some p →
  Prediction.user_id p = user ∧ Prediction.is_active p = None.
Proof.
  unfold PredictionEngine.predict_next_period.
  destruct (PredictionEngine.latest rows user); [|done].
  destruct (if Py.lt _ _ then _ else _). by intros [= <-].
Qed.

(** What the database may hold after [generate_prediction]: the
    predictions as they were, or all of the user's active ones
    deactivated and the new one appended, in one commit. *)
Definition superseded (user : Z) (before after : list Prediction.t) : Prop :=
  ∃ p, after = (deactivate user <$> before) ++ [p]
       ∧ Prediction.user_id p = user
       ∧ Prediction.is_active p = Some true.

Definition prediction_outcome (user : Z) (w w' : World) : Prop :=
  analytics (committed w') = analytics (committed w)
  ∧ channel w' = channel w
  ∧ ((predictions (committed w') = predictions (committed w)
      ∧ commits w' = commits w)
     ∨ (superseded user (predictions (committed w))
                        (predictions (committed w'))
        ∧ commits w' = commits w ++ [committed w'])).

Lemma generate_prediction_outcome user (w : World) :
  session w = committed w →
  wp (generate_prediction user)
     (λ _, prediction_outcome user w) (λ _, prediction_outcome user w) w.
Proof.
  intros Hs. unfold generate_prediction, deactivate_active, add_prediction.
  unfold prediction_outcome.
  repeat (wp_step; try (simpl; rewrite ?Hs; by auto)).
  all: match goal with H : Some _ = _ |- _ =>
    symmetry in H; apply predict_next_period_fresh in H as [Hu Ha] end.
  all: repeat (first [wp_step | apply wp_any; intros]);
    simpl; rewrite ?Hs; split_and!; try done; right; (split; [|done]);
    unfold superseded; eexists; (split; [reflexivity|]); simpl; by rewrite Ha.
Qed.

(** A delivery that got as far as the analytics commit of line 130:
    the table is the one that commit wrote, and the predictions are as
    they were or superseded by one further commit. *)
Definition committed_event (body : option Message) (w w' : World) : Prop :=
  ∃ message w1,
    body = Some message
    ∧ update_analytics message w = (Returned tt, w1)
    ∧ analytics (committed w') = analytics (committed w1)
    ∧ predictions (committed w1) = predictions (committed w)
    ∧ ((committed w' = committed w1
        ∧ commits w' = commits w ++ [committed w1])
       ∨ (superseded (user_id message) (predictions (committed w))
                     (predictions (committed w'))
          ∧ commits w' = commits w ++ [committed w1; committed w'])).

(** Everything a delivery can do to the database: nothing, or the
    above. *)
Definition event_outcome (body : option Message) (w w' : World) : Prop :=
  session w' = committed w'
  ∧ channel w' = channel w
  ∧ ((committed w' = committed w ∧ commits w' = commits w)
     ∨ committed_event body w w').

Lemma process_cycle_event_outcome body (w : World) :
  session w = committed w →
  wp (process_cycle_event body)
     (λ _ w', event_outcome body w w' ∧ committed_event body w w')
     (λ _, event_outcome body w) w.
Proof.
  intros Hs. unfold process_cycle_event, json_loads, event_outcome.
  repeat (wp_step; try (simpl; by auto)).
  eapply wp_mono;
    [apply wp_and; [apply update_analytics_frame|apply wp_self]|..]; simpl.
  - intros [] w1 [(Hc & Hp & Hcs & Hch & _) Hrun].
    assert (∀ w2, prediction_outcome (user_id m) w1 w2 →
                  channel w2 = channel w
                  ∧ committed_event (Some m) w w2) as Hgen.
    { intros w2 (Ha & Hch2 & Hout). split; [congruence|].
      exists m, w1. split_and!; [done|done|done|congruence|].
      destruct Hout as [[Hsame Hcs2]|[Hsup Hcs2]]; [left|right];
        rewrite Hcs2, Hcs, <-?app_assoc; simpl;
        rewrite <-?Hc, ?Hp, ?Hs in *; (split; [|done]); [|done].
      destruct (committed w1), (committed w2); simpl in *; congruence. }
    eapply wp_mono; [by apply generate_prediction_outcome| |]; simpl;
      intros _ w2 [Hch2 Hev]%Hgen; auto 6.
  - intros e w1 [(Hc & Hcs & Hch & _) _]. auto.
Qed.

(** *** One active prediction per user (C2) *)

Definition active_of (user : Z) (rows : list Prediction.t) :=
  filter (λ p, Prediction.user_id p = user
               ∧ Prediction.is_active p = Some true) rows.


Lemma deactivate_own user rows :
  active_of user (deactivate user <$> rows) = [].
Proof.
  unfold active_of. induction rows as [|p rows IH]; [done|].
  csimpl. rewrite filter_cons, IH. unfold deactivate.
  destruct (decide (Prediction.user_id p = user
                    ∧ Prediction.is_active p = Some true)) as [[]|Hn];
    simpl.
  - rewrite decide_False; [done|]. by intros [_ [=]].
  - by rewrite decide_False.
Qed.




(** A concrete course of events: two cycles recorded, then the second
    event delivered once more. *)
Definition empty_world : World :=
  mkWorld (mkStore [] []) (mkStore [] []) [] [] (Pika.mkNet [] []) [] tt.

Definition cycle_event (user cycle : Z) (start : date) : option Message :=
  Some (mkMessage (Some "new_cycle_data") user cycle
          (mkCycleData (Iso start) Missing)).

Definition after_first_cycle : World :=
  (callback 1 (cycle_event 7 10 (Date.ymd 2024 1 1)) empty_world).2.
Definition after_second_cycle : World :=
  (callback 2 (cycle_event 7 11 (Date.ymd 2024 1 31)) after_first_cycle).2.
Definition after_replay : World :=
  (callback 3 (cycle_event 7 11 (Date.ymd 2024 1 31)) after_second_cycle).2.


(** *** No partial analytics write (C3) *)

Lemma update_analytics_survives message : survives (update_analytics message).
Proof.
  unfold update_analytics, add_analytics, setattr.
  repeat first
    [ apply survives_query | apply survives_commit
    | apply survives_bind; [|intros ?]
    | apply survives_ret | apply survives_raise
    | apply survives_set_session
    | apply (survives_gets_session (λ s, analytics s))
    | match goal with
      | |- survives (fromisoformat ?f) => destruct f; simpl
      | |- survives (match ?x with _ => _ end) => destruct x
      end ].
Qed.

(** C3: an exception is raised while the consumer processes a cycle
    event.  Then, when the handler answers the broker, the session holds
    nothing uncommitted (leaving the application context discarded it),
    the answer is a negative acknowledgement without requeue, and the
    CycleAnalytics table is either as it was before the delivery or
    exactly as the complete upsert of lines 97-130 leaves it when no
    round trip fails: no row is left in between. *)
Theorem no_partial_analytics_write
    (delivery_tag : Z) (body : option Message) (w : World) (e : exn) :
  session w = committed w →
  (process_cycle_event body w).1 = Raised e →
  let before_nack := (process_cycle_event body w).2 in
  let w' := (callback delivery_tag body w).2 in
  session before_nack = committed before_nack
  ∧ committed w' = committed before_nack
  ∧ channel w' = channel w ++ [BasicNack delivery_tag false]
  ∧ (analytics (committed w') = analytics (committed w)
     ∨ ∃ message,
         body = Some message
         ∧ (update_analytics message (set_db_faults [] w)).1 = Returned tt
         ∧ analytics (committed w')
           = analytics
               (committed (update_analytics message (set_db_faults [] w)).2)).
Proof.
  intros Hs He.
  pose proof (wp_run _ _ _ _ (process_cycle_event_outcome body w Hs)) as Hrun.
  unfold callback, try_except, mbind, M_bind, bind, basic_nack, modify.
  destruct (process_cycle_event body w) as [[[]|e'] w1]; simpl in *; [done|].
  destruct Hrun as (Hs1 & Hch & Hout). rewrite Hch.
  split_and!; [done..|].
  destruct Hout as [[-> _]|(message & w2 & -> & Hup & Ha & _)]; [by left|].
  right. exists message. split; [done|].
  destruct (update_analytics_survives message w (set_db_faults [] w) tt w2)
    as (w2' & -> & (Hc2 & _) & _); [done..|].
  simpl. by rewrite Ha, Hc2.
Qed.

(** The second event of the course above, with the database failing at
    the last commit (the ninth round trip). *)
Definition failing_at_last_commit : World :=
  set_db_faults (replicate 8 false ++ [true]) after_first_cycle.

Lemma late_failure_keeps_complete_row :
  let body := cycle_event 7 11 (Date.ymd 2024 1 31) in
  let w := failing_at_last_commit in
  let before_nack := (process_cycle_event body w).2 in
  let w' := (callback 2 body w).2 in
  session before_nack = committed before_nack
  ∧ committed w' = committed before_nack
  ∧ channel w' = channel w ++ [BasicNack 2 false]
  ∧ (analytics (committed w') = analytics (committed w)
     ∨ ∃ message,
         body = Some message
         ∧ (update_analytics message (set_db_faults [] w)).1 = Returned tt
         ∧ analytics (committed w')
           = analytics
               (committed (update_analytics message (set_db_faults [] w)).2)).
Proof.
  apply (no_partial_analytics_write 2 (cycle_event 7 11 (Date.ymd 2024 1 31))
           failing_at_last_commit SQLAlchemyError).
  - vm_compute. reflexivity.
  - vm_compute. reflexivity.
Defined.
End analytics_consumer.

(** *** The upserted row (C10, C6) *)

Section upsert.
Import Analytics Analytics.MessageQueue Analytics.MessageQueue.MessageConsumer.

(** What lines 97-130 make of the table [T] when they get to their
    commit: the row of the event's cycle, found at [i] or appended there,
    becomes [a]. *)
Definition upserted (message : Message) (T T' : list CycleAnalytics.t)
  : Prop :=
  ∃ (i : nat) (a0 a : CycleAnalytics.t) (T1 : list CycleAnalytics.t),
    (T1 = T
     ∨ list_find (λ r, CycleAnalytics.cycle_id r = cycle_id message) T = None
       ∧ T1 = T ++ [a0]
       ∧ ∃ start,
           cd_start_date (data message) = Iso start
           ∧ a0 = CycleAnalytics.new
                    (next_id (CycleAnalytics.id <$> T))
                    (user_id message) (cycle_id message) start)
    ∧ list_find (λ r, CycleAnalytics.cycle_id r = cycle_id message) T1
      = Some (i, a0)
    ∧ T' = <[i := a]> T1
    ∧ CycleAnalytics.id a = CycleAnalytics.id a0
    ∧ CycleAnalytics.user_id a = CycleAnalytics.user_id a0
    ∧ CycleAnalytics.cycle_id a = CycleAnalytics.cycle_id a0
    ∧ CycleAnalytics.start_date a = CycleAnalytics.start_date a0
    ∧ CycleAnalytics.end_date a
      = match cd_end_date (data message) with
        | Iso e => Some e
        | _ => CycleAnalytics.end_date a0
        end
    ∧ CycleAnalytics.period_length a
      = match cd_end_date (data message) with
        | Iso e =>
            Some (Date.days_between e (CycleAnalytics.start_date a0) + 1)
        | _ => CycleAnalytics.period_length a0
        end
    ∧ CycleAnalytics.cycle_length a
      = match CycleAnalytics.start_date
              <$> prev_analytics (user_id message)
                    (CycleAnalytics.start_date a0) T1 with
        | Some s => Some (Date.days_between (CycleAnalytics.start_date a0) s)
        | None => CycleAnalytics.cycle_length a0
        end
    ∧ ∃ rows variance,
        variance = PredictionEngine.calculate_cycle_variance rows
                     (user_id message)
        ∧ CycleAnalytics.cycle_variance a = Some variance
        ∧ CycleAnalytics.is_regular a
          = if Py.truthy variance then Some (Py.lt variance (5 # 1))
            else None.

Lemma update_analytics_upserted message (w : World) :
  wp (update_analytics message)
     (λ _ w', upserted message (analytics (session w))
                               (analytics (session w')))
     (λ _ _, True) w.
Proof.
  unfold update_analytics, add_analytics, setattr.
  wp_step. wp_step; [|done].
  wp_step.
  wp_step.
  - destruct o as [i a0]. symmetry in H.
    pose proof H as (Hi & Hc & _)%list_find_Some.
    repeat (wp_step; cbn [fst snd]; try done).
    all: cbn [session analytics flushed set_session set_db_faults
              set_analytics] in *.
    all: rewrite ?list_insert_insert_eq in *.
    all: eexists i, a0, _, _; split_and!;
      [by left|done|reflexivity|done|done|done|done| | | |].
    all: try (eexists _, _; split_and!; [eassumption|done|done]).
    all: try match goal with
             | Hp : _ = prev_analytics _ _ _ |- _ =>
                 simpl in Hp |- *;
                 apply (f_equal (fmap CycleAnalytics.start_date)) in Hp;
                 rewrite (prev_analytics_insert _ _ _ _ _ a0) in Hp by done;
                 by rewrite <-Hp
             end.
    all: match goal with
         | He : cd_end_date _ = _ |- _ => by rewrite He
         end.
  - symmetry in H.
    wp_step; try done.
    repeat (wp_step; cbn [fst snd]; try done).
    all: cbn [session analytics flushed set_session set_db_faults
              set_analytics] in *.
    all: rewrite ?list_insert_insert_eq in *.
    all: match goal with
         | |- context [CycleAnalytics.new ?n ?u ?c ?d] =>
             set (a0 := CycleAnalytics.new n u c d) in *
         end.
    all: assert (list_find
                   (λ r, CycleAnalytics.cycle_id r = cycle_id message)
                   (analytics (session w) ++ [a0])
                 = Some (length (analytics (session w)), a0)) as Hfind
      by by apply list_find_app_new.
    all: pose proof Hfind as (Hi & Hc & _)%list_find_Some.
    all: eexists _, a0, _, _; split_and!;
      [right; split_and!; [done|reflexivity|by eexists]
      |done|reflexivity|done|done|done|done| | | |].
    all: try (eexists _, _; split_and!; [eassumption|done|done]).
    all: try match goal with
             | Hp : _ = prev_analytics _ _ _ |- _ =>
                 simpl in Hp |- *;
                 apply (f_equal (fmap CycleAnalytics.start_date)) in Hp;
                 rewrite (prev_analytics_insert _ _ _ _ _ a0) in Hp by done;
                 by rewrite <-Hp
             end.
    all: match goal with
         | He : cd_end_date _ = _ |- _ => by rewrite He
         end.
Qed.

Lemma upserted_find message T T' :
  upserted message T T' →
  ∃ i a,
    list_find (λ r, CycleAnalytics.cycle_id r = cycle_id message) T'
    = Some (i, a)
    ∧ ∃ rows variance,
        variance = PredictionEngine.calculate_cycle_variance rows
                     (user_id message)
        ∧ CycleAnalytics.cycle_variance a = Some variance
        ∧ CycleAnalytics.is_regular a
          = if Py.truthy variance then Some (Py.lt variance (5 # 1))
            else None.
Proof.
  intros (i & a0 & a & T1 & _ & Hfind & -> & _ & _ & Hc & _ & _ & _ & _ & Hv).
  exists i, a. split; [|done].
  eapply list_find_insert_keep; [done|].
  apply list_find_Some in Hfind as (_ & Hc0 & _). congruence.
Qed.

(** The analytics table a delivery leaves when it got to the commit of
    line 130. *)
Lemma committed_event_upserted body (w w' : World) :
  committed_event body w w' →
  ∃ message,
    body = Some message
    ∧ upserted message (analytics (session w)) (analytics (committed w')).
Proof.
  intros (message & w1 & -> & Hrun & -> & _). exists message.
  split; [done|].
  pose proof (wp_run _ _ _ _ (update_analytics_upserted message w)) as Hup.
  pose proof (wp_run _ _ _ _ (update_analytics_frame message w)) as Hfr.
  rewrite Hrun in Hup, Hfr. simpl in *.
  destruct Hfr as (-> & _). done.
Qed.

Lemma callback_acked delivery_tag body (w : World) :
  session w = committed w →
  channel (callback delivery_tag body w).2
  = channel w ++ [BasicAck delivery_tag] →
  event_outcome body w (process_cycle_event body w).2
  ∧ committed_event body w (process_cycle_event body w).2
  ∧ committed (callback delivery_tag body w).2
    = committed (process_cycle_event body w).2
  ∧ session (callback delivery_tag body w).2
    = session (process_cycle_event body w).2.
Proof.
  intros Hs.
  pose proof (wp_run _ _ _ _ (process_cycle_event_outcome body w Hs)) as Hrun.
  unfold callback, try_except, mbind, M_bind, bind, basic_ack, basic_nack,
    modify.
  destruct (process_cycle_event body w) as [[[]|e] w1]; simpl in *.
  - intros _. by destruct Hrun.
  - destruct Hrun as (_ & -> & _). by intros [=]%app_inv_head.
Qed.

(** C10: a delivery that is acknowledged leaves the row of its cycle
    with the variance just computed and with [is_regular] unset when
    that variance is zero; [is_regular] holds the boolean
    [variance < 5] only when the variance is not zero. *)
Theorem is_regular_unset_when_variance_zero
    (delivery_tag : Z) (body : option Message) (w : World) :
  session w = committed w →
  let w' := (callback delivery_tag body w).2 in
  channel w' = channel w ++ [BasicAck delivery_tag] →
  ∃ message i a rows variance,
    body = Some message
    ∧ list_find (λ r, CycleAnalytics.cycle_id r = cycle_id message)
                (analytics (committed w'))
      = Some (i, a)
    ∧ variance = PredictionEngine.calculate_cycle_variance rows
                   (user_id message)
    ∧ CycleAnalytics.cycle_variance a = Some variance
    ∧ ((variance == 0)%Q → CycleAnalytics.is_regular a = None)
    ∧ (¬ (variance == 0)%Q →
       CycleAnalytics.is_regular a = Some (Py.lt variance (5 # 1))).
Proof.
  intros Hs w' Hack.
  destruct (callback_acked _ _ _ Hs Hack) as (_ & Hev & Hc & _).
  apply committed_event_upserted in Hev as (message & -> & Hup).
  apply upserted_find in Hup as (i & a & Hfind & rows & v & Hv & Hcv & Hr).
  exists message, i, a, rows, v. subst w'. rewrite Hc.
  split_and!; [done..| |]; rewrite Hr; unfold Py.truthy, Qeq; simpl.
  - intros Hz. rewrite Z.mul_1_r in Hz. by rewrite Hz.
  - intros Hz. rewrite Z.mul_1_r in Hz.
    by destruct (Z.eqb_spec (Qnum v) 0).
Qed.

Lemma is_regular_unset_for_second_cycle :
  let w := after_first_cycle in
  let body := cycle_event 7 11 (Date.ymd 2024 1 31) in
  ∃ message i a rows variance,
    body = Some message
    ∧ list_find (λ r, CycleAnalytics.cycle_id r = cycle_id message)
                (analytics (committed (callback 2 body w).2))
      = Some (i, a)
    ∧ variance = PredictionEngine.calculate_cycle_variance rows
                   (user_id message)
    ∧ CycleAnalytics.cycle_variance a = Some variance
    ∧ ((variance == 0)%Q → CycleAnalytics.is_regular a = None)
    ∧ (¬ (variance == 0)%Q →
       CycleAnalytics.is_regular a = Some (Py.lt variance (5 # 1))).
Proof.
  apply (is_regular_unset_when_variance_zero 2
           (cycle_event 7 11 (Date.ymd 2024 1 31)) after_first_cycle).
  - vm_compute. reflexivity.
  - vm_compute. reflexivity.
Defined.

(** *** Replaying an event (C6) *)

(** The row of a cycle, as the database holds it. *)
Definition row_of (cycle : Z) (w : World) : option CycleAnalytics.t :=
  snd <$> list_find (λ r, CycleAnalytics.cycle_id r = cycle)
                    (analytics (committed w)).

(** C6, as stated, fails: the second cycle's event processed a second
    time leaves the row of that cycle with another average cycle length
    (30 instead of 28) than the first processing did, because the first
    processing computed the statistics before it set the row's own
    cycle length. *)
Lemma replay_changes_the_statistics :
  row_of 11 after_replay ≠ row_of 11 after_second_cycle.
Proof. vm_compute. intros [=]. Qed.

(** What a replay does not touch: everything but the three statistics
    columns. *)
Definition core (a : CycleAnalytics.t)
  : Z * Z * Z * date * option date * option Z * option Z :=
  (CycleAnalytics.id a, CycleAnalytics.user_id a, CycleAnalytics.cycle_id a,
   CycleAnalytics.start_date a, CycleAnalytics.end_date a,
   CycleAnalytics.cycle_length a, CycleAnalytics.period_length a).

Lemma upserted_twice message (T T' T'' : list CycleAnalytics.t) :
  upserted message T T' → upserted message T' T'' →
  core <$> T'' = core <$> T'.
Proof.
  intros (i & a0 & a & T1 & _ & Hfind & -> & Hid & Hu & Hc & Hs & He & Hp
          & Hl & _).
  pose proof Hfind as (Hi & Hc0 & _)%list_find_Some.
  assert (list_find (λ r, CycleAnalytics.cycle_id r = cycle_id message)
                    (<[i := a]> T1) = Some (i, a)) as Hfind'
    by (eapply list_find_insert_keep; [done|congruence]).
  intros (j & b0 & b & U1 & HU & Hfind2 & -> & Hid2 & Hu2 & Hc2 & Hs2 & He2
          & Hp2 & Hl2 & _).
  destruct HU as [->|(Hnone & _)]; [|congruence].
  rewrite Hfind' in Hfind2. injection Hfind2 as <- <-.
  rewrite list_fmap_insert. apply list_insert_id.
  rewrite list_lookup_fmap, list_lookup_insert_eq
    by by eapply lookup_lt_Some.
  simpl. f_equal. unfold core.
  rewrite Hid2, Hu2, Hc2, Hs2, He2, Hp2, Hl2.
  rewrite (prev_analytics_insert _ _ _ _ _ a0) by (done || (unfold key; congruence)).
  rewrite Hs.
  assert (CycleAnalytics.end_date a
          = match cd_end_date (data message) with
            | Iso e => Some e
            | _ => CycleAnalytics.end_date a
            end) as <- by (rewrite He; by destruct (cd_end_date _)).
  assert (CycleAnalytics.period_length a
          = match cd_end_date (data message) with
            | Iso e => Some (Date.days_between e
                               (CycleAnalytics.start_date a0) + 1)
            | _ => CycleAnalytics.period_length a
            end) as <- by (rewrite Hp; by destruct (cd_end_date _)).
  rewrite Hl. by destruct (CycleAnalytics.start_date <$> _).
Qed.

(** C6 (amended): the event was processed and acknowledged once.
    Processing it again, whatever the outcome, adds no row and leaves
    every row as it was in all columns but the statistics
    ([average_cycle_length], [cycle_variance], [is_regular]): ids,
    dates, period length and cycle length keep the state the first
    processing gave them. *)
Theorem replay_keeps_the_row
    (tag1 tag2 : Z) (body : option Message) (w : World) :
  session w = committed w →
  let w1 := (callback tag1 body w).2 in
  channel w1 = channel w ++ [BasicAck tag1] →
  let w2 := (callback tag2 body w1).2 in
  length (analytics (committed w2)) = length (analytics (committed w1))
  ∧ core <$> analytics (committed w2) = core <$> analytics (committed w1).
Proof.
  intros Hs w1 Hack w2.
  assert (core <$> analytics (committed w2)
          = core <$> analytics (committed w1)) as Hcore.
  { destruct (callback_acked _ _ _ Hs Hack) as ((Hs1 & _) & Hev & Hc & Hss).
    apply committed_event_upserted in Hev as (message & -> & Hup).
    fold w1 in Hc, Hss.
    assert (session w1 = committed w1) as Hs1' by congruence.
    pose proof (wp_run _ _ _ _
                  (process_cycle_event_outcome (Some message) w1 Hs1'))
      as Hrun.
    subst w2.
    unfold callback, try_except, mbind, M_bind, bind, basic_ack,
      basic_nack, modify.
    destruct (process_cycle_event (Some message) w1) as [[[]|e] w2];
      simpl in *.
    1: destruct Hrun as [Hrun _].
    all: destruct Hrun as (_ & _ & [[-> _]|Hev2]); [done|].
    all: apply committed_event_upserted in Hev2 as (m2 & [= <-] & Hup2).
    all: rewrite Hs1', Hc in Hup2.
    all: rewrite Hc; by eapply upserted_twice. }
  split; [|done].
  by rewrite <-(length_fmap core), Hcore, length_fmap.
Qed.

Lemma replay_keeps_the_second_cycle :
  length (analytics (committed after_replay))
  = length (analytics (committed after_second_cycle))
  ∧ core <$> analytics (committed after_replay)
    = core <$> analytics (committed after_second_cycle).
Proof.
  apply (replay_keeps_the_row 2 3 (cycle_event 7 11 (Date.ymd 2024 1 31))
           after_first_cycle).
  - vm_compute. reflexivity.
  - vm_compute. reflexivity.
Defined.
End upsert.

(** ** The reminder scheduler (C7) *)

Section reminders.
Import Notification Notification.MessageQueue
  Notification.MessageQueue.MessageConsumer Notification.NotificationManager.

(** The preference the scheduler works with: the user's row, or the
    row of defaults it inserts when there is none. *)
Definition preference_of (user : Z) (rows : list NotificationPreference.t)
  : NotificationPreference.t :=
  match list_find (λ p, NotificationPreference.user_id p = user) rows with
  | Some (_, p) => p
  | None =>
      NotificationPreference.new
        (next_id (NotificationPreference.id <$> rows)) user
  end.


Lemma process_prediction_event_channel body (w : World) :
  wp (process_prediction_event body)
     (λ _ w', channel w' = channel w) (λ _ w', channel w' = channel w) w.
Proof.
  unfold process_prediction_event, json_loads, create_period_reminder,
    NotificationManager.fromisoformat.
  repeat (wp_step; try done).
Qed.


(** The scenarios of the specification: a prediction for 2024-03-01 and
    a preference of three days give a reminder for 2024-02-27. *)
Definition no_preferences : World :=
  mkWorld (mkStore [] []) (mkStore [] []) [] [] (Pika.mkNet [] []) [] tt.

Definition prediction_for_march_first : Message :=
  mkMessage (Some "new_prediction") 7 (Some 4) (IsoDate 2024 3 1).

End reminders.

(** ** Acknowledgement policy (C4) *)

Section acknowledgement.

Lemma process_cycle_event_channel body (w : Analytics.MessageQueue.World) :
  wp (Analytics.MessageQueue.MessageConsumer.process_cycle_event body)
     (λ _ w', channel w' = channel w) (λ _ w', channel w' = channel w) w.
Proof.
  unfold Analytics.MessageQueue.MessageConsumer.process_cycle_event,
    Analytics.MessageQueue.MessageConsumer.json_loads.
  repeat (wp_step; try done).
  eapply wp_mono; [apply update_analytics_frame|..]; simpl.
  - intros _ w1 (_ & _ & _ & <- & _).
    unfold Analytics.MessageQueue.MessageConsumer.generate_prediction,
      Analytics.MessageQueue.deactivate_active,
      Analytics.MessageQueue.add_prediction.
    repeat (first [wp_step | apply wp_any; intros]; try done).
  - by intros _ w1 (_ & _ & -> & _).
Qed.

(** The answer a handler gives for a delivery, by how its [try] body
    ended. *)
Definition answer {A} (delivery_tag : Z) (r : outcome A) : delivery :=
  match r with
  | Returned _ => BasicAck delivery_tag
  | Raised _ => BasicNack delivery_tag false
  end.

(** C4: in both consumers the callback answers every delivery exactly
    once: with an acknowledgement when the handler body returned, with a
    negative acknowledgement that does not requeue when it raised,
    whatever the exception; the callback itself never raises. *)
Theorem ack_on_success_nack_without_requeue_on_exception :
  (∀ delivery_tag body (w : Analytics.MessageQueue.World),
     let r := Analytics.MessageQueue.MessageConsumer.process_cycle_event body w in
     let r' := Analytics.MessageQueue.MessageConsumer.callback delivery_tag body w in
     r'.1 = Returned tt
     ∧ channel r'.2 = channel w ++ [answer delivery_tag r.1])
  ∧ (∀ delivery_tag body (w : Notification.World),
       let r := Notification.MessageQueue.MessageConsumer.process_prediction_event body w in
       let r' := Notification.MessageQueue.MessageConsumer.callback delivery_tag body w in
       r'.1 = Returned tt
       ∧ channel r'.2 = channel w ++ [answer delivery_tag r.1]).
Proof.
  split; intros delivery_tag body w.
  - pose proof (wp_run _ _ _ _ (process_cycle_event_channel body w)) as H.
    unfold Analytics.MessageQueue.MessageConsumer.callback, try_except, mbind, M_bind, bind,
      basic_ack, basic_nack, modify.
    destruct (Analytics.MessageQueue.MessageConsumer.process_cycle_event body w)
      as [[[]|e] w1]; simpl in *; by rewrite H.
  - pose proof (wp_run _ _ _ _ (process_prediction_event_channel body w)) as H.
    unfold Notification.MessageQueue.MessageConsumer.callback, try_except, mbind, M_bind,
      bind, basic_ack, basic_nack, modify.
    destruct (Notification.MessageQueue.MessageConsumer.process_prediction_event body w)
      as [[[]|e] w1]; simpl in *; by rewrite H.
Qed.
End acknowledgement.

(** ** Publishing never fails a write (C9) *)

Section broker_blind.
Context {S P G : Type}.
Local Abbreviation World := (Db.World S P G).













End broker_blind.

Section cycle_routes.
Import CycleTracking CycleTracking.MessageQueue CycleTracking.Routes.













(** A cycle created while the broker is down for good: the request is
    answered 201 and the cycle is in the database, as with the broker
    up. *)
Definition broker_down : World :=
  mkWorld (mkStore [] []) (mkStore [] []) [] []
          (Pika.mkNet (replicate 12 true) []) [] None.
Definition broker_up : World :=
  mkWorld (mkStore [] []) (mkStore [] []) [] [] (Pika.mkNet [] []) [] None.

End cycle_routes.

(** * Further properties *)

(** ** The statistics engine, continued *)

Section statistics_more.
Import Analytics Analytics.CycleAnalytics Analytics.PredictionEngine.

(** The cycle lengths the two statistics work on. *)
Definition window (rows : list CycleAnalytics.t) (user : Z) : list Z :=
  cycle_lengths (recent_with_length rows user 6).

Lemma window_length rows user :
  length (window rows user) = (6 `min` length (with_length rows user))%nat.
Proof.
  unfold window.
  assert (length (cycle_lengths (recent_with_length rows user 6))
          = length (recent_with_length rows user 6)) as ->.
  { rewrite <-(length_fmap Some), <-cycle_lengths_defined
      by apply recent_with_length_defined.
    by rewrite length_fmap. }
  rewrite recent_with_length_eq, length_take.
  by rewrite order_by_perm.
Qed.

Lemma fsum_nonneg (xs : list Q) :
  Forall (λ x, (0 <= x)%Q) xs → (0 <= Py.fsum xs)%Q.
Proof.
  induction 1 as [|x xs Hx _ IH]; simpl; [done|].
  change (0 # 1)%Q with (0 + 0)%Q at 1. by apply Qplus_le_compat.
Qed.

Lemma square_nonneg (x : Q) : (0 <= Qpower x 2)%Q.
Proof.
  simpl. unfold Qle, Qmult. simpl. rewrite Z.mul_1_r. apply Z.square_nonneg.
Qed.

Lemma variance_unfold rows user :
  calculate_cycle_variance rows user
  = if decide (length (window rows user) < 2)%nat then (0 # 1)%Q
    else
      let mean := Py.true_div (Py.sum (window rows user))
                              (length (window rows user)) in
      (Py.fsum ((λ x, Qpower (inject_Z x - mean) 2) <$> window rows user)
       / inject_Z (Z.of_nat (length (window rows user))))%Q.
Proof.
  unfold calculate_cycle_variance, calculate_cycle_variance_limit, window.
  assert (length (cycle_lengths (recent_with_length rows user 6))
          = length (recent_with_length rows user 6)) as Hl.
  { rewrite <-(length_fmap Some), <-cycle_lengths_defined
      by apply recent_with_length_defined.
    by rewrite length_fmap. }
  rewrite Hl. by repeat case_decide.
Qed.

(** X1: the variance of the cycle lengths is never negative, and it is
    zero when the user has fewer than two rows with a cycle length. *)
Theorem variance_nonnegative rows user :
  (0 <= calculate_cycle_variance rows user)%Q
  ∧ ((length (with_length rows user) < 2)%nat →
     calculate_cycle_variance rows user = (0 # 1)%Q).
Proof.
  rewrite variance_unfold, window_length. split.
  - case_decide; [done|]. cbv zeta.
    apply Qle_shift_div_l.
    + unfold Qlt, inject_Z, Qnum, Qden. lia.
    + rewrite Qmult_0_l. apply fsum_nonneg.
      apply Forall_fmap, Forall_forall. intros x _. apply square_nonneg.
  - intros Hlt. rewrite decide_True; [done|lia].
Qed.

Lemma variance_of_a_first_cycle :
  let rows := [CycleAnalytics.new 1 7 10 (Date.ymd 2024 1 1)] in
  (0 <= calculate_cycle_variance rows 7)%Q
  ∧ calculate_cycle_variance rows 7 = (0 # 1)%Q.
Proof.
  destruct (variance_nonnegative
              [CycleAnalytics.new 1 7 10 (Date.ymd 2024 1 1)] 7) as [H0 H1].
  split; [exact H0|]. apply H1. vm_compute. lia.
Defined.
End statistics_more.

Section statistics_more2.
Import Analytics Analytics.CycleAnalytics Analytics.PredictionEngine.

Lemma fsum_zero (xs : list Q) :
  Forall (λ x, (0 <= x)%Q) xs → (Py.fsum xs == 0)%Q →
  Forall (λ x, (x == 0)%Q) xs.
Proof.
  induction 1 as [|x xs Hx Hxs IH]; simpl; intros Hsum; [done|].
  pose proof (fsum_nonneg xs Hxs) as Hs.
  constructor; [lra|]. apply IH. lra.
Qed.

Lemma fsum_all_zero (xs : list Q) :
  Forall (λ x, (x == 0)%Q) xs → (Py.fsum xs == 0)%Q.
Proof. induction 1 as [|x xs Hx _ IH]; simpl; [done|lra]. Qed.

Lemma square_zero (x : Q) : (Qpower x 2 == 0)%Q ↔ (x == 0)%Q.
Proof.
  simpl. split.
  - intros [H|H]%Qmult_integral; done.
  - intros ->. done.
Qed.

Lemma sum_constant (c : Z) (xs : list Z) :
  Forall (λ x, x = c) xs → Py.sum xs = Z.of_nat (length xs) * c.
Proof.
  induction 1 as [|x xs -> _ IH]; simpl; [done|]. rewrite IH. lia.
Qed.

Lemma true_div_constant (c : Z) (n : nat) :
  n ≠ 0%nat → (Py.true_div (Z.of_nat n * c) n == inject_Z c)%Q.
Proof.
  intros Hn. unfold Py.true_div, inject_Z, Qeq, Qnum, Qden.
  destruct n as [|n]; [done|].
  assert (Z.pos (Pos.of_nat (S n)) = Z.of_nat (S n)) as -> by lia. ring.
Qed.

(** X2: with two samples or more, the variance is zero exactly when all
    the cycle lengths it is taken over are the same. *)
Theorem variance_zero_iff_equal rows user :
  (2 ≤ length (with_length rows user))%nat →
  (calculate_cycle_variance rows user == 0)%Q
  ↔ ∀ x y, x ∈ window rows user → y ∈ window rows user → x = y.
Proof.
  intros Hn. rewrite variance_unfold.
  pose proof (window_length rows user) as Hlen.
  set (ls := window rows user) in *. clearbody ls.
  rewrite decide_False by lia. cbv zeta.
  set (mean := Py.true_div (Py.sum ls) (length ls)).
  assert (0 < inject_Z (Z.of_nat (length ls)))%Q as Hpos
    by (unfold Qlt, inject_Z, Qnum, Qden; lia).
  set (n := inject_Z (Z.of_nat (length ls))) in *.
  assert (¬ (n == 0)%Q) as Hn0 by (apply Qnot_eq_sym, Qlt_not_eq, Hpos).
  clearbody n.
  assert (Forall (λ q, (0 <= q)%Q)
            ((λ x, Qpower (inject_Z x - mean) 2) <$> ls)) as Hnn.
  { apply Forall_fmap, Forall_forall. intros x _. apply square_nonneg. }
  split.
  - intros Hv.
    assert (Py.fsum ((λ x, Qpower (inject_Z x - mean) 2) <$> ls) == 0)%Q
      as Hsum.
    { rewrite <-(Qmult_div_r _ n) by done. rewrite Hv. lra. }
    apply fsum_zero in Hsum; [|done].
    rewrite Forall_fmap, Forall_forall in Hsum.
    intros x y Hx Hy.
    apply Hsum, (proj1 (square_zero _)) in Hx.
    apply Hsum, (proj1 (square_zero _)) in Hy.
    assert (∀ a b m : Q, a - m == 0 → b - m == 0 → a == b)%Q as Hlin
      by (intros; lra).
    pose proof (Hlin _ _ _ Hx Hy) as Heq.
    unfold Qeq, inject_Z, Qnum, Qden in Heq. lia.
  - intros Heq.
    assert (∃ c, c ∈ ls) as [c Hc].
    { destruct ls as [|c ls']; [|exists c; left].
      change (length []) with 0%nat in Hlen. lia. }
    assert (Forall (λ x, x = c) ls) as Hall.
    { apply Forall_forall. intros x Hx. by apply Heq. }
    assert (mean == inject_Z c)%Q as Hmean.
    { unfold mean. rewrite (sum_constant c) by done.
      apply true_div_constant. lia. }
    assert (Py.fsum ((λ x, Qpower (inject_Z x - mean) 2) <$> ls) == 0)%Q
      as ->.
    { apply fsum_all_zero, Forall_fmap.
      eapply Forall_impl; [exact Hall|]. simpl. intros x ->.
      apply square_zero. rewrite Hmean. ring. }
    unfold Qdiv. apply Qmult_0_l.
Qed.
End statistics_more2.

Section predictions_more.
Import Analytics Analytics.CycleAnalytics Analytics.PredictionEngine.

Lemma variance_zero_iff_equal_two_cycles :
  (calculate_cycle_variance two_cycles 7 == 0)%Q
  ↔ ∀ x y, x ∈ window two_cycles 7 → y ∈ window two_cycles 7 → x = y.
Proof.
  apply (variance_zero_iff_equal two_cycles 7). vm_compute. lia.
Defined.

Lemma Py_lt_spec (x y : Q) : Py.lt x y = true ↔ (x < y)%Q.
Proof. unfold Py.lt, Qlt. apply Z.ltb_lt. Qed.

Lemma predict_next_period_Some rows user p :
  predict_next_period rows user = Some p →
  ∃ a, latest rows user = Some a
       ∧ Prediction.user_id p = user
       ∧ Prediction.predicted_start_date p
         = start_date a + Py.int (calculate_average_cycle_length rows user)
       ∧ Prediction.based_on_cycles p = Z.min (count rows user) 6
       ∧ Prediction.confidence_score p
         = (if Py.lt (calculate_cycle_variance rows user) (2 # 1)
            then 9 # 10
            else if Py.lt (calculate_cycle_variance rows user) (5 # 1)
                 then 3 # 4 else 3 # 5)%Q.
Proof.
  unfold predict_next_period.
  destruct (latest rows user) as [a|]; [|done].
  destruct (Py.lt _ (2 # 1)); [|destruct (Py.lt _ (5 # 1))];
    intros [= <-]; exists a; by split_and!.
Qed.

(** X3: the confidence of a prediction is 0.9 below a variance of 2, 0.75
    from 2 up to (not including) 5 and 0.6 from 5 on; so of two
    predictions the one made from the larger variance is never the more
    confident. *)
Theorem confidence_falls_with_variance rows1 user1 rows2 user2 p1 p2 :
  predict_next_period rows1 user1 = Some p1 →
  predict_next_period rows2 user2 = Some p2 →
  let v1 := calculate_cycle_variance rows1 user1 in
  let v2 := calculate_cycle_variance rows2 user2 in
  ((v1 < 2 # 1)%Q → Prediction.confidence_score p1 = (9 # 10)%Q)
  ∧ ((2 # 1 <= v1)%Q → (v1 < 5 # 1)%Q →
     Prediction.confidence_score p1 = (3 # 4)%Q)
  ∧ ((5 # 1 <= v1)%Q → Prediction.confidence_score p1 = (3 # 5)%Q)
  ∧ ((v1 <= v2)%Q →
     (Prediction.confidence_score p2 <= Prediction.confidence_score p1)%Q).
Proof.
  intros (_ & _ & _ & _ & _ & ->)%predict_next_period_Some
         (_ & _ & _ & _ & _ & ->)%predict_next_period_Some v1 v2.
  fold v1 v2.
  destruct (Py.lt v1 (2 # 1)) eqn:H12; [apply Py_lt_spec in H12|];
    (destruct (Py.lt v1 (5 # 1)) eqn:H15; [apply Py_lt_spec in H15|]);
    (destruct (Py.lt v2 (2 # 1)) eqn:H22; [apply Py_lt_spec in H22|]);
    (destruct (Py.lt v2 (5 # 1)) eqn:H25; [apply Py_lt_spec in H25|]).
  all: repeat match goal with
         | H : Py.lt _ _ = false |- _ =>
             apply not_true_iff_false in H; rewrite Py_lt_spec in H;
             apply Qnot_lt_le in H
         end.
  all: split_and!; intros; try done; try lra.
Qed.

Lemma confidence_falls_for_two_and_three_cycles :
  let v1 := calculate_cycle_variance two_cycles 7 in
  let v2 := calculate_cycle_variance three_cycles 7 in
  ∃ p1 p2,
    predict_next_period two_cycles 7 = Some p1
    ∧ predict_next_period three_cycles 7 = Some p2
    ∧ ((v1 < 2 # 1)%Q → Prediction.confidence_score p1 = (9 # 10)%Q)
    ∧ ((2 # 1 <= v1)%Q → (v1 < 5 # 1)%Q →
       Prediction.confidence_score p1 = (3 # 4)%Q)
    ∧ ((5 # 1 <= v1)%Q → Prediction.confidence_score p1 = (3 # 5)%Q)
    ∧ ((v1 <= v2)%Q →
       (Prediction.confidence_score p2 <= Prediction.confidence_score p1)%Q).
Proof.
  eexists _, _. split; [vm_compute; reflexivity|].
  split; [vm_compute; reflexivity|].
  apply (confidence_falls_with_variance two_cycles 7 three_cycles 7);
    vm_compute; reflexivity.
Defined.

Lemma count_ge_samples rows user :
  Z.of_nat (length (recent_with_length rows user 6))
  ≤ Z.min (count rows user) 6.
Proof.
  unfold recent_with_length, count.
  rewrite length_take.
  pose proof (order_by_perm
                (filter (λ a, is_Some (cycle_length a))
                        (filter_by_user user rows))) as Hp.
  apply Permutation_length in Hp. rewrite Hp.
  pose proof (length_filter (λ a, is_Some (cycle_length a))
                            (filter_by_user user rows)).
  lia.
Qed.

(** X4: a prediction says it is based on between one and six cycles, the
    number of the user's rows capped at six; the number of cycle lengths
    that went into the average is never larger than that (rows without a
    cycle length are counted but not averaged). *)
Theorem based_on_cycles_bounds rows user p :
  predict_next_period rows user = Some p →
  1 ≤ Prediction.based_on_cycles p ≤ 6
  ∧ Prediction.based_on_cycles p
    = Z.min (Z.of_nat (length (filter_by_user user rows))) 6
  ∧ Z.of_nat (length (window rows user)) ≤ Prediction.based_on_cycles p.
Proof.
  intros (a & Hl & _ & _ & -> & _)%predict_next_period_Some.
  pose proof (count_ge_samples rows user) as Hs.
  assert (length (window rows user)
          = length (recent_with_length rows user 6)) as ->.
  { unfold window.
    rewrite <-(length_fmap Some), <-cycle_lengths_defined
      by apply recent_with_length_defined.
    by rewrite length_fmap. }
  split_and!; [|lia|done|done].
  unfold count. unfold latest in Hl.
  pose proof (order_by_perm (filter_by_user user rows)) as Hp.
  apply Permutation_length in Hp.
  destruct (order_by_start_date_desc (filter_by_user user rows)); [done|].
  simpl in Hp. lia.
Qed.

Lemma based_on_cycles_of_two_cycles :
  ∃ p, predict_next_period two_cycles 7 = Some p
       ∧ 1 ≤ Prediction.based_on_cycles p ≤ 6
       ∧ Prediction.based_on_cycles p
         = Z.min (Z.of_nat (length (filter_by_user 7 two_cycles))) 6
       ∧ Z.of_nat (length (window two_cycles 7))
         ≤ Prediction.based_on_cycles p.
Proof.
  eexists. split; [vm_compute; reflexivity|].
  apply (based_on_cycles_bounds two_cycles 7). vm_compute. reflexivity.
Defined.
End predictions_more.

Section positive_lengths.
Import Analytics Analytics.CycleAnalytics Analytics.PredictionEngine.

(** Cycle lengths of at least a day, wherever a row has one. *)
Definition positive_lengths (rows : list CycleAnalytics.t) : Prop :=
  Forall (λ r, ∀ n, cycle_length r = Some n → 1 ≤ n) rows.

Lemma window_positive rows user :
  positive_lengths rows → Forall (λ x, 1 ≤ x) (window rows user).
Proof.
  intros Hpos. apply Forall_forall. intros x Hx.
  unfold window, PredictionEngine.cycle_lengths in Hx.
  apply list_elem_of_omap in Hx as (a & Ha & Hx).
  unfold recent_with_length in Ha.
  apply elem_of_take in Ha as (i & Ha & _).
  apply list_elem_of_lookup_2 in Ha. rewrite order_by_perm in Ha.
  apply list_elem_of_filter in Ha as [_ Ha].
  apply list_elem_of_filter in Ha as [_ Ha].
  eapply Forall_forall in Hpos; [|exact Ha]. by apply Hpos.
Qed.

Lemma sum_ge_length (xs : list Z) :
  Forall (λ x, 1 ≤ x) xs → Z.of_nat (length xs) ≤ Py.sum xs.
Proof. induction 1; simpl; lia. Qed.

Lemma average_at_least_one rows user :
  positive_lengths rows →
  1 ≤ Py.int (calculate_average_cycle_length rows user).
Proof.
  intros Hpos%(window_positive _ user).
  unfold calculate_average_cycle_length, calculate_average_cycle_length_limit.
  pose proof (sum_ge_length _ Hpos) as Hsum. unfold window in Hsum.
  assert (length (PredictionEngine.cycle_lengths (recent_with_length rows user 6))
          = length (recent_with_length rows user 6)) as Hlen.
  { rewrite <-(length_fmap Some), <-cycle_lengths_defined
      by apply recent_with_length_defined.
    by rewrite length_fmap. }
  rewrite Hlen in Hsum.
  destruct (recent_with_length rows user 6) as [|a l] eqn:Hr; [done|].
  rewrite <-Hr in *. unfold Py.int, Py.true_div, Qnum, Qden.
  assert (Z.pos (Pos.of_nat (length (recent_with_length rows user 6)))
          = Z.of_nat (length (recent_with_length rows user 6))) as ->
    by (rewrite Hr; simpl; lia).
  apply Z.quot_le_lower_bound; [rewrite Hr; simpl|]; lia.
Qed.

(** X5: when every cycle length on record is at least one day, the
    predicted start lies strictly after the start of every cycle of the
    user. *)
Theorem prediction_after_every_cycle rows user p :
  positive_lengths rows →
  predict_next_period rows user = Some p →
  ∀ b, b ∈ filter_by_user user rows →
       start_date b < Prediction.predicted_start_date p.
Proof.
  intros Hpos Hp b Hb.
  pose proof (average_at_least_one rows user Hpos) as Havg.
  apply predict_next_period_Some in Hp as (a & Hl & _ & -> & _).
  pose proof (latest_is_most_recent rows user) as Hlatest.
  destruct (filter_by_user user rows) as [|e el] eqn:He;
    [by apply elem_of_nil in Hb|].
  destruct Hlatest as (a' & Hl' & _ & Hmax).
  rewrite Hl in Hl'. injection Hl' as <-.
  specialize (Hmax b Hb). lia.
Qed.

Lemma prediction_after_two_cycles :
  ∃ p, predict_next_period two_cycles 7 = Some p
       ∧ ∀ b, b ∈ filter_by_user 7 two_cycles →
              start_date b < Prediction.predicted_start_date p.
Proof.
  eexists. split; [vm_compute; reflexivity|].
  apply (prediction_after_every_cycle two_cycles 7).
  - repeat constructor; intros n [= <-]; lia.
  - vm_compute. reflexivity.
Defined.
End positive_lengths.

Section consumer_more.
Import Analytics Analytics.MessageQueue Analytics.MessageQueue.MessageConsumer.

Lemma callback_committed delivery_tag body (w : World) :
  committed (callback delivery_tag body w).2
  = committed (process_cycle_event body w).2.
Proof.
  unfold callback, try_except, mbind, M_bind, bind, basic_ack, basic_nack,
    modify.
  by destruct (process_cycle_event body w) as [[[]|e] w1].
Qed.

Lemma upserted_positive message T T' :
  upserted message T T' → positive_lengths T → positive_lengths T'.
Proof.
  intros (i & a0 & a & T1 & HT1 & Hfind & -> & _ & _ & _ & _ & _ & _ & Hl & _)
         Hpos.
  assert (positive_lengths T1) as Hpos1.
  { destruct HT1 as [->|(_ & -> & start & _ & ->)]; [done|].
    apply Forall_app. split; [done|]. by repeat constructor. }
  apply list_find_Some in Hfind as (Hi & _ & _).
  apply Forall_insert; [done|].
  intros n Hn. rewrite Hl in Hn.
  pose proof (prev_analytics_spec (user_id message)
                (CycleAnalytics.start_date a0) T1) as Hprev.
  destruct (prev_analytics _ _ T1) as [p|]; simpl in Hn.
  - destruct Hprev as (_ & _ & Hlt & _). injection Hn as <-.
    unfold Date.days_between. lia.
  - eapply Forall_lookup_1 in Hpos1; [|exact Hi]. by apply Hpos1.
Qed.

(** X6: the consumer never stores a cycle length below one day: if the
    cycle lengths on record are all positive before a delivery, they are
    after it, whatever the event and whatever fails. *)
Theorem consumer_keeps_cycle_lengths_positive
    (delivery_tag : Z) (body : option Message) (w : World) :
  session w = committed w →
  positive_lengths (analytics (committed w)) →
  positive_lengths (analytics (committed (callback delivery_tag body w).2)).
Proof.
  intros Hs Hpos. rewrite callback_committed.
  pose proof (wp_run _ _ _ _ (process_cycle_event_outcome body w Hs)) as Hrun.
  assert (event_outcome body w (process_cycle_event body w).2) as Hev.
  { destruct (process_cycle_event body w).1; [by destruct Hrun|done]. }
  destruct Hev as (_ & _ & [[-> _]|Hev]); [done|].
  apply committed_event_upserted in Hev as (message & _ & Hup).
  rewrite Hs in Hup. by eapply upserted_positive.
Qed.

Lemma cycle_lengths_positive_after_second_cycle :
  positive_lengths (analytics (committed after_second_cycle)).
Proof.
  apply (consumer_keeps_cycle_lengths_positive 2
           (cycle_event 7 11 (Date.ymd 2024 1 31)) after_first_cycle).
  - vm_compute. reflexivity.
  - vm_compute. repeat constructor; intros n [=].
Defined.
End consumer_more.

Section consumer_predictions.
Import Analytics Analytics.MessageQueue Analytics.MessageQueue.MessageConsumer.

Lemma predict_next_period_is_Some rows user :
  0 < PredictionEngine.count rows user →
  is_Some (PredictionEngine.predict_next_period rows user).
Proof.
  unfold PredictionEngine.count. intros Hn.
  pose proof (latest_is_most_recent rows user) as Hl.
  destruct (PredictionEngine.filter_by_user user rows) eqn:Hf;
    [simpl in Hn; lia|].
  destruct Hl as (a & Hl & _).
  unfold PredictionEngine.predict_next_period. rewrite Hl.
  by destruct (if Py.lt _ _ then _ else _).
Qed.

(** [generate_prediction], when it returns: with fewer than two rows the
    predictions are as they were, with two or more the user's active
    predictions are superseded by a new one. *)
Lemma generate_prediction_returned user (w : World) :
  session w = committed w →
  wp (generate_prediction user)
     (λ _ w',
        analytics (committed w') = analytics (committed w)
        ∧ if decide (2 ≤ PredictionEngine.count (analytics (committed w)) user)
          then superseded user (predictions (committed w))
                          (predictions (committed w'))
          else predictions (committed w') = predictions (committed w))
     (λ _ _, True) w.
Proof.
  intros Hs. unfold generate_prediction, deactivate_active, add_prediction.
  wp_step. wp_step; [|done]. subst x. rewrite Hs.
  destruct (decide (2 ≤ _)) as [Hn|Hn]; [|by wp_step].
  wp_step. wp_step; [|done].
  match goal with H : x = _ |- _ =>
    cbn [session set_db_faults] in H; rewrite Hs in H end.
  destruct (predict_next_period_is_Some (analytics (committed w)) user)
    as [p Hp]; [lia|]. subst x. rewrite Hp.
  apply predict_next_period_fresh in Hp as [Hu Ha].
  repeat (first [wp_step | apply wp_any; intros]); try done.
  simpl. rewrite Hs. split; [done|].
  eexists. split; [reflexivity|]. simpl. by rewrite Ha.
Qed.

Lemma process_cycle_event_returned body (w w' : World) :
  process_cycle_event body w = (Returned tt, w') →
  ∃ message w1 w2,
    body = Some message
    ∧ update_analytics message w = (Returned tt, w1)
    ∧ generate_prediction (user_id message) w1 = (Returned tt, w2)
    ∧ w' = rollback_session w2.
Proof.
  unfold process_cycle_event, json_loads.
  destruct body as [message|]; [|done].
  destruct (event_type message); [|done].
  unfold with_app_context, on_exit, mbind, M_bind, bind, mret, M_ret, ret.
  destruct (update_analytics message w) as [[[]|e] w1] eqn:Hu;
    [|by intros [=]].
  destruct (generate_prediction (user_id message) w1) as [[[]|e] w2] eqn:Hg;
    intros [= <-].
  by exists message, w1, w2.
Qed.

Lemma callback_acked_returned delivery_tag body (w : World) :
  channel (callback delivery_tag body w).2
  = channel w ++ [BasicAck delivery_tag] →
  ∃ w', process_cycle_event body w = (Returned tt, w').
Proof.
  pose proof (wp_run _ _ _ _ (process_cycle_event_channel body w)) as Hrun.
  unfold callback, try_except, mbind, M_bind, bind, basic_ack, basic_nack,
    modify.
  destruct (process_cycle_event body w) as [[[]|e] w1]; simpl in *.
  - intros _. by eexists.
  - rewrite Hrun. by intros [=]%app_inv_head.
Qed.

(** X7: an acknowledged delivery leaves the event's user with exactly
    one active prediction, the one just inserted, when the user has two
    analytics rows or more afterwards; with fewer rows it leaves the
    predictions as they were. *)
Theorem acked_delivery_predicts_from_two_rows
    (delivery_tag : Z) (body : option Message) (w : World) :
  session w = committed w →
  let w' := (callback delivery_tag body w).2 in
  channel w' = channel w ++ [BasicAck delivery_tag] →
  ∃ message,
    body = Some message
    ∧ if decide (2 ≤ PredictionEngine.count (analytics (committed w'))
                       (user_id message))
      then ∃ p, last (predictions (committed w')) = Some p
                ∧ active_of (user_id message) (predictions (committed w'))
                  = [p]
                ∧ length (predictions (committed w'))
                  = S (length (predictions (committed w)))
      else predictions (committed w') = predictions (committed w).
Proof.
  intros Hs w' Hack. subst w'. rewrite callback_committed.
  destruct (callback_acked_returned _ _ _ Hack) as (w' & Hrun).
  rewrite Hrun. simpl.
  apply process_cycle_event_returned in Hrun
    as (message & w1 & w2 & -> & Hup & Hgen & ->).
  exists message. split; [done|]. simpl.
  pose proof (wp_run _ _ _ _ (update_analytics_frame message w)) as Hfr.
  rewrite Hup in Hfr. simpl in Hfr. destruct Hfr as (Hc1 & Hp1 & _).
  pose proof (wp_run _ _ _ _
                (generate_prediction_returned (user_id message) w1
                   (eq_sym Hc1))) as Hg.
  rewrite Hgen in Hg. simpl in Hg. destruct Hg as [Ha Hg].
  rewrite Ha. rewrite Hc1, Hp1, Hs in Hg. rewrite Hc1.
  destruct (decide (2 ≤ _)); [|done].
  destruct Hg as (p & -> & Hu & Hact). exists p.
  split_and!.
  - by rewrite last_snoc.
  - unfold active_of. rewrite filter_app.
    fold (active_of (user_id message)
            (deactivate (user_id message) <$> predictions (committed w))).
    rewrite deactivate_own, filter_cons, filter_nil.
    by rewrite decide_True.
  - rewrite length_app, length_fmap. simpl. lia.
Qed.

Lemma second_cycle_gives_the_first_prediction :
  ∃ message,
    cycle_event 7 11 (Date.ymd 2024 1 31) = Some message
    ∧ if decide (2 ≤ PredictionEngine.count
                       (analytics (committed after_second_cycle))
                       (user_id message))
      then ∃ p, last (predictions (committed after_second_cycle)) = Some p
                ∧ active_of (user_id message)
                    (predictions (committed after_second_cycle)) = [p]
                ∧ length (predictions (committed after_second_cycle))
                  = S (length (predictions (committed after_first_cycle)))
      else predictions (committed after_second_cycle)
           = predictions (committed after_first_cycle).
Proof.
  apply (acked_delivery_predicts_from_two_rows 2
           (cycle_event 7 11 (Date.ymd 2024 1 31)) after_first_cycle).
  - vm_compute. reflexivity.
  - vm_compute. reflexivity.
Defined.
End consumer_predictions.

Section cycle_routes_more.
Import CycleTracking CycleTracking.MessageQueue CycleTracking.Routes.

Lemma next_id_fresh (ids : list Z) : next_id ids ∉ ids.
Proof.
  assert (∀ i, i ∈ ids → i ≤ foldr Z.max 0 ids) as Hmax.
  { induction ids as [|j ids IH]; intros i Hi; [by apply elem_of_nil in Hi|].
    apply elem_of_cons in Hi as [->|Hi]; simpl; [lia|].
    specialize (IH i Hi). lia. }
  intros Hin. apply Hmax in Hin. unfold next_id in Hin. lia.
Qed.

Lemma publish_event_frame cycle (w : World) :
  wp (publish_event cycle)
     (λ _ w', committed w' = committed w ∧ session w' = session w
              ∧ commits w' = commits w ∧ db_faults w' = db_faults w)
     (λ _ _, False) w.
Proof.
  unfold publish_event, get_publisher.
  repeat (first [wp_step | apply wp_any; intros]; try done).
Qed.



Lemma get_cycle_reads (user cycle_id : Z) (w : World) :
  db_faults w = [] →
  get_cycle user cycle_id w
  = (match list_find (λ c, Cycle.id c = cycle_id ∧ Cycle.user_id c = user)
                     (cycles (session w)) with
     | Some (_, cycle) => Returned (CyclePayload (to_dict (session w) cycle), 200)
     | None => Returned (ErrorPayload "Cycle not found", 404)
     end, w).
Proof.
  intros Hf. unfold get_cycle, try_except, query, db_call, mbind, M_bind,
    bind, gets. rewrite Hf. simpl.
  by destruct (list_find _ _) as [[i c]|].
Qed.

(** X9: a cycle just created is read back by its owner, as the create
    answered it, and is not found by any other user. *)
Theorem created_cycle_is_read_back_by_its_owner
    user other data (w w' : World) c :
  session w = committed w →
  create_cycle user data w = (Returned (CyclePayload c, 201), w') →
  db_faults w' = [] →
  (get_cycle user (Cycle.id (Cycle.row c)) w').1
  = Returned (CyclePayload c, 200)
  ∧ (other ≠ user →
     (get_cycle other (Cycle.id (Cycle.row c)) w').1
     = Returned (ErrorPayload "Cycle not found", 404)).
Proof.
  intros Hs Hrun Hf.
  assert (wp (create_cycle user data)
            (λ x w', ∀ c, x = (CyclePayload c, 201) →
               ∃ cycle, cycles (session w') = cycles (session w) ++ [cycle]
                        ∧ Cycle.id cycle = next_id (Cycle.id <$> cycles (session w))
                        ∧ Cycle.user_id cycle = user
                        ∧ c = to_dict (session w') cycle)
            (λ _ _, True) w) as H.
  { unfold create_cycle, failed.
    wp_step.
    destruct (j_start_date data) as [|start|] eqn:Hstart,
             (j_end_date data) as [|e|] eqn:Hend;
      cbn [fromisoformat]; cbv beta iota.
    all: repeat first
      [ eapply wp_mono;
          [apply publish_event_frame|intros [] ? (Hc & Hse & Hcs & H0)|done]
      | wp_step ]; try done.
    all: intros c0 [= <-]; eexists; simpl in *; rewrite ?Hse; simpl;
      split_and!; done. }
  unfold wp in H. rewrite Hrun in H.
  destruct (H c eq_refl) as (cycle & Hrows & Hid & Hu & ->).
  rewrite !get_cycle_reads by done. simpl.
  pose proof (next_id_fresh (Cycle.id <$> cycles (session w))) as Hfresh.
  rewrite Hrows. split.
  - assert (list_find (λ c, Cycle.id c = Cycle.id cycle
                            ∧ Cycle.user_id c = user)
              (cycles (session w) ++ [cycle])
            = Some (length (cycles (session w)), cycle)) as ->; [|done].
    apply list_find_Some. split; [|split].
    + by rewrite lookup_app_r, Nat.sub_diag.
    + done.
    + intros j y Hj Hlt. rewrite lookup_app_l in Hj by done.
      intros [Hy _]. apply Hfresh. rewrite <-Hid, <-Hy.
      apply list_elem_of_fmap_2. by eapply list_elem_of_lookup_2.
  - intros Hne.
    assert (list_find (λ c, Cycle.id c = Cycle.id cycle
                            ∧ Cycle.user_id c = other)
              (cycles (session w) ++ [cycle]) = None) as ->; [|done].
    apply list_find_None, Forall_app. split.
    + apply Forall_forall. intros y Hy [Hid' _]. apply Hfresh.
      rewrite <-Hid, <-Hid'. by apply list_elem_of_fmap_2.
    + repeat constructor. intros [_ Hu']. congruence.
Qed.

Lemma created_cycle_is_read_back :
  let data := mkCycleJson (Iso (Date.ymd 2024 1 1)) Missing in
  let c := Cycle.mkDict (Cycle.mk 1 7 (Date.ymd 2024 1 1) None None None) [] in
  let w' := (create_cycle 7 data broker_up).2 in
  (get_cycle 7 1 w').1 = Returned (CyclePayload c, 200)
  ∧ (get_cycle 8 1 w').1 = Returned (ErrorPayload "Cycle not found", 404).
Proof.
  destruct (created_cycle_is_read_back_by_its_owner 7 8
              (mkCycleJson (Iso (Date.ymd 2024 1 1)) Missing) broker_up
              (create_cycle 7 (mkCycleJson (Iso (Date.ymd 2024 1 1)) Missing)
                 broker_up).2
              (Cycle.mkDict
                 (Cycle.mk 1 7 (Date.ymd 2024 1 1) None None None) []))
    as [Hown Hother].
  - reflexivity.
  - vm_compute. reflexivity.
  - vm_compute. reflexivity.
  - split; [exact Hown|]. apply Hother. lia.
Defined.

(** X10: a write aimed at a cycle that is not the user's own (another
    user's, or none at all) is answered with an error, never with a
    success, and leaves the database and the broker alone. *)
Theorem foreign_cycle_is_not_written user cycle_id (w : World) :
  (∀ c, c ∈ cycles (session w) → Cycle.id c = cycle_id →
        Cycle.user_id c ≠ user) →
  (∀ data,
     let r := update_cycle user cycle_id data w in
     (r.1 = Returned (ErrorPayload "Cycle not found", 404)
      ∨ r.1 = Returned (ErrorPayload "Failed to update cycle", 500))
     ∧ committed r.2 = committed w ∧ commits r.2 = commits w
     ∧ net r.2 = net w ∧ globals r.2 = globals w)
  ∧ (∀ data,
       j_cycle_id data = Some cycle_id →
       let r := create_symptom user data w in
       (∃ error status, r.1 = Returned (ErrorPayload error, status)
                        ∧ 400 ≤ status)
       ∧ committed r.2 = committed w ∧ commits r.2 = commits w
       ∧ net r.2 = net w ∧ globals r.2 = globals w).
Proof.
  intros Hforeign.
  assert (list_find (λ c, Cycle.id c = cycle_id ∧ Cycle.user_id c = user)
                    (cycles (session w)) = None) as Hnone.
  { apply list_find_None, Forall_forall. intros c Hc [Hid Hu].
    by eapply Hforeign. }
  split.
  - intros data.
    assert (wp (update_cycle user cycle_id data)
              (λ x w', (x = (ErrorPayload "Cycle not found", 404)
                        ∨ x = (ErrorPayload "Failed to update cycle", 500))
                       ∧ committed w' = committed w ∧ commits w' = commits w
                       ∧ net w' = net w ∧ globals w' = globals w)
              (λ _ _, False) w) as H.
    { unfold update_cycle, failed. wp_step. wp_step. wp_step.
      - subst x. rewrite Hnone. wp_step. auto.
      - do 3 wp_step. auto. }
    unfold wp in H. cbv zeta.
    destruct (update_cycle user cycle_id data w) as [[x|e] w']; [|done].
    simpl. destruct H as [[->| ->] H]; auto.
  - intros data Hcid.
    assert (wp (create_symptom user data)
              (λ x w', (∃ error status, x = (ErrorPayload error, status)
                                        ∧ 400 ≤ status)
                       ∧ committed w' = committed w ∧ commits w' = commits w
                       ∧ net w' = net w ∧ globals w' = globals w)
              (λ _ _, False) w) as H.
    { unfold create_symptom, failed. wp_step. rewrite Hcid.
      destruct (j_date data), (j_symptom_type data), (j_value data);
        try (wp_step; split; [by eexists _, _|done]).
      all: wp_step; wp_step;
        [subst x; rewrite Hnone; wp_step; split; [by eexists _, _|done]
        |do 3 wp_step; split; [by eexists _, _|done]]. }
    unfold wp in H. cbv zeta.
    destruct (create_symptom user data w) as [[x|e] w']; [|done].
    simpl. destruct H as [(error & status & -> & Hst) H]. split; [|done].
    by exists error, status.
Qed.

Lemma foreign_cycle_is_not_updated :
  let w := (create_cycle 7 (mkCycleJson (Iso (Date.ymd 2024 1 1)) Missing)
              broker_up).2 in
  let r := update_cycle 8 1 (mkCycleJson Missing (Iso (Date.ymd 2024 1 5))) w in
  let r' := create_symptom 8
              (mkSymptomJson (Some 1) (Iso (Date.ymd 2024 1 2))
                 (Some "mood") (Some "low") None None) w in
  ((r.1 = Returned (ErrorPayload "Cycle not found", 404)
    ∨ r.1 = Returned (ErrorPayload "Failed to update cycle", 500))
   ∧ committed r.2 = committed w ∧ commits r.2 = commits w
   ∧ net r.2 = net w ∧ globals r.2 = globals w)
  ∧ ((∃ error status, r'.1 = Returned (ErrorPayload error, status)
                      ∧ 400 ≤ status)
     ∧ committed r'.2 = committed w ∧ commits r'.2 = commits w
     ∧ net r'.2 = net w ∧ globals r'.2 = globals w).
Proof.
  destruct (foreign_cycle_is_not_written 8 1
              (create_cycle 7 (mkCycleJson (Iso (Date.ymd 2024 1 1)) Missing)
                 broker_up).2) as [Hupdate Hsymptom].
  - intros c Hc _. vm_compute in Hc.
    apply list_elem_of_singleton in Hc as ->. vm_compute. intros [=].
  - split; [apply Hupdate|apply Hsymptom; reflexivity].
Defined.
End cycle_routes_more.

Section cycle_publisher.
Import CycleTracking CycleTracking.MessageQueue CycleTracking.Routes.

(** The events a trace puts on the broker: exchange, routing key,
    body. *)
Definition published {P} (t : list (Pika.io_event P))
  : list (string * string * P) :=
  omap (λ e, match e with
             | Pika.Published x k b => Some (x, k, b)
             | _ => None
             end) t.

(** X11: the publish step of a route, when no publisher exists yet and
    the broker refuses five connections in a row: five attempts, four
    sleeps of five seconds, nothing published, and still no publisher
    afterwards, so that the next request pays the same again. *)
Theorem publish_event_sleeps_when_broker_is_down cycle (w : World) :
  globals w = None →
  take 5 (Pika.link (net w)) = replicate 5 true →
  let w' := (publish_event cycle w).2 in
  globals w' = None
  ∧ Pika.io (net w') = Pika.io (net w) ++ retry_trace 5 5 None
  ∧ Pika.sleeps (retry_trace (P:=CycleEvent) 5 5 None) = [5; 5; 5; 5]
  ∧ published (retry_trace (P:=CycleEvent) 5 5 None) = []
  ∧ Pika.link (net w') = drop 5 (Pika.link (net w)).
Proof.
  destruct w as [c s cs f [l io] ch g]. simpl. intros -> Hl.
  destruct l as [|b1 [|b2 [|b3 [|b4 [|b5 l]]]]]; try done.
  injection Hl as -> -> -> -> ->.
  unfold publish_event, get_publisher, try_except, on_net, zoom, gets,
    modify, mbind, M_bind, bind, mret, M_ret, ret. simpl.
  rewrite <-!app_assoc. done.
Qed.

Lemma cycle_published_with_broker_down :
  let cycle := Cycle.mk 1 7 (Date.ymd 2024 1 1) None None None in
  let w' := (publish_event cycle broker_down).2 in
  globals w' = None
  ∧ Pika.io (net w') = Pika.io (net broker_down) ++ retry_trace 5 5 None
  ∧ Pika.sleeps (retry_trace (P:=CycleEvent) 5 5 None) = [5; 5; 5; 5]
  ∧ published (retry_trace (P:=CycleEvent) 5 5 None) = []
  ∧ Pika.link (net w') = drop 5 (Pika.link (net broker_down)).
Proof.
  apply (publish_event_sleeps_when_broker_is_down
           (Cycle.mk 1 7 (Date.ymd 2024 1 1) None None None) broker_down).
  - reflexivity.
  - reflexivity.
Defined.

End cycle_publisher.

Section prediction_publisher.
Import Analytics Analytics.MessageQueue.

(** The event [publish_prediction] builds for a prediction. *)
Definition prediction_event (p : Prediction.t) : PredictionEvent :=
  mkPredictionEvent "new_prediction" (Prediction.id p) (Prediction.user_id p)
    (Prediction.predicted_start_date p) (Prediction.confidence_score p) p.

(** What a publisher may leave on the trace for one prediction: at most
    two connection attempts, no sleep, and at most one event, the
    prediction's, on the prediction exchange. *)
Definition publishes_at_most (p : Prediction.t) (l : list bool)
    (t : list (Pika.io_event PredictionEvent)) : Prop :=
  (Pika.attempts t ≤ 2)%nat
  ∧ Pika.sleeps t = []
  ∧ (published t = []
     ∨ published t = [("prediction_events", "prediction.new",
                       prediction_event p)])
  ∧ (l = [] →
     published t = [("prediction_events", "prediction.new",
                     prediction_event p)]).

(** [publish_prediction_self] is [publish_prediction] with the
    connection it leaves. *)
Lemma publish_prediction_self_agrees connection p n :
  MessagePublisher.publish_prediction connection p n
  = (MessagePublisher.publish_prediction_self connection p ;; mret tt) n.
Proof.
  destruct n as [l io].
  destruct connection, l as [|[] [|[] l]]; reflexivity.
Qed.

(** The publish step of the consumer. *)
Lemma consumer_publish_step p (w : World) :
  ∃ n t,
    (publisher ← on_net MessagePublisher.__init__;
     on_net (MessagePublisher.publish_prediction publisher p)) w
    = (Returned tt, set_net n w)
    ∧ Pika.io n = Pika.io (net w) ++ t
    ∧ publishes_at_most p (Pika.link (net w)) t.
Proof.
  destruct w as [c s cs f [l io] ch g].
  unfold publishes_at_most, prediction_event.
  destruct l as [|[] [|[] [|[] l]]];
    unfold on_net, zoom, mbind, M_bind, bind; simpl;
    unfold set_net; simpl;
    eexists _, _; (split; [reflexivity|]); simpl; rewrite <-?app_assoc; simpl;
    (split; [reflexivity|]); unfold Pika.attempts; simpl;
    split_and!; first [lia|done|by left|by right].
Qed.

Lemma wp_consumer_publish p (Q : unit → World → Prop) E (w : World) :
  (∀ n t, Pika.io n = Pika.io (net w) ++ t →
          publishes_at_most p (Pika.link (net w)) t →
          Q tt (set_net n w)) →
  wp (publisher ← on_net MessagePublisher.__init__;
      on_net (MessagePublisher.publish_prediction publisher p)) Q E w.
Proof.
  intros HQ. destruct (consumer_publish_step p w) as (n & t & Hrun & Hio & Hp).
  unfold wp. rewrite Hrun. by eapply HQ.
Qed.

(** The publish step of the route: what the consumer's does, then the
    close; whatever is raised stays inside. *)
Lemma route_publish_step p (w : World) :
  ∃ n,
    try_except
      (publisher ← on_net MessagePublisher.__init__;
       connection ← on_net (MessagePublisher.publish_prediction_self
                              publisher p);
       on_net (MessagePublisher.close connection))
      (λ e, mret tt) w
    = (Returned tt, set_net n w)
    ∧ Pika.io n
      = Pika.io (net ((publisher ← on_net MessagePublisher.__init__;
                       on_net (MessagePublisher.publish_prediction
                                 publisher p)) w).2).
Proof.
  destruct w as [c s cs f [l io] ch g].
  destruct l as [|[] [|[] [|[] [|[] l]]]];
    unfold try_except, on_net, zoom, mbind, M_bind, bind; simpl;
    unfold set_net; simpl;
    eexists; (split; [reflexivity|]); reflexivity.
Qed.
End prediction_publisher.

Section prediction_route.
Import Analytics Analytics.MessageQueue.
Import (notations) Analytics.MessageQueue.

(** X13: the consumer's prediction step publishes at most one event,
    after at most two connection attempts and without sleeping, and
    only for a prediction that is in the database by then: the event
    carries the row the commit wrote last, with its id, for the
    user of the step, active. *)
Theorem prediction_event_only_for_committed_row user (w : World) :
  let w' := (MessageConsumer.generate_prediction user w).2 in
  ∃ t, Pika.io (net w') = Pika.io (net w) ++ t
       ∧ (Pika.attempts t ≤ 2)%nat
       ∧ Pika.sleeps t = []
       ∧ (published t = []
          ∨ ∃ p, published t = [("prediction_events", "prediction.new",
                                 prediction_event p)]
                 ∧ last (predictions (committed w')) = Some p
                 ∧ Prediction.user_id p = user
                 ∧ Prediction.is_active p = Some true
                 ∧ is_Some (Prediction.id p)
                 ∧ commits w' = commits w ++ [committed w']).
Proof.
  set (Post := λ w' : World,
    ∃ t, Pika.io (net w') = Pika.io (net w) ++ t
         ∧ (Pika.attempts t ≤ 2)%nat
         ∧ Pika.sleeps t = []
         ∧ (published t = []
            ∨ ∃ p, published t = [("prediction_events", "prediction.new",
                                   prediction_event p)]
                   ∧ last (predictions (committed w')) = Some p
                   ∧ Prediction.user_id p = user
                   ∧ Prediction.is_active p = Some true
                   ∧ is_Some (Prediction.id p)
                   ∧ commits w' = commits w ++ [committed w'])).
  assert (∀ w' : World, net w' = net w → Post w') as Hquiet.
  { intros w' Hn. exists []. rewrite Hn, app_nil_r.
    split_and!; [done|unfold Pika.attempts; simpl; lia|done|by left]. }
  assert (wp (MessageConsumer.generate_prediction user)
            (λ _, Post) (λ _, Post) w) as H.
  { unfold MessageConsumer.generate_prediction, deactivate_active,
      add_prediction.
    repeat (cbv beta;
            lazymatch goal with
            | |- wp (mbind _ (on_net _)) _ _ _ => fail
            | _ => wp_step
            end; try (by apply Hquiet)).
    match goal with H : Some _ = _ |- _ =>
      symmetry in H; apply predict_next_period_fresh in H as [Hu Ha] end.
    apply wp_consumer_publish.
    intros n' tr Hio (Hat & Hsl & Hpub & _). simpl in Hio |- *.
    exists tr. split_and!; [done..|].
    destruct Hpub as [Hpub|Hpub]; [by left|right].
    eexists. split; [exact Hpub|]. simpl.
    rewrite last_snoc. simpl. rewrite Ha. split_and!; by eauto. }
  unfold wp in H. cbv zeta.
  by destruct (MessageConsumer.generate_prediction user w) as [[[]|e] w'].
Qed.

Lemma query_returned {S P G A} (f : S → A) (w w' : Db.World S P G) a :
  query f w = (Returned a, w') →
  a = f (session w) ∧ ∃ l, w' = set_db_faults l w.
Proof.
  destruct w as [c s cs fl n ch g].
  unfold query, db_call, mbind, M_bind, bind, gets. simpl.
  destruct fl as [|[] l]; intros [= <- <-]; (split; [done|]);
    by eexists.
Qed.

Lemma commit_returned {S P G} (w w' : Db.World S P G) :
  commit w = (Returned tt, w') →
  committed w' = session w ∧ session w' = session w.
Proof.
  destruct w as [c s cs fl n ch g].
  unfold commit, db_call, mbind, M_bind, bind, modify. simpl.
  destruct fl as [|[] l]; by intros [= <-].
Qed.

Lemma bind_returned {W A B} (m : M W A) (k : A → M W B) w a w' :
  m w = (Returned a, w') → (m ≫= k) w = k a w'.
Proof. intros H. unfold mbind, M_bind, bind. by rewrite H. Qed.

(** Two computations that start with the same step. *)
Lemma run_bind2 {W A B C} (m : M W A) (k1 : A → M W B) (k2 : A → M W C)
    (R : outcome B * W → outcome C * W → Prop) w :
  (∀ a w', m w = (Returned a, w') → R (k1 a w') (k2 a w')) →
  (∀ e w', m w = (Raised e, w') → R (Raised e, w') (Raised e, w')) →
  R ((m ≫= k1) w) ((m ≫= k2) w).
Proof.
  intros Hret Hraise. unfold mbind, M_bind, bind.
  destruct (m w) as [[a|e] w']; auto.
Qed.

(** X14: the manual trigger [POST /predictions/generate] does to the
    database and puts on the broker exactly what the consumer's
    prediction step does from the same state.  It answers 500 where
    that step raises, 400 where the user has fewer than two rows, and
    201 with the prediction just committed otherwise. *)
Theorem manual_trigger_matches_consumer user (w : World) :
  let r := Routes.generate_prediction user w in
  let c := MessageConsumer.generate_prediction user w in
  committed r.2 = committed c.2
  ∧ commits r.2 = commits c.2
  ∧ Pika.io (net r.2) = Pika.io (net c.2)
  ∧ match c.1 with
    | Raised _ =>
        r.1 = Returned (Routes.ErrorPayload "Failed to generate prediction"
                          None, 500)
        ∧ session r.2 = committed r.2
    | Returned _ =>
        if decide (2 ≤ PredictionEngine.count (analytics (session w)) user)
        then ∃ p, r.1 = Returned (Routes.PredictionPayload
                                    "Prediction generated successfully" p,
                                  201)
                  ∧ last (predictions (committed r.2)) = Some p
        else r.1 = Returned (Routes.ErrorPayload
                               "Insufficient data for prediction"
                               (Some "At least 2 cycles required for predictions"),
                             400)
             ∧ committed r.2 = committed w
             ∧ net r.2 = net w
    end.
Proof.
  cbv zeta.
  set (R := λ (x : outcome Routes.response * World)
              (y : outcome unit * World),
    committed x.2 = committed y.2
    ∧ commits x.2 = commits y.2
    ∧ Pika.io (net x.2) = Pika.io (net y.2)
    ∧ match y.1 with
      | Raised e => x.1 = Raised e
      | Returned _ =>
          if decide (2 ≤ PredictionEngine.count (analytics (session w)) user)
          then ∃ p, x.1 = Returned (Routes.PredictionPayload
                                      "Prediction generated successfully" p,
                                    201)
                    ∧ last (predictions (committed x.2)) = Some p
          else x.1 = Returned (Routes.ErrorPayload
                                 "Insufficient data for prediction"
                                 (Some "At least 2 cycles required for predictions"),
                               400)
               ∧ committed x.2 = committed w
               ∧ net x.2 = net w
      end).
  unfold Routes.generate_prediction.
  match goal with |- context [try_except ?b ?h w] =>
    assert (R (b w) (MessageConsumer.generate_prediction user w)) as HR;
      [|change (try_except b h w)
          with (match b w with
                | (Returned a, w') => (Returned a, w')
                | (Raised e, w') => h e w'
                end);
        revert HR; destruct (b w) as [[x|e] wr]; intros HR]
  end.
  { unfold MessageConsumer.generate_prediction.
    apply (run_bind2 _ _ _ R); [|by intros e w1 _].
    intros n w1 (-> & l1 & ->)%query_returned.
    destruct (decide (_ < 2)) as [Hlt|Hge], (decide (2 ≤ _)) as [Hge'|Hlt'];
      try lia.
    { unfold R. simpl. done. }
    apply (run_bind2 _ _ _ R); [|by intros e w2 _].
    intros prediction w2 (-> & l2 & ->)%query_returned. simpl.
    destruct (predict_next_period_is_Some (analytics (session w)) user)
      as [p ->]; [lia|].
    apply (run_bind2 _ _ _ R); [|by intros e w3 _].
    intros [] w3 _.
    apply (run_bind2 _ _ _ R); [|by intros e w4 _].
    intros p' w4 Hadd.
    assert (predictions (session w4) = predictions (session w3) ++ [p'])
      as Hrows.
    { unfold add_prediction, mbind, M_bind, bind, gets, modify in Hadd.
      by injection Hadd as <- <-. }
    apply (run_bind2 _ _ _ R); [|by intros e w5 _].
    intros [] w5 [Hc5 Hs5]%commit_returned.
    destruct (route_publish_step p' w5) as (nR & HrunR & HioR).
    destruct (consumer_publish_step p' w5) as (nC & t & HrunC & _).
    rewrite HrunC in HioR |- *.
    rewrite (bind_returned _ _ _ _ _ HrunR).
    unfold R. simpl. split_and!; [done..|].
    exists p'. split; [done|]. by rewrite Hc5, Hrows, last_snoc. }
  - destruct HR as (Hc & Hcs & Hio & Hout). simpl in *.
    split_and!; [done..|].
    destruct (MessageConsumer.generate_prediction user w) as [[[]|e] wc];
      simpl in *; [|done].
    destruct (decide (2 ≤ _)).
    + destruct Hout as (p & [= ->] & Hlast). by exists p.
    + by destruct Hout as ([= ->] & Hcw & Hn).
  - destruct HR as (Hc & Hcs & Hio & Hout). simpl in *.
    split_and!; [done..|].
    destruct (MessageConsumer.generate_prediction user w) as [[[]|e'] wc];
      simpl in *; [|done].
    destruct (decide (2 ≤ _)); [by destruct Hout as (p & [=] & _)|].
    by destruct Hout as ([=] & _).
Qed.
End prediction_route.

Section preferences.
Import Notification Notification.MessageQueue
  Notification.MessageQueue.MessageConsumer Notification.NotificationManager.

(** What the service keeps true of its preferences table: one row per
    user at most, and a reminder lead of one to seven days. *)
Definition valid_preferences (rows : list NotificationPreference.t) : Prop :=
  NoDup (NotificationPreference.user_id <$> rows)
  ∧ Forall (λ p, 1 ≤ NotificationPreference.reminder_days_before p ≤ 7) rows.

Lemma valid_preferences_add user i rows :
  valid_preferences rows →
  list_find (λ p, NotificationPreference.user_id p = user) rows = None →
  valid_preferences (rows ++ [NotificationPreference.new i user]).
Proof.
  intros [Hnd Hall] Hnone. split.
  - rewrite fmap_app. apply NoDup_app. split_and!; [done| |].
    + intros u (p & -> & Hp)%list_elem_of_fmap Hin.
      apply list_elem_of_singleton in Hin.
      apply list_find_None in Hnone.
      by eapply Forall_forall in Hnone.
    + simpl. apply NoDup_singleton.
  - apply Forall_app. split; [done|]. repeat constructor; simpl; lia.
Qed.

Lemma valid_preferences_insert i p p' rows :
  valid_preferences rows →
  rows !! i = Some p →
  NotificationPreference.user_id p' = NotificationPreference.user_id p →
  1 ≤ NotificationPreference.reminder_days_before p' ≤ 7 →
  valid_preferences (<[i := p']> rows).
Proof.
  intros [Hnd Hall] Hi Hu Hd. split.
  - rewrite list_fmap_insert, Hu, list_insert_id; [done|].
    by rewrite list_lookup_fmap, Hi.
  - by apply Forall_insert.
Qed.

Lemma process_prediction_event_valid body (w : World) :
  session w = committed w →
  valid_preferences (preferences (committed w)) →
  wp (process_prediction_event body)
     (λ _ w', valid_preferences (preferences (committed w')))
     (λ _ w', valid_preferences (preferences (committed w'))) w.
Proof.
  intros Hs Hv.
  unfold process_prediction_event, json_loads, create_period_reminder,
    NotificationManager.fromisoformat.
  repeat (wp_step;
          try (simpl in *; rewrite ?Hs in *;
               first [done|apply valid_preferences_add; [done|by symmetry]])).
Qed.

Lemma get_preferences_valid user (w : World) :
  session w = committed w →
  valid_preferences (preferences (committed w)) →
  wp (Routes.get_preferences user)
     (λ _ w', valid_preferences (preferences (committed w')))
     (λ _ _, False) w.
Proof.
  intros Hs Hv. unfold Routes.get_preferences, Routes.add_preferences.
  repeat (wp_step;
          try (simpl in *; rewrite ?Hs in *;
               first [done|apply valid_preferences_add; [done|by symmetry]])).
Qed.

(** The object [o] is a row of the session's view, and both views of
    the table are valid. *)
Definition holds (w0 : World) (o : Routes.object) (w : World) : Prop :=
  valid_preferences (preferences (session w))
  ∧ preferences (session w) !! o.1 = Some o.2
  ∧ committed w = committed w0.

Lemma setattr_holds w0 f (o : Routes.object) (w : World) :
  holds w0 o w →
  NotificationPreference.user_id (f o.2) = NotificationPreference.user_id o.2 →
  (1 ≤ NotificationPreference.reminder_days_before o.2 ≤ 7 →
   1 ≤ NotificationPreference.reminder_days_before (f o.2) ≤ 7) →
  wp (Routes.setattr f o) (λ o', holds w0 o') (λ _ _, False) w.
Proof.
  intros (Hv & Ho & Hc) Hu Hd. unfold Routes.setattr.
  do 3 wp_step. unfold holds. simpl. split_and!; [| |done].
  - eapply valid_preferences_insert; [done..|]. apply Hd.
    destruct Hv as [_ Hall]. eapply Forall_lookup_1 in Hall; [|done]. done.
  - apply list_lookup_insert_eq. by eapply lookup_lt_Some.
Qed.

Lemma update_preferences_valid user data (w : World) :
  session w = committed w →
  valid_preferences (preferences (committed w)) →
  wp (Routes.update_preferences user data)
     (λ _ w', valid_preferences (preferences (committed w')))
     (λ _ _, False) w.
Proof.
  intros Hs Hv. unfold Routes.update_preferences. cbv zeta.
  set (Q := λ (_ : Routes.response) (w' : World),
              valid_preferences (preferences (committed w'))).
  assert (∀ w' : World, committed w' = committed w →
            ∀ e : exn, wp (rollback ;;
                     mret (Routes.ErrorPayload "Failed to update preferences",
                           500)) Q (λ _ _, False) w') as Hfail.
  { intros w' Hc e. do 3 wp_step. unfold Q. simpl. by rewrite Hc. }
  apply wp_try_except.
  assert (∀ k : Routes.object → M World Routes.response,
            (∀ o w', holds w o w' →
               wp (k o) Q (λ (e : exn) w', committed w' = committed w) w') →
            ∀ (w' : World) (m : M World Routes.object),
              wp m (λ o', holds w o') (λ _ _, False) w' →
              wp (m ≫= k) Q (λ (e : exn) w', committed w' = committed w) w')
    as Hbind.
  { intros k Hk w' m Hm. apply wp_bind.
    eapply wp_mono; [exact Hm| |done]. intros o' w'' Ho. by apply Hk. }
  eapply wp_mono with (E := λ e w', committed w' = committed w);
    [|done|intros e w' Hc; by apply Hfail].
  wp_step. wp_step; [|done]. apply wp_bind.
  eapply wp_mono with (Q := λ o w', holds w o w') (E := λ _ _, False);
    [|intros o w' Ho|done].
  { (* the object the route works on *)
    symmetry in H. destruct x as [[i p]|].
    - wp_step. apply list_find_Some in H as (Hi & _). unfold holds. simpl.
      rewrite Hs. split_and!; [done| |done]. by rewrite <-Hs.
    - unfold Routes.add_preferences. do 5 wp_step. unfold holds. simpl.
      split_and!; [|by rewrite lookup_app_r, Nat.sub_diag|done].
      rewrite Hs in H |- *. by apply valid_preferences_add. }
  (* what follows the first assignment *)
  assert (∀ o (w' : World), holds w o w' →
    wp (preferences ←
          match Routes.j_email_enabled data with
          | Some v =>
              Routes.setattr
                (NotificationPreference.set_email_enabled (Some v)) o
          | None => mret o
          end;
        preferences ←
          match Routes.j_push_enabled data with
          | Some v =>
              Routes.setattr
                (NotificationPreference.set_push_enabled (Some v))
                preferences
          | None => mret preferences
          end;
        commit ;;
        mret (Routes.PreferencesPayload
                (Some "Preferences updated successfully") preferences.2, 200))
      Q (λ (e : exn) w', committed w' = committed w) w') as Hrest.
  { intros o1 w1 Ho1.
    eapply Hbind; [|
      destruct (Routes.j_email_enabled data);
        [by apply setattr_holds|by wp_step]].
    intros o2 w2 Ho2.
    eapply Hbind; [|
      destruct (Routes.j_push_enabled data);
        [by apply setattr_holds|by wp_step]].
    intros o3 w3 (Hv3 & _ & Hc3).
    do 2 wp_step; [|done]. wp_step. unfold Q. simpl. done. }
  eapply Hbind; [|
    destruct (Routes.j_period_reminder_enabled data);
      [by apply setattr_holds|by wp_step]].
  intros o1 w1 Ho1.
  destruct (Routes.j_reminder_days_before data) as [days|];
    [|by apply Hrest].
  destruct (decide (1 ≤ days ≤ 7)).
  - eapply Hbind; [|by apply setattr_holds].
    intros o2 w2 Ho2. by apply Hrest.
  - wp_step. unfold Q. destruct Ho1 as (_ & _ & ->). done.
Qed.

(** X15: every writer of the preferences table (the two preference
    routes and the consumer of prediction events) keeps the table
    valid, whatever the request and whatever fails: no user gets a
    second row, and no reminder lead leaves the range 1..7. *)
Theorem preferences_stay_valid (w : World) :
  session w = committed w →
  valid_preferences (preferences (committed w)) →
  (∀ user,
     valid_preferences
       (preferences (committed (Routes.get_preferences user w).2)))
  ∧ (∀ user data,
       valid_preferences
         (preferences (committed (Routes.update_preferences user data w).2)))
  ∧ (∀ delivery_tag body,
       valid_preferences
         (preferences (committed (callback delivery_tag body w).2))).
Proof.
  intros Hs Hv. split_and!.
  - intros user.
    pose proof (wp_run _ _ _ _ (get_preferences_valid user w Hs Hv)) as H.
    by destruct (Routes.get_preferences user w).1.
  - intros user data.
    pose proof (wp_run _ _ _ _ (update_preferences_valid user data w Hs Hv))
      as H.
    by destruct (Routes.update_preferences user data w).1.
  - intros delivery_tag body.
    pose proof (wp_run _ _ _ _ (process_prediction_event_valid body w Hs Hv))
      as H.
    unfold callback, try_except, mbind, M_bind, bind, basic_ack, basic_nack,
      modify.
    by destruct (process_prediction_event body w) as [[[]|e] w1].
Qed.

Lemma preferences_valid_after_first_requests :
  valid_preferences
    (preferences (committed (Routes.get_preferences 7 no_preferences).2))
  ∧ valid_preferences
      (preferences
         (committed
            (Routes.update_preferences 7
               (Routes.mkPreferencesJson (Some false) (Some 9) None None)
               no_preferences).2))
  ∧ valid_preferences
      (preferences
         (committed (callback 1 (Some prediction_for_march_first)
                       no_preferences).2)).
Proof.
  destruct (preferences_stay_valid no_preferences) as (Hget & Hput & Hcb).
  - reflexivity.
  - split; [apply NoDup_nil_2|apply Forall_nil_2].
  - split_and!; [apply Hget|apply Hput|apply Hcb].
Defined.

(** X16: with a valid preferences table, a reminder the scheduler
    creates is due one to seven days before the predicted start; it is
    the row the commit wrote last, pending, and the user's. *)
Theorem reminder_lead_is_one_to_seven_days
    user prediction y m d (w w' : World) n :
  session w = committed w →
  valid_preferences (preferences (committed w)) →
  create_period_reminder user prediction (IsoDate y m d) w
  = (Returned (Some n), w') →
  Date.ymd y m d - 7 ≤ Notification.scheduled_for n ≤ Date.ymd y m d - 1
  ∧ last (notifications (committed w')) = Some n
  ∧ Notification.status n = "pending"
  ∧ Notification.user_id n = user.
Proof.
  intros Hs [_ Hv] Hrun.
  assert (wp (create_period_reminder user prediction (IsoDate y m d))
            (λ r w', ∀ n, r = Some n →
               Date.ymd y m d - 7 ≤ Notification.scheduled_for n
                                  ≤ Date.ymd y m d - 1
               ∧ last (notifications (committed w')) = Some n
               ∧ Notification.status n = "pending"
               ∧ Notification.user_id n = user)
            (λ _ _, True) w) as H.
  { unfold create_period_reminder, NotificationManager.fromisoformat.
    repeat (wp_step; try done).
    all: intros ? [= <-]; simpl; rewrite last_snoc;
      unfold Date.sub_days, ordinal; simpl.
    all: try match goal with
         | H : Some (_, ?p) = list_find _ _ |- _ =>
             symmetry in H; apply list_find_Some in H as (Hi & _);
             simpl in Hi; rewrite Hs in Hi;
             eapply Forall_lookup_1 in Hv; [|exact Hi]
         end.
    all: split_and!; try done; lia. }
  unfold wp in H. rewrite Hrun in H. by apply H.
Qed.

Lemma reminder_for_march_first_is_in_range :
  let n := Notification.mk 1 7 (Some 4) "period_reminder" "Period Reminder"
             "Your period is predicted to start in 3 days (around March 01). Make sure you are prepared!"
             (Date.ymd 2024 2 27) "pending" None None in
  Date.ymd 2024 3 1 - 7 ≤ Notification.scheduled_for n ≤ Date.ymd 2024 3 1 - 1
  ∧ last (notifications
            (committed (create_period_reminder 7 (Some 4) (IsoDate 2024 3 1)
                          no_preferences).2)) = Some n
  ∧ Notification.status n = "pending"
  ∧ Notification.user_id n = 7.
Proof.
  apply (reminder_lead_is_one_to_seven_days 7 (Some 4) 2024 3 1
           no_preferences
           (create_period_reminder 7 (Some 4) (IsoDate 2024 3 1)
              no_preferences).2).
  - reflexivity.
  - split; [apply NoDup_nil_2|apply Forall_nil_2].
  - vm_compute. reflexivity.
Defined.
End preferences.

Section preferences_round_trip.
Import Notification Notification.MessageQueue
  Notification.MessageQueue.MessageConsumer Notification.NotificationManager.

(** X17: preferences that were put are read back.  With the database
    answering and a reminder lead within 1..7 (or none given),
    [PUT /preferences] answers 200 with the user's row, [GET
    /preferences] right after answers the same row, and that row has the
    values of the body where the body gives one and the values it had
    (the defaults, for a new user) where it gives none. *)
Theorem updated_preferences_are_read_back user data (w : World) :
  session w = committed w →
  db_faults w = [] →
  (∀ days, Routes.j_reminder_days_before data = Some days → 1 ≤ days ≤ 7) →
  let old := preference_of user (preferences (committed w)) in
  let r := Routes.update_preferences user data w in
  ∃ p,
    r.1 = Returned (Routes.PreferencesPayload
                      (Some "Preferences updated successfully") p, 200)
    ∧ (Routes.get_preferences user r.2).1
      = Returned (Routes.PreferencesPayload None p, 200)
    ∧ NotificationPreference.id p = NotificationPreference.id old
    ∧ NotificationPreference.user_id p = user
    ∧ NotificationPreference.period_reminder_enabled p
      = match Routes.j_period_reminder_enabled data with
        | Some v => Some v
        | None => NotificationPreference.period_reminder_enabled old
        end
    ∧ NotificationPreference.reminder_days_before p
      = default (NotificationPreference.reminder_days_before old)
                (Routes.j_reminder_days_before data)
    ∧ NotificationPreference.email_enabled p
      = match Routes.j_email_enabled data with
        | Some v => Some v
        | None => NotificationPreference.email_enabled old
        end
    ∧ NotificationPreference.push_enabled p
      = match Routes.j_push_enabled data with
        | Some v => Some v
        | None => NotificationPreference.push_enabled old
        end.
Proof.
  intros Hs Hf Hdays. cbv zeta.
  destruct w as [c s cs f n ch g]. simpl in *. subst s f.
  destruct data as [enabled days email push]. simpl in *.
  unfold preference_of.
  unfold Routes.update_preferences, Routes.get_preferences,
    Routes.add_preferences, Routes.setattr.
  unfold try_except, query, commit, db_call, rollback, modify, gets, mbind,
    mret, M_bind, M_ret, bind, ret. simpl.
  destruct (list_find _ (preferences c)) as [[i q]|] eqn:Hfind; simpl.
  - pose proof Hfind as (_ & Hu & _)%list_find_Some.
    destruct enabled, days as [days|], email, push; simpl.
    all: try (rewrite decide_True by by apply Hdays).
    all: simpl; rewrite ?list_insert_insert_eq.
    all: first [rewrite Hfind
               |erewrite list_find_insert_keep; [|exact Hfind|exact Hu]].
    all: eexists; split_and!; reflexivity || exact Hu.
  - pose proof (list_find_app_new _ _
                  (NotificationPreference.new
                     (next_id (NotificationPreference.id <$> preferences c))
                     user) Hfind eq_refl) as Hnew.
    destruct enabled, days as [days|], email, push; simpl.
    all: try (rewrite decide_True by by apply Hdays).
    all: simpl; rewrite ?list_insert_insert_eq.
    all: first [rewrite Hnew
               |erewrite list_find_insert_keep; [|exact Hnew|reflexivity]].
    all: eexists; split_and!; reflexivity.
Qed.

Lemma preferences_put_and_read_back :
  let data := Routes.mkPreferencesJson (Some false) (Some 5) None None in
  let old := preference_of 7 (preferences (committed no_preferences)) in
  let r := Routes.update_preferences 7 data no_preferences in
  ∃ p,
    r.1 = Returned (Routes.PreferencesPayload
                      (Some "Preferences updated successfully") p, 200)
    ∧ (Routes.get_preferences 7 r.2).1
      = Returned (Routes.PreferencesPayload None p, 200)
    ∧ NotificationPreference.id p = NotificationPreference.id old
    ∧ NotificationPreference.user_id p = 7
    ∧ NotificationPreference.period_reminder_enabled p
      = match Routes.j_period_reminder_enabled data with
        | Some v => Some v
        | None => NotificationPreference.period_reminder_enabled old
        end
    ∧ NotificationPreference.reminder_days_before p
      = default (NotificationPreference.reminder_days_before old)
                (Routes.j_reminder_days_before data)
    ∧ NotificationPreference.email_enabled p
      = match Routes.j_email_enabled data with
        | Some v => Some v
        | None => NotificationPreference.email_enabled old
        end
    ∧ NotificationPreference.push_enabled p
      = match Routes.j_push_enabled data with
        | Some v => Some v
        | None => NotificationPreference.push_enabled old
        end.
Proof.
  apply (updated_preferences_are_read_back 7
           (Routes.mkPreferencesJson (Some false) (Some 5) None None)
           no_preferences).
  - reflexivity.
  - reflexivity.
  - simpl. intros days [= <-]. lia.
Defined.

(** X18: a reminder lead outside 1..7 is refused: the route answers
    400 (500 when the database fails before that), and nothing reaches
    the database, not even the other keys of the same body that were
    assigned before the check. *)
Theorem out_of_range_lead_changes_nothing user data days (w : World) :
  Routes.j_reminder_days_before data = Some days →
  ¬ 1 ≤ days ≤ 7 →
  let r := Routes.update_preferences user data w in
  (r.1 = Returned (Routes.ErrorPayload
                     "reminder_days_before must be between 1 and 7", 400)
   ∨ r.1 = Returned (Routes.ErrorPayload "Failed to update preferences", 500))
  ∧ committed r.2 = committed w
  ∧ commits r.2 = commits w
  ∧ (db_faults w = [] →
     r.1 = Returned (Routes.ErrorPayload
                       "reminder_days_before must be between 1 and 7", 400)).
Proof.
  intros Hd Hout. cbv zeta.
  assert (wp (Routes.update_preferences user data)
            (λ x w',
               (x = (Routes.ErrorPayload
                       "reminder_days_before must be between 1 and 7", 400)
                ∨ x = (Routes.ErrorPayload "Failed to update preferences",
                       500))
               ∧ committed w' = committed w ∧ commits w' = commits w)
            (λ _ _, False) w) as H.
  { unfold Routes.update_preferences, Routes.add_preferences,
      Routes.setattr. cbv zeta. rewrite Hd.
    repeat (wp_step; try done); simpl; auto. }
  assert (db_faults w = [] →
          (Routes.update_preferences user data w).1
          = Returned (Routes.ErrorPayload
                        "reminder_days_before must be between 1 and 7", 400))
    as Hanswer.
  { clear H. intros Hf. destruct w as [c s cs f n ch g]. simpl in Hf. subst f.
    unfold Routes.update_preferences, Routes.add_preferences, Routes.setattr.
    unfold try_except, query, commit, db_call, rollback, modify, gets, mbind,
      mret, M_bind, M_ret, bind, ret. simpl. rewrite Hd.
    destruct (list_find _ (preferences s)) as [[i q]|];
      destruct (Routes.j_period_reminder_enabled data); simpl;
      by rewrite decide_False. }
  unfold wp in H.
  destruct (Routes.update_preferences user data w) as [[x|e] w']; [|done].
  simpl in *. destruct H as ([-> | ->] & ? & ?); auto.
Qed.

Lemma lead_of_nine_days_is_refused :
  let data := Routes.mkPreferencesJson (Some false) (Some 9) None None in
  let r := Routes.update_preferences 7 data no_preferences in
  (r.1 = Returned (Routes.ErrorPayload
                     "reminder_days_before must be between 1 and 7", 400)
   ∨ r.1 = Returned (Routes.ErrorPayload "Failed to update preferences", 500))
  ∧ committed r.2 = committed no_preferences
  ∧ commits r.2 = commits no_preferences
  ∧ (db_faults no_preferences = [] →
     r.1 = Returned (Routes.ErrorPayload
                       "reminder_days_before must be between 1 and 7", 400)).
Proof.
  apply (out_of_range_lead_changes_nothing 7
           (Routes.mkPreferencesJson (Some false) (Some 9) None None) 9
           no_preferences).
  - reflexivity.
  - lia.
Defined.
End preferences_round_trip.

Section notification_delivery.
Import Notification Notification.NotificationManager.
Context (utcnow : date) (str : exn → string).

Local Abbreviation send_notification :=
  (NotificationManager.send_notification utcnow str).
Local Abbreviation send_each := (NotificationManager.send_each utcnow str).
Local Abbreviation process_pending_notifications :=
  (NotificationManager.process_pending_notifications utcnow str).

(** A notification as a successful delivery leaves it. *)
Definition delivered (n : Notification.t) : Notification.t :=
  Notification.set_sent_at (Some utcnow) (Notification.set_status "sent" n).

(** What a run makes of a row when nothing fails. *)
Definition mark_sent (n : Notification.t) : Notification.t :=
  if decide (due utcnow n) then delivered n else n.

Lemma delivered_idemp n : delivered (delivered n) = delivered n.
Proof. done. Qed.

Lemma delivered_not_due today n : ¬ due today (delivered n).
Proof. by intros [[=] _]. Qed.

Lemma elem_of_pending today rows i :
  i ∈ pending today rows ↔ ∃ n, rows !! i = Some n ∧ due today n.
Proof.
  unfold pending. rewrite list_elem_of_fmap. split.
  - intros ([j n] & -> & [Hdue Hin]%list_elem_of_filter).
    apply elem_of_lookup_imap in Hin as (k & y & [= -> ->] & Hk).
    by exists y.
  - intros (n & Hi & Hdue). exists (i, n). split; [done|].
    apply list_elem_of_filter. split; [done|].
    apply elem_of_lookup_imap. by exists i, n.
Qed.

Lemma pending_length today rows :
  length (pending today rows) = length (filter (due today) rows).
Proof.
  unfold pending. rewrite length_fmap.
  assert (∀ f : nat → nat,
            length (filter (λ o : nat * Notification.t, due today o.2)
                      (imap (λ i x, (f i, x)) rows))
            = length (filter (due today) rows)) as H; [|apply (H id)].
  induction rows as [|n rows IH]; intros f; [done|].
  simpl. rewrite !filter_cons. simpl.
  destruct (decide (due today n)); simpl; [f_equal|];
    apply (IH (λ i, f (S i))).
Qed.

Lemma foldl_alter_lookup {A} (g : A → A) (l : list nat) (rows : list A) j :
  (∀ x, g (g x) = g x) →
  foldl (λ rows i, alter g i rows) rows l !! j
  = if decide (j ∈ l) then g <$> rows !! j else rows !! j.
Proof.
  intros Hg. revert rows. induction l as [|i l IH]; intros rows; cbn [foldl].
  - rewrite decide_False; [done|]. apply not_elem_of_nil.
  - rewrite IH. destruct (decide (j = i)) as [->|Hne].
    + rewrite list_lookup_alter_eq. rewrite (decide_True (P := i ∈ i :: l))
        by apply list_elem_of_here.
      destruct (decide (i ∈ l)); [|done].
      destruct (rows !! i); simpl; by rewrite ?Hg.
    + rewrite list_lookup_alter_ne by done.
      destruct (decide (j ∈ l)).
      * rewrite decide_True; [done|]. by apply list_elem_of_further.
      * rewrite decide_False; [done|].
        intros [?|?]%elem_of_cons; done.
Qed.

Lemma deliver_pending rows :
  foldl (λ rows i, alter delivered i rows) rows (pending utcnow rows)
  = mark_sent <$> rows.
Proof.
  apply list_eq. intros j.
  rewrite foldl_alter_lookup by apply delivered_idemp.
  rewrite list_lookup_fmap. unfold mark_sent.
  destruct (rows !! j) as [n|] eqn:Hj; simpl.
  - destruct (decide (due utcnow n)) as [Hdue|Hdue].
    + rewrite decide_True; [done|]. apply elem_of_pending. by exists n.
    + rewrite decide_False; [done|].
      intros (n' & Hj' & Hdue')%elem_of_pending. congruence.
  - by destruct (decide _).
Qed.

(** One delivery, the database answering. *)
Lemma send_notification_answers i (w : World) :
  db_faults w = [] →
  send_notification i w
  = (Returned true,
     flushed (set_session (set_notifications (alter delivered i)) w)).
Proof.
  intros Hf. destruct w as [c s cs f n ch g]. simpl in Hf. subst f.
  unfold NotificationManager.send_notification, setattr, try_except, commit,
    db_call, modify, mbind, mret, M_bind, M_ret, bind, ret. simpl.
  unfold flushed, set_session, set_notifications, delivered. simpl.
  by rewrite list_alter_alter_eq.
Qed.

Lemma send_each_answers l k (w : World) :
  db_faults w = [] →
  ∃ w',
    send_each l k w = (Returned (k + Z.of_nat (length l)), w')
    ∧ db_faults w' = []
    ∧ notifications (session w')
      = foldl (λ rows i, alter delivered i rows) (notifications (session w)) l
    ∧ preferences (session w') = preferences (session w)
    ∧ (l = [] → w' = w)
    ∧ (l ≠ [] → committed w' = session w').
Proof.
  revert k w. induction l as [|i l IH]; intros k w Hf.
  - exists w. simpl. rewrite Z.add_0_r. done.
  - simpl. unfold mbind, M_bind, bind.
    rewrite send_notification_answers by done.
    destruct (IH (k + 1) (flushed (set_session
                                    (set_notifications (alter delivered i)) w)))
      as (w' & Hrun & Hf' & Hn & Hp & Hnil & Hcons); [done|].
    exists w'. rewrite Hrun. split_and!; try done.
    + do 2 f_equal. lia.
    + intros _. destruct l as [|i' l].
      * by rewrite Hnil.
      * by apply Hcons.
Qed.

(** X19: a run of [process_pending_notifications] with the database
    answering marks exactly the notifications that are pending and due
    as sent, stamps them with the time, leaves every other row and the
    preferences as they were, and returns how many it marked; a second
    run at the same time finds nothing to do and returns 0. *)
Theorem due_notifications_are_sent (w : World) :
  session w = committed w →
  db_faults w = [] →
  let r := process_pending_notifications w in
  r.1 = Returned (Z.of_nat (length (filter (due utcnow)
                                      (notifications (committed w)))))
  ∧ notifications (committed r.2) = mark_sent <$> notifications (committed w)
  ∧ preferences (committed r.2) = preferences (committed w)
  ∧ session r.2 = committed r.2
  ∧ process_pending_notifications r.2 = (Returned 0, r.2).
Proof.
  intros Hs Hf. cbv zeta.
  assert (∀ (w0 w' : World) k,
            db_faults w0 = [] →
            send_each (pending utcnow (notifications (session w0))) 0 w0
            = (Returned k, w') →
            process_pending_notifications w0 = (Returned k, w')) as Hrun.
  { intros w0 w' k Hf0 Hsend. destruct w0 as [c s cs f n ch g].
    simpl in Hf0. subst f.
    unfold NotificationManager.process_pending_notifications, try_except,
      query, db_call, gets, mbind, M_bind, bind. simpl.
    simpl in Hsend. by rewrite Hsend. }
  destruct (send_each_answers (pending utcnow (notifications (session w))) 0 w)
    as (w' & Hsend & Hf' & Hn & Hp & Hnil & Hcons); [done|].
  rewrite (Hrun _ _ _ Hf Hsend). simpl. rewrite deliver_pending in Hn.
  assert (session w' = committed w') as Hs'.
  { destruct (pending utcnow (notifications (session w))) eqn:Hl.
    - by rewrite Hnil.
    - symmetry. by apply Hcons. }
  rewrite <-Hs', Hn, Hp, <-Hs. split_and!; [|done..|].
  - by rewrite pending_length.
  - apply Hrun; [done|]. rewrite Hn.
    assert (pending utcnow (mark_sent <$> notifications (session w)) = [])
      as ->; [|done].
    apply elem_of_nil_inv. intros j (n & Hj & Hdue)%elem_of_pending.
    rewrite list_lookup_fmap in Hj.
    destruct (notifications (session w) !! j) as [n0|]; [|done].
    injection Hj as <-. unfold mark_sent in Hdue.
    destruct (decide (due utcnow n0)); [|done].
    by apply delivered_not_due in Hdue.
Qed.

(** What stays of a row whatever happens to it: everything but status,
    time of sending and error text. *)
Definition same_notification (n n' : Notification.t) : Prop :=
  Notification.id n' = Notification.id n
  ∧ Notification.user_id n' = Notification.user_id n
  ∧ Notification.prediction_id n' = Notification.prediction_id n
  ∧ Notification.notification_type n' = Notification.notification_type n
  ∧ Notification.title n' = Notification.title n
  ∧ Notification.message n' = Notification.message n
  ∧ Notification.scheduled_for n' = Notification.scheduled_for n.

Definition touched (n n' : Notification.t) : Prop :=
  n' = n ∨ (due utcnow n ∧ same_notification n n').

(** The state of a run over the table [rows0]. *)
Definition running (w0 w : World) : Prop :=
  Forall2 touched (notifications (committed w0)) (notifications (session w))
  ∧ Forall2 touched (notifications (committed w0))
            (notifications (committed w))
  ∧ preferences (session w) = preferences (committed w0)
  ∧ preferences (committed w) = preferences (committed w0).

Definition keeps_running {A} (w0 : World) (m : M World A) : Prop :=
  ∀ w, running w0 w → wp m (λ _, running w0) (λ _, running w0) w.

Lemma keeps_running_ret {A} w0 (a : A) : keeps_running w0 (mret a).
Proof. by intros w H. Qed.

Lemma keeps_running_bind {A B} w0 (m : M World A) (k : A → M World B) :
  keeps_running w0 m → (∀ a, keeps_running w0 (k a)) →
  keeps_running w0 (m ≫= k).
Proof.
  intros Hm Hk w H. apply wp_bind.
  eapply wp_mono; [by apply Hm| |done]. intros a w' H'. by apply Hk.
Qed.

Lemma keeps_running_try_except {A} w0 (m : M World A) h :
  keeps_running w0 m → (∀ e, keeps_running w0 (h e)) →
  keeps_running w0 (try_except m h).
Proof.
  intros Hm Hh w H. apply wp_try_except.
  eapply wp_mono; [by apply Hm|done|]. intros e w' H'. by apply Hh.
Qed.

Lemma keeps_running_commit w0 : keeps_running w0 commit.
Proof.
  intros w (Hs & Hc & Hp & Hpc). wp_step; simpl; by split_and!.
Qed.

Lemma keeps_running_setattr w0 g i :
  (∀ n, same_notification n (g n)) →
  i ∈ pending utcnow (notifications (committed w0)) →
  keeps_running w0 (setattr g i).
Proof.
  intros Hg (n0 & Hi & Hdue)%elem_of_pending w (Hs & Hc & Hp & Hpc).
  unfold setattr. wp_step. unfold running.
  cbn [session committed set_session set_notifications notifications
       preferences].
  split_and!; [|done..].
  apply Forall2_lookup. intros j.
  destruct (decide (j = i)) as [->|Hne].
  - rewrite list_lookup_alter_eq, Hi.
    destruct (Forall2_lookup_l _ _ _ _ _ Hs Hi) as (n' & -> & Ht).
    simpl. constructor. right. split; [done|].
    destruct (Hg n') as (?&?&?&?&?&?&?).
    destruct Ht as [->|[_ (?&?&?&?&?&?&?)]]; [done|].
    unfold same_notification. split_and!; congruence.
  - rewrite list_lookup_alter_ne by done.
    by apply Forall2_lookup.
Qed.

Lemma keeps_running_send_notification w0 i :
  i ∈ pending utcnow (notifications (committed w0)) →
  keeps_running w0 (send_notification i).
Proof.
  intros Hi. unfold NotificationManager.send_notification.
  apply keeps_running_try_except; [|intros e];
    repeat first
      [ apply keeps_running_commit | apply keeps_running_ret
      | apply keeps_running_setattr; [by intros []|done]
      | apply keeps_running_bind; [|intros ?] ].
Qed.

Lemma keeps_running_send_each w0 l k :
  (∀ i, i ∈ l → i ∈ pending utcnow (notifications (committed w0))) →
  keeps_running w0 (send_each l k).
Proof.
  revert k. induction l as [|i l IH]; intros k Hl; simpl.
  - apply keeps_running_ret.
  - apply keeps_running_bind.
    + apply keeps_running_send_notification, Hl, list_elem_of_here.
    + intros sent. apply IH. intros j Hj. by apply Hl, list_elem_of_further.
Qed.

Lemma send_each_count l k (w : World) :
  wp (send_each l k) (λ k' _, k ≤ k' ≤ k + Z.of_nat (length l))
     (λ _ _, True) w.
Proof.
  revert k w. induction l as [|i l IH]; intros k w; simpl.
  - wp_step. lia.
  - apply wp_bind. apply wp_any; [|done]. intros sent w'.
    eapply wp_mono; [apply IH| |done]. simpl. intros k' _.
    destruct sent; lia.
Qed.

(** X20: whatever fails during a run of
    [process_pending_notifications], the run returns (it never raises),
    the count it returns is at most the number of notifications that
    were pending and due, no row is added or removed, a row that was
    not due is left exactly as it was, a row that was due keeps its
    identity, recipient, text and schedule, and the preferences are
    untouched. *)
Theorem delivery_run_is_contained (w : World) :
  session w = committed w →
  let r := process_pending_notifications w in
  (∃ sent_count,
     r.1 = Returned sent_count
     ∧ 0 ≤ sent_count
       ≤ Z.of_nat (length (filter (due utcnow) (notifications (committed w)))))
  ∧ Forall2 touched (notifications (committed w))
            (notifications (committed r.2))
  ∧ preferences (committed r.2) = preferences (committed w).
Proof.
  intros Hs. cbv zeta.
  assert (running w w) as Hrun.
  { unfold running. rewrite Hs.
    assert (Forall2 touched (notifications (committed w))
              (notifications (committed w))) as Hrefl
      by (apply Forall2_same_length_lookup_2; [done|];
          intros j n n' Hn Hn'; left; congruence).
    by split_and!. }
  assert (wp process_pending_notifications
            (λ k w', 0 ≤ k ≤ Z.of_nat
                       (length (filter (due utcnow)
                                  (notifications (committed w))))
                     ∧ running w w')
            (λ _ _, False) w) as H.
  { unfold NotificationManager.process_pending_notifications. cbv zeta.
    apply wp_try_except. wp_step. wp_step.
    - subst x. simpl. rewrite Hs.
      eapply wp_mono;
        [apply wp_and;
           [apply send_each_count
           |apply keeps_running_send_each; [done|]]|..].
      + destruct Hrun as (?&?&?&?). by split_and!.
      + simpl. intros k w' [Hk Hr]. rewrite <-pending_length. split; [lia|done].
      + simpl. intros e w' [_ Hr]. wp_step. split; [lia|done].
    - wp_step. split; [lia|]. destruct Hrun as (?&?&?&?). by split_and!. }
  unfold wp in H.
  destruct (process_pending_notifications w) as [[k|e] w']; [|done].
  simpl. destruct H as [Hk (_ & Hc & _ & Hp)]. split_and!; [|done..].
  by exists k.
Qed.
End notification_delivery.

Section delivery_scenario.
Import Notification Notification.NotificationManager.

(** The reminder for the prediction of March 1st is in the table, due
    on February 27th. *)
Definition reminder_scheduled : World :=
  (Notification.MessageQueue.MessageConsumer.callback 1
     (Some prediction_for_march_first) no_preferences).2.

Lemma reminder_is_sent_on_its_day :
  let utcnow := Date.ymd 2024 2 27 in
  let w := reminder_scheduled in
  let r := process_pending_notifications utcnow (λ _, "error") w in
  r.1 = Returned (Z.of_nat (length (filter (due utcnow)
                                      (notifications (committed w)))))
  ∧ notifications (committed r.2)
    = mark_sent utcnow <$> notifications (committed w)
  ∧ preferences (committed r.2) = preferences (committed w)
  ∧ session r.2 = committed r.2
  ∧ process_pending_notifications utcnow (λ _, "error") r.2
    = (Returned 0, r.2).
Proof.
  apply (due_notifications_are_sent (Date.ymd 2024 2 27) (λ _, "error")
           reminder_scheduled).
  - vm_compute. reflexivity.
  - vm_compute. reflexivity.
Defined.

Lemma delivery_run_with_database_down :
  let utcnow := Date.ymd 2024 2 27 in
  let w := set_db_faults [false; true; true] reminder_scheduled in
  let r := process_pending_notifications utcnow (λ _, "error") w in
  (∃ sent_count,
     r.1 = Returned sent_count
     ∧ 0 ≤ sent_count
       ≤ Z.of_nat (length (filter (due utcnow) (notifications (committed w)))))
  ∧ Forall2 (touched utcnow) (notifications (committed w))
            (notifications (committed r.2))
  ∧ preferences (committed r.2) = preferences (committed w).
Proof.
  apply (delivery_run_is_contained (Date.ymd 2024 2 27) (λ _, "error")
           (set_db_faults [false; true; true] reminder_scheduled)).
  vm_compute. reflexivity.
Defined.
End delivery_scenario.

Section insights.
Import Analytics Analytics.CycleAnalytics Analytics.PredictionEngine.













End insights.

Section authentication.
Import CycleTracking CycleTracking.MessageQueue CycleTracking.Routes
  CycleTracking.Auth.

(** A string without a space. *)
Fixpoint spaceless (s : string) : bool :=
  match s with
  | EmptyString => true
  | String c s' => negb (Ascii.eqb c " "%char) && spaceless s'
  end.

Lemma split_nonempty s : split s ≠ [].
Proof.
  destruct s as [|c s]; simpl; [done|].
  destruct (Ascii.eqb c " "); [done|]. by destruct (split s).
Qed.

Lemma split_spaceless s : spaceless s = true → split s = [s].
Proof.
  induction s as [|c s IH]; simpl; [done|].
  intros [Hc Hs]%andb_true_iff. apply negb_true_iff in Hc.
  by rewrite Hc, IH.
Qed.

(** The fields of a header with a space: the part before the first
    space, then the fields of the rest. *)
Lemma split_first_field (scheme rest : string) :
  spaceless scheme = true →
  split (scheme +:+ " " +:+ rest) = scheme :: split rest.
Proof.
  induction scheme as [|c scheme IH]; simpl; [done|].
  intros [Hc Hs]%andb_true_iff. apply negb_true_iff in Hc.
  by rewrite Hc, IH.
Qed.

(** Conversely, a header with a second field reads: first field, a
    space, second field, and then nothing or a space and more. *)
Lemma split_second_field s token :
  split s !! 1%nat = Some token →
  ∃ scheme rest,
    s = scheme +:+ " " +:+ token +:+ rest
    ∧ spaceless scheme = true ∧ spaceless token = true
    ∧ (rest = "" ∨ ∃ more, rest = " " +:+ more).
Proof.
  assert (∀ s, ∃ field rest,
            split s !! 0%nat = Some field
            ∧ spaceless field = true
            ∧ s = field +:+ rest
            ∧ (rest = "" ∨ ∃ more, rest = " " +:+ more)
            ∧ (∀ more, rest = " " +:+ more → tail (split s) = split more)
            ∧ (rest = "" → tail (split s) = [])) as Hfirst.
  { clear. induction s as [|c s (field & rest & Hf & Hsp & -> & Hrest & Htl & Hnil)];
      simpl.
    - exists "", "". split_and!; [done|done|done|by left|by intros more [=]|done].
    - destruct (Ascii.eqb c " ") eqn:Hc.
      + apply Ascii.eqb_eq in Hc as ->.
        exists "", (" " +:+ field +:+ rest). simpl.
        split_and!; [done|done|done|right; by eexists| |done].
        intros more Heq. cbn in Heq. injection Heq as Heq.
        change (field +:+ rest = more) in Heq. by subst.
      + destruct (split (field +:+ rest)) as [|f fs] eqn:Hsplit; [done|].
        simpl in Hf. injection Hf as ->.
        exists (String c field), rest. simpl. rewrite Hc.
        split_and!; [done|done|done|done|done|done]. }
  intros Hsecond.
  destruct (Hfirst s) as (scheme & rest & Hf & Hsp & -> & Hrest & Htl & Hnil).
  destruct Hrest as [->|[more ->]].
  - specialize (Hnil eq_refl).
    destruct (split (scheme +:+ "")) as [|f fs]; [done|].
    simpl in Hnil. by subst fs.
  - specialize (Htl more eq_refl).
    destruct (split (scheme +:+ " " +:+ more)) as [|f fs] eqn:Hsplit; [done|].
    simpl in Htl, Hsecond. subst fs.
    destruct (Hfirst more)
      as (token' & rest' & Hf' & Hsp' & -> & Hrest' & _).
    rewrite Hsecond in Hf'. injection Hf' as <-.
    by exists scheme, rest'.
Qed.

(** X22: the decorator lets a request through to the route only with a
    verified token.  The request is answered 401 with the world
    untouched, or (a verified token without a [user_id] claim) ends in
    a KeyError with the world untouched, or else its Authorization
    header reads: a first field, a space, a non-empty token that
    [jwt.decode] accepts, and then nothing or a space and more; and the
    route is run with the [user_id] claim of that token.  Conversely any
    such header is let through, whatever its first field: the scheme
    word is not looked at. *)
Theorem token_required_admits_verified_tokens_only
    (jwt_decode : string → jwt_result) (f : Z → M World response)
    (authorization : option string) (w : World) :
  let r := token_required jwt_decode f authorization w in
  ((∃ error, r = (Returned (ErrorPayload error, 401), w))
   ∨ r = (Raised KeyError, w)
   ∨ ∃ scheme token rest p user,
       authorization = Some (scheme +:+ " " +:+ token +:+ rest)
       ∧ spaceless scheme = true ∧ spaceless token = true ∧ token ≠ ""
       ∧ (rest = "" ∨ ∃ more, rest = " " +:+ more)
       ∧ jwt_decode token = Claims p
       ∧ user_id p = Some user
       ∧ r = f user w)
  ∧ ∀ scheme token p user,
      spaceless scheme = true → spaceless token = true → token ≠ "" →
      jwt_decode token = Claims p → user_id p = Some user →
      token_required jwt_decode f (Some (scheme +:+ " " +:+ token)) w
      = f user w.
Proof.
  cbv zeta. split.
  - unfold token_required, decode_token.
    destruct authorization as [auth_header|]; [|left; by eexists].
    destruct (split auth_header !! 1%nat) as [token|] eqn:Hsplit;
      [|left; by eexists].
    destruct token as [|c token]; [left; by eexists|].
    destruct (jwt_decode (String c token)) as [p| |] eqn:Hjwt;
      [|left; by eexists..].
    destruct (truthy p) eqn:Ht; simpl; [|left; by eexists].
    destruct (user_id p) as [user|] eqn:Hu; [|by right; left].
    right; right.
    apply split_second_field in Hsplit
      as (scheme & rest & -> & Hs & Ht' & Hrest).
    by exists scheme, (String c token), rest, p, user.
  - intros scheme token p user Hs Ht Hne Hjwt Hu.
    unfold token_required, decode_token.
    rewrite split_first_field, split_spaceless by done. simpl.
    destruct token as [|c token]; [done|].
    rewrite Hjwt. unfold truthy. rewrite Hu. simpl. done.
Qed.

(** A decoder that accepts one token, for user 7. *)
Definition accepts_good (token : string) : jwt_result :=
  if decide (token = "good") then Claims (mkPayload (Some 7) true)
  else InvalidTokenError.

Lemma any_scheme_is_accepted :
  token_required accepts_good (λ user, get_cycle user 1)
    (Some "Basic good") broker_up
  = get_cycle 7 1 broker_up.
Proof.
  destruct (token_required_admits_verified_tokens_only accepts_good
              (λ user, get_cycle user 1) (Some "Basic good") broker_up)
    as [_ H].
  apply (H "Basic" "good" (mkPayload (Some 7) true) 7); reflexivity || done.
Defined.
End authentication.

Section reminders_more.
Import Notification Notification.MessageQueue
  Notification.MessageQueue.MessageConsumer Notification.NotificationManager.

(** X23: [create_period_reminder] never raises, whatever fails.  It
    returns a notification exactly when it committed one, appended to
    the table; otherwise the notifications are as they were.  The
    preferences are as they were or have gained the user's row of
    defaults, and no uncommitted change is left in the session. *)
Theorem create_period_reminder_is_contained
    user prediction predicted_date (w : World) :
  session w = committed w →
  let r := create_period_reminder user prediction predicted_date w in
  ∃ result,
    r.1 = Returned result
    ∧ notifications (committed r.2)
      = notifications (committed w) ++ option_list result
    ∧ (preferences (committed r.2) = preferences (committed w)
       ∨ preferences (committed r.2)
         = preferences (committed w)
           ++ [NotificationPreference.new
                 (next_id (NotificationPreference.id
                             <$> preferences (committed w))) user])
    ∧ session r.2 = committed r.2.
Proof.
  intros Hs.
  assert (wp (create_period_reminder user prediction predicted_date)
            (λ result w',
               notifications (committed w')
               = notifications (committed w) ++ option_list result
               ∧ (preferences (committed w') = preferences (committed w)
                  ∨ preferences (committed w')
                    = preferences (committed w)
                      ++ [NotificationPreference.new
                            (next_id (NotificationPreference.id
                                        <$> preferences (committed w))) user])
               ∧ session w' = committed w')
            (λ _ _, False) w) as H.
  { unfold create_period_reminder, NotificationManager.fromisoformat.
    repeat (wp_step;
            try (simpl; rewrite ?Hs, ?app_nil_r; by auto)). }
  unfold wp in H. cbv zeta.
  destruct (create_period_reminder user prediction predicted_date w)
    as [[result|e] w']; [|done].
  by exists result.
Qed.

Lemma reminder_with_database_down :
  let w := set_db_faults [false; false; true] no_preferences in
  let r := create_period_reminder 7 (Some 4) (IsoDate 2024 3 1) w in
  ∃ result,
    r.1 = Returned result
    ∧ notifications (committed r.2)
      = notifications (committed w) ++ option_list result
    ∧ (preferences (committed r.2) = preferences (committed w)
       ∨ preferences (committed r.2)
         = preferences (committed w)
           ++ [NotificationPreference.new
                 (next_id (NotificationPreference.id
                             <$> preferences (committed w))) 7])
    ∧ session r.2 = committed r.2.
Proof.
  apply (create_period_reminder_is_contained 7 (Some 4) (IsoDate 2024 3 1)
           (set_db_faults [false; false; true] no_preferences)).
  reflexivity.
Defined.
End reminders_more.

Section upsert_more.
Import Analytics Analytics.MessageQueue Analytics.MessageQueue.MessageConsumer.

(** X24: an acknowledged delivery changes the analytics table in one
    row only, the row of the event's cycle: every row that was there
    is still there, in place, but for that one, and at most one row is
    appended.  That row's cycle length is the number of days since the
    latest strictly earlier start of the same user, where there is one;
    where there is none, the cycle length is left as it was. *)
Theorem acked_delivery_touches_one_row
    (delivery_tag : Z) (body : option Message) (w : World) :
  session w = committed w →
  let w' := (callback delivery_tag body w).2 in
  channel w' = channel w ++ [BasicAck delivery_tag] →
  ∃ message i a,
    body = Some message
    ∧ analytics (committed w') !! i = Some a
    ∧ CycleAnalytics.cycle_id a = cycle_id message
    ∧ (∀ j, j ≠ i →
         analytics (committed w') !! j = analytics (committed w) !! j)
    ∧ (length (analytics (committed w))
       ≤ length (analytics (committed w'))
       ≤ S (length (analytics (committed w))))%nat
    ∧ CycleAnalytics.cycle_length a
      = match prev_analytics (user_id message) (CycleAnalytics.start_date a)
                (analytics (committed w)) with
        | Some prev =>
            Some (Date.days_between (CycleAnalytics.start_date a)
                    (CycleAnalytics.start_date prev))
        | None =>
            analytics (committed w) !! i ≫= CycleAnalytics.cycle_length
        end.
Proof.
  intros Hs w' Hack.
  destruct (callback_acked _ _ _ Hs Hack) as (_ & Hev & Hc & _).
  apply committed_event_upserted in Hev as (message & -> & Hup).
  subst w'. rewrite Hc. rewrite Hs in Hup.
  set (T := analytics (committed w)) in *.
  destruct Hup as (i & a0 & a & T1 & HT1 & Hfind & -> & _ & _ & Hcid & Hstart
                   & _ & _ & Hlen & _).
  pose proof Hfind as (Hi & Hc0 & _)%list_find_Some.
  exists message, i, a. split_and!.
  - done.
  - apply list_lookup_insert_eq. by eapply lookup_lt_Some.
  - congruence.
  - intros j Hj. rewrite list_lookup_insert_ne by done.
    destruct HT1 as [->|(Hnone & -> & _)]; [done|].
    assert (i = length T) as ->.
    { apply list_find_app_Some in Hfind as [Hfind|(? & _ & Hfind)];
        [congruence|].
      apply list_find_Some in Hfind as (Hl & _).
      apply lookup_lt_Some in Hl. simpl in Hl.
      apply lookup_lt_Some in Hi. rewrite length_app in Hi. simpl in Hi. lia. }
    destruct (decide (j < length T)%nat).
    + by rewrite lookup_app_l.
    + rewrite !lookup_ge_None_2; [done|lia|].
      rewrite length_app. simpl. lia.
  - rewrite length_insert.
    destruct HT1 as [->|(_ & -> & _)]; [lia|]. rewrite length_app. simpl. lia.
  - rewrite length_insert.
    destruct HT1 as [->|(_ & -> & _)]; [lia|]. rewrite length_app. simpl. lia.
  - rewrite Hlen, Hstart.
    destruct HT1 as [->|(Hnone & -> & start & _ & Ha0)].
    + destruct (prev_analytics _ _ T); simpl; [done|]. by rewrite Hi.
    + assert (i = length T) as ->.
      { apply list_find_app_Some in Hfind as [Hfind|(? & _ & Hfind)];
          [congruence|].
        apply list_find_Some in Hfind as (Hl & _).
        apply lookup_lt_Some in Hl. simpl in Hl.
        apply lookup_lt_Some in Hi. rewrite length_app in Hi. simpl in Hi.
        lia. }
      assert (prev_analytics (user_id message) (CycleAnalytics.start_date a0)
                (T ++ [a0])
              = prev_analytics (user_id message)
                  (CycleAnalytics.start_date a0) T) as ->.
      { unfold prev_analytics, PredictionEngine.filter_by_user.
        rewrite !filter_app, !filter_cons, !filter_nil.
        case_decide; [|by rewrite filter_nil, app_nil_r].
        rewrite filter_cons, filter_nil, decide_False by lia.
        by rewrite app_nil_r. }
      destruct (prev_analytics _ _ T); simpl; [done|].
      rewrite lookup_ge_None_2 by lia. simpl. by rewrite Ha0.
Qed.

Lemma second_cycle_touches_one_row :
  ∃ message i a,
    cycle_event 7 11 (Date.ymd 2024 1 31) = Some message
    ∧ analytics (committed after_second_cycle) !! i = Some a
    ∧ CycleAnalytics.cycle_id a = cycle_id message
    ∧ (∀ j, j ≠ i →
         analytics (committed after_second_cycle) !! j
         = analytics (committed after_first_cycle) !! j)
    ∧ (length (analytics (committed after_first_cycle))
       ≤ length (analytics (committed after_second_cycle))
       ≤ S (length (analytics (committed after_first_cycle))))%nat
    ∧ CycleAnalytics.cycle_length a
      = match prev_analytics (user_id message) (CycleAnalytics.start_date a)
                (analytics (committed after_first_cycle)) with
        | Some prev =>
            Some (Date.days_between (CycleAnalytics.start_date a)
                    (CycleAnalytics.start_date prev))
        | None =>
            analytics (committed after_first_cycle) !! i
            ≫= CycleAnalytics.cycle_length
        end.
Proof.
  apply (acked_delivery_touches_one_row 2
           (cycle_event 7 11 (Date.ymd 2024 1 31)) after_first_cycle).
  - vm_compute. reflexivity.
  - vm_compute. reflexivity.
Defined.
End upsert_more.

Section user_accounts.
Import UserService UserService.Routes.

(** Ids, emails and user names are pairwise distinct. *)
Definition unique_users (rows : list User.t) : Prop :=
  NoDup (User.id <$> rows)
  ∧ NoDup (User.email <$> rows)
  ∧ NoDup (User.username <$> rows).

(** What identifies a user and lets them in: everything [PUT /profile]
    has no business with. *)
Definition credentials (u : User.t)
  : Z * string * string * string * option bool :=
  (User.id u, User.email u, User.username u, User.password_hash u,
   User.is_active u).

Lemma unique_users_credentials rows rows' :
  credentials <$> rows' = credentials <$> rows →
  unique_users rows → unique_users rows'.
Proof.
  intros Heq (Hid & Hemail & Hname). unfold unique_users.
  assert (User.id <$> rows' = User.id <$> rows) as ->.
  { change User.id with ((λ c : Z * string * string * string * option bool,
                            c.1.1.1.1) ∘ credentials).
    by rewrite !list_fmap_compose, Heq. }
  assert (User.email <$> rows' = User.email <$> rows) as ->.
  { change User.email with ((λ c : Z * string * string * string * option bool,
                               c.1.1.1.2) ∘ credentials).
    by rewrite !list_fmap_compose, Heq. }
  assert (User.username <$> rows' = User.username <$> rows) as ->.
  { change User.username
      with ((λ c : Z * string * string * string * option bool,
               c.1.1.2) ∘ credentials).
    by rewrite !list_fmap_compose, Heq. }
  done.
Qed.

Lemma unique_users_add rows user :
  unique_users rows →
  User.id user ∉ (User.id <$> rows) →
  (∀ u, u ∈ rows → User.email u ≠ User.email user) →
  (∀ u, u ∈ rows → User.username u ≠ User.username user) →
  unique_users (rows ++ [user]).
Proof.
  intros (Hid & Hemail & Hname) Hfresh He Hn.
  unfold unique_users. rewrite !fmap_app, !NoDup_app. simpl.
  split_and!; try done; try apply NoDup_singleton.
  - intros x Hx ->%list_elem_of_singleton. done.
  - intros x (u & -> & Hu)%list_elem_of_fmap ?%list_elem_of_singleton.
    by apply (He u).
  - intros x (u & -> & Hu)%list_elem_of_fmap ?%list_elem_of_singleton.
    by apply (Hn u).
Qed.

Lemma fmap_alter_same {A B} (f : A → B) (g : A → A) i (l : list A) :
  (∀ x, f (g x) = f x) → f <$> alter g i l = f <$> l.
Proof.
  intros Hfg. revert i. induction l as [|x l IH]; intros [|i]; csimpl;
    rewrite ?Hfg, ?IH; done.
Qed.

Section register.
Context (generate_password_hash : string → string → string).

(** What a registration ends in. *)
Definition registered (salt : string) (data : RegisterJson) (w : World)
    (x : response) (w' : World) : Prop :=
  (∃ email username password,
     j_email data = Some email ∧ j_username data = Some username
     ∧ j_password data = Some password
     ∧ let user :=
         User.mk (next_id (User.id <$> users (committed w))) email username
                 (generate_password_hash salt password)
                 (j_first_name data) (j_last_name data) None (Some true) in
       x = (UserPayload "User registered successfully" (User.to_dict user),
            201)
       ∧ (∀ u, u ∈ users (committed w) →
               User.email u ≠ email ∧ User.username u ≠ username)
       ∧ users (committed w') = users (committed w) ++ [user]
       ∧ session w' = committed w')
  ∨ ((∃ error, x = (ErrorPayload error, 400))
     ∧ (j_email data = None ∨ j_username data = None
        ∨ j_password data = None)
     ∧ w' = w)
  ∨ ((∃ error, x = (ErrorPayload error, 409))
     ∧ (∃ u, u ∈ users (committed w)
             ∧ (j_email data = Some (User.email u)
                ∨ j_username data = Some (User.username u)))
     ∧ committed w' = committed w ∧ session w' = committed w
     ∧ commits w' = commits w)
  ∨ (x = (ErrorPayload "Registration failed", 500)
     ∧ committed w' = committed w ∧ session w' = committed w
     ∧ commits w' = commits w).

Lemma register_registered salt data (w : World) :
  session w = committed w →
  wp (register generate_password_hash salt data)
     (registered salt data w) (λ _ _, False) w.
Proof.
  intros Hs. unfold register, registered.
  wp_step.
  destruct (j_email data) as [email|] eqn:Hemail;
    [|wp_step; right; left; split_and!; eauto].
  destruct (j_username data) as [username|] eqn:Husername;
    [|wp_step; right; left; split_and!; eauto].
  destruct (j_password data) as [password|] eqn:Hpassword;
    [|wp_step; right; left; split_and!; eauto].
  wp_step. wp_step; [|wp_step; wp_step; right; right; right; by simpl].
  subst x. unfold by_email. simpl.
  destruct (list_find _ _) as [[i u]|] eqn:He.
  { rewrite bool_decide_eq_true_2 by eauto. wp_step.
    right; right; left. simpl. rewrite <-Hs. split_and!; eauto.
    apply list_find_Some in He as (Hi & <- & _).
    exists u. split; [by eapply list_elem_of_lookup_2|by left]. }
  rewrite bool_decide_eq_false_2 by (by intros [? ?]).
  wp_step. wp_step; [|wp_step; wp_step; right; right; right; by simpl].
  subst x. unfold by_username. simpl.
  destruct (list_find (λ u, User.username u = username) _)
    as [[i u]|] eqn:Hn.
  { rewrite bool_decide_eq_true_2 by eauto. wp_step.
    right; right; left. simpl. rewrite <-Hs. split_and!; eauto.
    apply list_find_Some in Hn as (Hi & <- & _).
    exists u. split; [by eapply list_elem_of_lookup_2|by right]. }
  rewrite bool_decide_eq_false_2 by (by intros [? ?]).
  do 5 wp_step. wp_step; [|wp_step; wp_step; right; right; right; by simpl].
  wp_step. left. exists email, username, password. simpl.
  rewrite <-Hs. split_and!; try done.
  intros u Hu.
  apply list_find_None in He, Hn.
  rewrite Forall_forall in He, Hn. split; [by apply He|by apply Hn].
Qed.


(** Every writer of the users table keeps the rows apart. *)
Lemma register_unique salt data (w : World) :
  session w = committed w →
  unique_users (users (committed w)) →
  wp (register generate_password_hash salt data)
     (λ _ w', session w' = committed w'
              ∧ unique_users (users (committed w')))
     (λ _ _, False) w.
Proof.
  intros Hs Hu. eapply wp_mono; [by apply register_registered| |done].
  intros x w' [H|[H|[H|H]]].
  - destruct H as (email & username & password & _ & _ & _ & _ & Hnew
                   & -> & Hs').
    split; [done|]. apply unique_users_add; simpl; try done.
    + apply next_id_fresh.
    + intros u Hin. by apply Hnew.
    + intros u Hin. by apply Hnew.
  - destruct H as (_ & _ & ->). done.
  - destruct H as (_ & _ & -> & -> & _). done.
  - destruct H as (_ & -> & -> & _). done.
Qed.
End register.

(** The row [PUT /profile] leaves for a user: the body's values where
    the body has the key, the row's own elsewhere. *)
Definition updated (data : ProfileJson) (user : User.t) : User.t :=
  User.mk (User.id user) (User.email user) (User.username user)
          (User.password_hash user)
          (default (User.first_name user) (p_first_name data))
          (default (User.last_name user) (p_last_name data))
          (match p_date_of_birth data with
           | Iso d => Some d
           | _ => User.date_of_birth user
           end)
          (User.is_active user).

(** What a profile update ends in. *)
Definition profile_updated (user_id : Z) (data : ProfileJson) (w : World)
    (x : response) (w' : World) : Prop :=
  (∃ i user,
     get user_id (committed w) = Some (i, user)
     ∧ p_date_of_birth data ≠ Malformed
     ∧ x = (UserPayload "Profile updated successfully"
                        (User.to_dict (updated data user)), 200)
     ∧ users (committed w') = <[i:=updated data user]> (users (committed w))
     ∧ session w' = committed w')
  ∨ (x = (ErrorPayload "User not found", 404)
     ∧ get user_id (committed w) = None
     ∧ committed w' = committed w ∧ session w' = committed w
     ∧ commits w' = commits w)
  ∨ (x = (ErrorPayload "Failed to update profile", 500)
     ∧ committed w' = committed w ∧ session w' = committed w
     ∧ commits w' = commits w).

Lemma alter_insert {A} (f : A → A) i (l : list A) x :
  l !! i = Some x → alter f i l = <[i:=f x]> l.
Proof.
  revert i. induction l as [|y l IH]; intros [|i]; csimpl; try done.
  - by intros [= ->].
  - intros H. by rewrite (IH i H).
Qed.

Lemma alter_insert_insert {A} (f : A → A) i (l : list A) x y :
  l !! i = Some x → alter f i (<[i:=y]> l) = <[i:=f y]> l.
Proof.
  intros Hi. apply lookup_lt_Some in Hi.
  rewrite (alter_insert f i _ y) by by apply list_lookup_insert_eq.
  by rewrite list_insert_insert_eq.
Qed.

Lemma update_profile_updated user_id data (w : World) :
  session w = committed w →
  wp (update_profile user_id data) (profile_updated user_id data w)
     (λ _ _, False) w.
Proof.
  intros Hs. unfold update_profile, profile_updated, setattr.
  wp_step. wp_step.
  wp_step; [|wp_step; wp_step; right; right; by simpl].
  subst x. rewrite Hs.
  destruct (get user_id (committed w)) as [[i user]|] eqn:Hget;
    [|wp_step; right; left; by simpl].
  pose proof Hget as (Hi & Hid & _)%list_find_Some.
  set (first := default (User.first_name user) (p_first_name data)).
  set (last := default (User.last_name user) (p_last_name data)).
  set (user1 := User.set_first_name first user).
  set (user2 := User.set_last_name last user1).
  assert (wp (match p_first_name data with
              | Some v => modify (set_session
                                    (set_users (alter (User.set_first_name v) i)))
              | None => mret tt
              end)
             (λ _ w1, committed w1 = committed w ∧ commits w1 = commits w
                      ∧ users (session w1) = <[i:=user1]> (users (committed w)))
             (λ _ _, False) (set_db_faults l w)) as H1.
  { subst user1 first. destruct (p_first_name data) as [v|]; wp_step; simpl.
    - rewrite Hs. split_and!; [done..|]. by apply alter_insert.
    - rewrite Hs. split_and!; [done..|].
      rewrite list_insert_id; [done|]. by destruct user. }
  assert (∀ w1 : World,
            committed w1 = committed w → commits w1 = commits w →
            users (session w1) = <[i:=user1]> (users (committed w)) →
            wp (match p_last_name data with
                | Some v => modify (set_session
                                      (set_users (alter (User.set_last_name v) i)))
                | None => mret tt
                end)
               (λ _ w2, committed w2 = committed w ∧ commits w2 = commits w
                        ∧ users (session w2)
                          = <[i:=user2]> (users (committed w)))
               (λ _ _, False) w1) as H2.
  { intros w1 Hc Hcs Hu. subst user2 last.
    destruct (p_last_name data) as [v|]; wp_step; simpl.
    - rewrite Hu. split_and!; [done..|]. by eapply alter_insert_insert.
    - rewrite Hu. split_and!; [done..|]. by destruct user. }
  assert (∀ w2 : World,
            committed w2 = committed w → commits w2 = commits w →
            users (session w2) = <[i:=user2]> (users (committed w)) →
            wp (match p_date_of_birth data with
                | Missing => mret tt
                | f => d ← fromisoformat f;
                       modify (set_session
                                 (set_users
                                    (alter (User.set_date_of_birth (Some d)) i)))
                end)
               (λ _ w3, committed w3 = committed w ∧ commits w3 = commits w
                        ∧ p_date_of_birth data ≠ Malformed
                        ∧ users (session w3)
                          = <[i:=updated data user]> (users (committed w)))
               (λ _ w3, committed w3 = committed w ∧ commits w3 = commits w)
               w2) as H3.
  { intros w2 Hc Hcs Hu. unfold updated. fold first last.
    destruct (p_date_of_birth data) as [|d|]; cbn [fromisoformat];
      repeat wp_step; simpl; rewrite ?Hu; try done.
    split_and!; [done..|]. by erewrite alter_insert_insert. }
  wp_step. eapply wp_mono; [apply H1| |done].
  intros [] w1 (Hc1 & Hcs1 & Hu1). cbv beta.
  wp_step. eapply wp_mono; [by apply H2| |done].
  intros [] w2 (Hc2 & Hcs2 & Hu2). cbv beta.
  wp_step. eapply wp_mono; [by apply H3| |].
  - intros [] w3 (Hc3 & Hcs3 & Hdob & Hu3). cbv beta.
    wp_step. wp_step.
    + wp_step. wp_step. wp_step. left. exists i, user. simpl.
      rewrite Hu3.
      rewrite list_lookup_insert_eq by by eapply lookup_lt_Some.
      simpl. split_and!; try done.
    + wp_step. wp_step. right; right. simpl. by rewrite Hc3, Hcs3.
  - intros e w3 (Hc3 & Hcs3). cbv beta.
    wp_step. wp_step. right; right. simpl. by rewrite Hc3, Hcs3.
Qed.

Lemma profile_updated_credentials user_id data (w : World) x w' :
  profile_updated user_id data w x w' →
  session w' = committed w'
  ∧ credentials <$> users (committed w') = credentials <$> users (committed w)
  ∧ ∀ j u, users (committed w) !! j = Some u → User.id u ≠ user_id →
           users (committed w') !! j = Some u.
Proof.
  intros [(i & user & Hget & _ & _ & Hu & Hs)|[H|H]].
  - apply list_find_Some in Hget as (Hi & Hid & _).
    rewrite Hu. split_and!; [done| |].
    + rewrite list_fmap_insert. apply list_insert_id.
      by rewrite list_lookup_fmap, Hi.
    + intros j u Hj Hne. rewrite list_lookup_insert_ne; [done|].
      intros <-. rewrite Hi in Hj. by injection Hj as <-.
  - by destruct H as (_ & _ & -> & -> & _).
  - by destruct H as (_ & -> & -> & _).
Qed.

(** The reading routes. *)
Lemma get_profile_reads user_id (w : World) :
  db_faults w = [] →
  get_profile user_id w
  = (match get user_id (session w) with
     | Some (_, user) => Returned (ProfilePayload (User.to_dict user), 200)
     | None => Returned (ErrorPayload "User not found", 404)
     end, w).
Proof.
  intros Hf. unfold get_profile, try_except, query, db_call, mbind, M_bind,
    bind, gets. rewrite Hf. simpl.
  by destruct (get user_id (session w)) as [[i u]|].
Qed.

Lemma get_updated user_id (rows : list User.t) i user user' :
  list_find (λ u, User.id u = user_id) rows = Some (i, user) →
  User.id user' = User.id user →
  list_find (λ u, User.id u = user_id) (<[i:=user']> rows) = Some (i, user').
Proof.
  intros (Hi & Hid & Hfirst)%list_find_Some Heq.
  apply list_find_Some. split; [|split].
  - apply list_lookup_insert_eq. by eapply lookup_lt_Some.
  - by rewrite Heq.
  - intros j y Hj Hlt. rewrite list_lookup_insert_ne in Hj by lia.
    by eapply Hfirst.
Qed.

(** X26: [PUT /profile] has no hold on what identifies a user.  It never
    raises; whatever the body and whatever fails, every row keeps its
    id, email, user name, password hash and activity flag, no row is
    added or removed, and the rows of other users are exactly as they
    were.  A profile it answers with 200 is what [GET /profile] reads
    back. *)
Theorem update_profile_keeps_credentials user_id data (w : World) :
  session w = committed w →
  let r := update_profile user_id data w in
  returned r.1 = true
  ∧ credentials <$> users (committed r.2) = credentials <$> users (committed w)
  ∧ (∀ j u, users (committed w) !! j = Some u → User.id u ≠ user_id →
            users (committed r.2) !! j = Some u)
  ∧ (∀ message d,
       r.1 = Returned (UserPayload message d, 200) →
       get_profile user_id (set_db_faults [] r.2)
       = (Returned (ProfilePayload d, 200), set_db_faults [] r.2)).
Proof.
  intros Hs. cbv zeta.
  pose proof (wp_run _ _ _ _ (update_profile_updated user_id data w Hs)) as H.
  destruct (update_profile user_id data w) as [[x|e] w']; [|done].
  simpl in *.
  pose proof (profile_updated_credentials _ _ _ _ _ H) as (Hs' & Hc & Ho).
  split_and!; try done.
  intros message d [= ->].
  destruct H as [(i & user & Hget & _ & [= -> ->] & Hu & _)|[H|H]];
    [|by destruct H as ([=] & _)..].
  rewrite get_profile_reads by done.
  change (session (set_db_faults [] w')) with (session w').
  unfold get at 1. rewrite Hs', Hu.
  by rewrite (get_updated _ _ _ _ (updated data user) Hget).
Qed.

Section login.
Context (generate_password_hash : string → string → string)
        (check_password_hash : string → string → bool)
        (jwt_encode : Auth.claims → string).

Local Abbreviation register := (register generate_password_hash).
Local Abbreviation login := (login check_password_hash jwt_encode).

(** What a login ends in. *)
Definition logged_in (utcnow : Z) (data : LoginJson) (w : World)
    (x : response) : Prop :=
  (∃ i user email password,
     l_email data = Some email ∧ l_password data = Some password
     ∧ by_email email (session w) = Some (i, user)
     ∧ check_password_hash (User.password_hash user) password = true
     ∧ User.is_active user = Some true
     ∧ x = (TokenPayload "Login successful"
              (jwt_encode
                 (Auth.mkClaims (User.id user) (utcnow + 86400) utcnow))
              (User.to_dict user), 200))
  ∨ (∃ error status, x = (ErrorPayload error, status) ∧ status ≠ 200).

Lemma login_logged_in utcnow data (w : World) :
  wp (login utcnow data)
     (λ x w', logged_in utcnow data w x ∧ ∃ l, w' = set_db_faults l w)
     (λ _ _, False) w.
Proof.
  unfold Routes.login, logged_in, User.check_password, Auth.generate_token.
  wp_step.
  destruct (l_email data) as [email|] eqn:Hemail;
    [|wp_step; split; [right; by eexists _, _|by exists (db_faults w); destruct w]].
  destruct (l_password data) as [password|] eqn:Hpassword;
    [|wp_step; split; [right; by eexists _, _|by exists (db_faults w); destruct w]].
  wp_step. wp_step; [|wp_step; split; [right; by eexists _, _|by eexists]].
  subst x.
  destruct (by_email email (session w)) as [[i user]|] eqn:Hfind;
    [|wp_step; split; [right; by eexists _, _|by eexists]].
  destruct (check_password_hash (User.password_hash user) password) eqn:Hcheck;
    simpl; [|wp_step; split; [right; by eexists _, _|by eexists]].
  destruct (User.is_active user) as [[]|] eqn:Hactive; simpl;
    [|wp_step; split; [right; by eexists _, _|by eexists]..].
  wp_step. split; [|by eexists].
  left. by exists i, user, email, password.
Qed.

Lemma login_reads utcnow email password (w : World) :
  db_faults w = [] →
  login utcnow (mkLoginJson (Some email) (Some password)) w
  = (match by_email email (session w) with
     | None => Returned (ErrorPayload "Invalid credentials", 401)
     | Some (_, user) =>
         if negb (check_password_hash (User.password_hash user) password)
         then Returned (ErrorPayload "Invalid credentials", 401)
         else if negb (default false (User.is_active user))
         then Returned (ErrorPayload "Account is inactive", 403)
         else Returned
                (TokenPayload "Login successful"
                   (Auth.generate_token jwt_encode utcnow (User.id user))
                   (User.to_dict user), 200)
     end, w).
Proof.
  intros Hf. unfold Routes.login, User.check_password, try_except, query,
    db_call, mbind, M_bind, bind, gets. cbn [l_email l_password].
  rewrite Hf. simpl.
  destruct (by_email email (session w)) as [[i user]|]; [|done].
  destruct (negb (check_password_hash _ _)); [done|].
  by destruct (negb (default false _)).
Qed.

(** X27: [POST /login] never raises and only reads.  It answers 200
    only for a body with an email and a password where the first user
    with that email has a hash that [check_password_hash] accepts for
    the password and is active; the token then signs that user's id,
    issued at the time of the login and expiring 24 hours later, and
    the answer carries that user's row without the hash.  With the
    database answering, an email no user has and a wrong password are
    answered alike. *)
Theorem login_outcome utcnow data (w : World) :
  let r := login utcnow data w in
  (∃ x, r.1 = Returned x ∧ logged_in utcnow data w x)
  ∧ (∃ l, r.2 = set_db_faults l w)
  ∧ ∀ email password,
      db_faults w = [] →
      l_email data = Some email → l_password data = Some password →
      (by_email email (session w) = None
       ∨ ∃ i user, by_email email (session w) = Some (i, user)
                   ∧ check_password_hash (User.password_hash user) password
                     = false) →
      r = (Returned (ErrorPayload "Invalid credentials", 401), w).
Proof.
  cbv zeta.
  pose proof (wp_run _ _ _ _ (login_logged_in utcnow data w)) as H.
  split_and!.
  - destruct (login utcnow data w) as [[x|e] w']; [|done]. simpl in *.
    exists x. by destruct H.
  - destruct (login utcnow data w) as [[x|e] w']; [|done]. simpl in *.
    by destruct H.
  - intros email password Hf Hemail Hpassword Hwrong.
    destruct data as [e p]. simpl in *. subst e p.
    rewrite login_reads by done.
    destruct Hwrong as [->|(i & user & -> & ->)]; done.
Qed.

(** werkzeug: a generated hash accepts the password it was made from
    and no other. *)
Hypothesis check_generated : ∀ salt password other,
  check_password_hash (generate_password_hash salt password) other
  = bool_decide (other = password).

(** X28: a user who has registered can log in.  After a registration
    answered with 201, and with the database answering, a login with
    the registered email and password is answered 200 with the row the
    registration answered and a token for its id, a login with the
    email and any other password is answered 401, and [GET /profile]
    for the id answers the same row. *)
Theorem registered_user_can_log_in salt data (w w1 : World) message d utcnow :
  session w = committed w →
  register salt data w = (Returned (UserPayload message d, 201), w1) →
  let w2 := set_db_faults [] w1 in
  ∃ email password,
    j_email data = Some email ∧ j_password data = Some password
    ∧ User.d_email d = email
    ∧ login utcnow (mkLoginJson (Some email) (Some password)) w2
      = (Returned
           (TokenPayload "Login successful"
              (Auth.generate_token jwt_encode utcnow (User.d_id d)) d, 200),
         w2)
    ∧ (∀ other, other ≠ password →
         login utcnow (mkLoginJson (Some email) (Some other)) w2
         = (Returned (ErrorPayload "Invalid credentials", 401), w2))
    ∧ get_profile (User.d_id d) w2 = (Returned (ProfilePayload d, 200), w2).
Proof.
  intros Hs Hr. cbv zeta.
  pose proof (wp_run _ _ _ _
                (register_registered generate_password_hash salt data w Hs))
    as H.
  rewrite Hr in H. simpl in H.
  destruct H as [H|[H|[H|H]]];
    [|by destruct H as ([? [=]] & _)|by destruct H as ([? [=]] & _)
     |by destruct H as ([=] & _)].
  destruct H as (email & username & password & Hemail & _ & Hpassword
                 & [= -> ->] & Hnew & Hu & Hs1).
  exists email, password.
  set (user := User.mk _ _ _ _ _ _ _ _) in *.
  assert (by_email email (session (set_db_faults [] w1))
          = Some (length (users (committed w)), user)) as Hfind.
  { unfold by_email. cbn [session set_db_faults]. rewrite Hs1, Hu.
    rewrite list_find_app_r.
    - simpl. rewrite decide_True by done. simpl. do 2 f_equal; lia.
    - apply list_find_None, Forall_forall. intros u Hin. by apply Hnew. }
  assert (get (User.id user) (session (set_db_faults [] w1))
          = Some (length (users (committed w)), user)) as Hget.
  { unfold get. cbn [session set_db_faults]. rewrite Hs1, Hu.
    rewrite list_find_app_r.
    - simpl. rewrite decide_True by done. simpl. do 2 f_equal; lia.
    - apply list_find_None, Forall_forall. intros u Hin Heq.
      apply (next_id_fresh (User.id <$> users (committed w))).
      subst user. simpl in Heq. rewrite <-Heq.
      by apply list_elem_of_fmap_2. }
  split_and!; try done.
  - rewrite login_reads, Hfind by done.
    subst user. cbn [User.password_hash User.is_active].
    rewrite check_generated, bool_decide_eq_true_2 by done. done.
  - intros other Hne. rewrite login_reads, Hfind by done.
    subst user. cbn [User.password_hash User.is_active].
    rewrite check_generated, bool_decide_eq_false_2 by done. done.
  - rewrite get_profile_reads by done.
    change (User.d_id (User.to_dict user)) with (User.id user).
    by rewrite Hget.
Qed.
End login.

Section writers.
Context (generate_password_hash : string → string → string)
        (check_password_hash : string → string → bool)
        (jwt_encode : Auth.claims → string).

(** X29: the users table stays consistent under every route of the
    service, whatever the request and whatever fails.  No route raises;
    [POST /register] and [PUT /profile] leave ids, emails and user
    names pairwise distinct and no uncommitted change in the session;
    [POST /login], [GET /profile] and [GET /users/<id>] leave the
    database and the session as they were. *)
Theorem users_stay_unique (w : World) :
  session w = committed w →
  unique_users (users (committed w)) →
  (∀ salt data,
     let r := register generate_password_hash salt data w in
     returned r.1 = true ∧ session r.2 = committed r.2
     ∧ unique_users (users (committed r.2)))
  ∧ (∀ user_id data,
       let r := update_profile user_id data w in
       returned r.1 = true ∧ session r.2 = committed r.2
       ∧ unique_users (users (committed r.2)))
  ∧ (∀ utcnow data,
       let r := login check_password_hash jwt_encode utcnow data w in
       returned r.1 = true ∧ ∃ l, r.2 = set_db_faults l w)
  ∧ (∀ user_id,
       let r := get_profile user_id w in
       returned r.1 = true ∧ ∃ l, r.2 = set_db_faults l w)
  ∧ (∀ current_user_id user_id,
       let r := get_user current_user_id user_id w in
       returned r.1 = true ∧ ∃ l, r.2 = set_db_faults l w).
Proof.
  intros Hs Hu. cbv zeta. split_and!.
  - intros salt data.
    pose proof (wp_run _ _ _ _
                  (register_unique generate_password_hash salt data w Hs Hu))
      as H.
    by destruct (register generate_password_hash salt data w) as [[x|e] w'].
  - intros user_id data.
    pose proof (wp_run _ _ _ _ (update_profile_updated user_id data w Hs))
      as H.
    destruct (update_profile user_id data w) as [[x|e] w']; [|done].
    simpl in *.
    apply profile_updated_credentials in H as (Hs' & Hc & _).
    split_and!; [done..|]. by eapply unique_users_credentials.
  - intros utcnow data.
    pose proof (wp_run _ _ _ _
                  (login_logged_in check_password_hash jwt_encode utcnow
                     data w)) as H.
    destruct (login check_password_hash jwt_encode utcnow data w)
      as [[x|e] w']; [|done].
    simpl in *. by destruct H.
  - intros user_id.
    assert (wp (get_profile user_id)
               (λ _ w', ∃ l, w' = set_db_faults l w) (λ _ _, False) w) as H.
    { unfold get_profile. repeat wp_step; by eexists. }
    apply wp_run in H.
    by destruct (get_profile user_id w) as [[x|e] w'].
  - intros current_user_id user_id.
    assert (wp (get_user current_user_id user_id)
               (λ _ w', ∃ l, w' = set_db_faults l w) (λ _ _, False) w) as H.
    { unfold get_user. repeat wp_step; by eexists. }
    apply wp_run in H.
    by destruct (get_user current_user_id user_id w) as [[x|e] w'].
Qed.
End writers.

(** ** From the login to the routes of the other services *)

Section single_sign_on.
Import CycleTracking.Auth.
Context (check_password_hash : string → string → bool)
        (jwt_encode : UserService.Auth.claims → string)
        (jwt_decode : Z → string → jwt_result).

(** PyJWT, with the key and the algorithm the services share:
    [jwt_decode now] is [jwt.decode] at the time [now].  A token is
    read back from the moment it was issued until it expires, is
    refused as expired once that moment has passed, and is a non-empty
    string without a space.  Times are in whole seconds. *)
Hypothesis decode_encode : ∀ c now,
  UserService.Auth.iat c ≤ now < UserService.Auth.exp c →
  jwt_decode now (jwt_encode c)
  = Claims (mkPayload (Some (UserService.Auth.user_id c)) true).
Hypothesis decode_expired : ∀ c now,
  UserService.Auth.exp c < now →
  jwt_decode now (jwt_encode c) = ExpiredSignatureError.
Hypothesis token_format : ∀ c,
  spaceless (jwt_encode c) = true ∧ jwt_encode c ≠ "".

Lemma token_required_bearer now
    (f : Z → M CycleTracking.MessageQueue.World CycleTracking.Routes.response) c w :
  token_required (jwt_decode now) f (Some ("Bearer " +:+ jwt_encode c)) w
  = match jwt_decode now (jwt_encode c) with
    | Claims p =>
        if negb (truthy p)
        then (Returned (CycleTracking.Routes.ErrorPayload
                          "Token is invalid or expired", 401), w)
        else match user_id p with
             | Some user => f user w
             | None => (Raised KeyError, w)
             end
    | _ => (Returned (CycleTracking.Routes.ErrorPayload
                        "Token is invalid or expired", 401), w)
    end.
Proof.
  destruct (token_format c) as [Hs Hne].
  unfold token_required, decode_token.
  change ("Bearer " +:+ jwt_encode c) with ("Bearer" +:+ " " +:+ jwt_encode c).
  rewrite (split_first_field "Bearer") by done.
  rewrite split_spaceless by done. simpl.
  destruct (jwt_encode c) as [|a token]; [done|].
  destruct (jwt_decode now (String a token)) as [p| |]; [|done..].
  destruct (negb (truthy p)); [done|]. by destruct (user_id p).
Qed.

(** X30: a login opens the routes of the other services for the user
    who logged in, for 24 hours.  The token of a login answered with
    200, sent as [Bearer <token>], makes [token_required] run the route
    with the id of the user the login answered, at any time from the
    login until 24 hours later; once the 24 hours have passed the
    request is answered 401 and the route is not run. *)
Theorem login_opens_the_routes_for_a_day utcnow data
    (wu : UserService.World) message token d now
    (f : Z → M CycleTracking.MessageQueue.World CycleTracking.Routes.response) w :
  (login check_password_hash jwt_encode utcnow data wu).1
  = Returned (TokenPayload message token d, 200) →
  let r := token_required (jwt_decode now) f (Some ("Bearer " +:+ token)) w in
  (utcnow ≤ now < utcnow + 24 * 3600 → r = f (User.d_id d) w)
  ∧ (utcnow + 24 * 3600 < now →
     r = (Returned (CycleTracking.Routes.ErrorPayload
                      "Token is invalid or expired", 401), w)).
Proof.
  intros Hr. cbv zeta.
  pose proof (wp_run _ _ _ _
                (login_logged_in check_password_hash jwt_encode utcnow
                   data wu)) as H.
  rewrite Hr in H. destruct H as [H _].
  destruct H as [(i & user & email & password & _ & _ & _ & _ & _ & Heq)
                |(error & status & [=] & _)].
  injection Heq as -> -> ->.
  rewrite token_required_bearer. split.
  - intros Hnow. by rewrite decode_encode by (simpl; lia).
  - intros Hnow. by rewrite decode_expired by (simpl; lia).
Qed.
End single_sign_on.

(** ** A first user *)

Section first_user.
Import CycleTracking.Auth.

Definition no_users : World :=
  mkWorld (mkStore []) (mkStore []) [] [] (Pika.mkNet [] []) [] tt.

(** Stand-ins for the libraries: a hash that is the password itself,
    and an unsigned token [<user_id>.<exp>]. *)
Definition unsalted (salt password : string) : string := password.
Definition same_password (hash password : string) : bool :=
  bool_decide (password = hash).

Definition unsigned_token (c : UserService.Auth.claims) : string :=
  Py.str (UserService.Auth.user_id c) +:+ "."
  +:+ Py.str (UserService.Auth.exp c).

Fixpoint cut (s : string) : string * string :=
  match s with
  | EmptyString => (EmptyString, EmptyString)
  | String c s' =>
      if Ascii.eqb c "."%char then (EmptyString, s')
      else let (a, b) := cut s' in (String c a, b)
  end.

Definition read_int (s : string) : option Z :=
  Z.of_int <$> NilZero.int_of_string s.

Definition read_unsigned_token (now : Z) (token : string) : jwt_result :=
  let (a, b) := cut token in
  match read_int a, read_int b with
  | Some user, Some exp =>
      if decide (exp ≤ now) then ExpiredSignatureError
      else Claims (mkPayload (Some user) true)
  | _, _ => InvalidTokenError
  end.

(** A string without a dot or a space. *)
Fixpoint plain (s : string) : bool :=
  match s with
  | EmptyString => true
  | String c s' =>
      negb (Ascii.eqb c "."%char) && negb (Ascii.eqb c " "%char) && plain s'
  end.

Lemma plain_str z : plain (Py.str z) = true ∧ Py.str z ≠ "".
Proof.
  assert (∀ d, plain (NilEmpty.string_of_uint d) = true) as Hplain.
  { induction d; simpl; auto. }
  assert (∀ d, plain (NilZero.string_of_uint d) = true
               ∧ NilZero.string_of_uint d ≠ "") as Huint.
  { intros d. split; [destruct d; try apply Hplain; done|].
    by destruct d. }
  unfold Py.str. destruct (Z.to_int z) as [d|d]; simpl.
  - apply Huint.
  - split; [apply Huint|done].
Qed.

Lemma read_int_str z : read_int (Py.str z) = Some z.
Proof.
  unfold read_int, Py.str. rewrite NilZero.isi.
  - simpl. by rewrite DecimalZ.of_to.
  - destruct z; simpl; [done|..]; intros [= H];
      by apply DecimalPos.Unsigned.to_uint_nonnil in H.
  - destruct z; simpl; [done|..]; intros [= H];
      by apply DecimalPos.Unsigned.to_uint_nonnil in H.
Qed.

Lemma cut_app a b : plain a = true → cut (a +:+ "." +:+ b) = (a, b).
Proof.
  induction a as [|c a IH]; simpl; [done|].
  intros [[Hc _]%andb_true_iff Ha]%andb_true_iff.
  apply negb_true_iff in Hc. by rewrite Hc, IH.
Qed.

Lemma plain_spaceless a b :
  plain a = true → plain b = true → spaceless (a +:+ "." +:+ b) = true.
Proof.
  intros Ha Hb.
  assert (∀ s, plain s = true → spaceless s = true) as Hs.
  { induction s as [|c s IH]; simpl; [done|].
    intros [[_ Hc]%andb_true_iff H]%andb_true_iff. by rewrite Hc, IH. }
  induction a as [|c a IH]; simpl in *; [by apply Hs|].
  apply andb_true_iff in Ha as [[_ Hc]%andb_true_iff Ha].
  by rewrite Hc, IH.
Qed.

Lemma read_unsigned_token_fresh c now :
  UserService.Auth.iat c ≤ now < UserService.Auth.exp c →
  read_unsigned_token now (unsigned_token c)
  = Claims (mkPayload (Some (UserService.Auth.user_id c)) true).
Proof.
  intros Hnow. unfold read_unsigned_token, unsigned_token.
  rewrite cut_app by apply plain_str. rewrite !read_int_str.
  rewrite decide_False by lia. done.
Qed.

Lemma read_unsigned_token_expired c now :
  UserService.Auth.exp c < now →
  read_unsigned_token now (unsigned_token c) = ExpiredSignatureError.
Proof.
  intros Hnow. unfold read_unsigned_token, unsigned_token.
  rewrite cut_app by apply plain_str. rewrite !read_int_str.
  by rewrite decide_True by lia.
Qed.

Lemma unsigned_token_format c :
  spaceless (unsigned_token c) = true ∧ unsigned_token c ≠ "".
Proof.
  unfold unsigned_token. split; [apply plain_spaceless; apply plain_str|].
  destruct (plain_str (UserService.Auth.user_id c)) as [_ Hne].
  by destruct (Py.str (UserService.Auth.user_id c)).
Qed.

Definition ana : RegisterJson :=
  mkRegisterJson (Some "ana@example.org") (Some "ana") (Some "secret")
                 (Some "Ana") None.

Definition ana_registered : World := (register unsalted "salt" ana no_users).2.

Definition ana_row : User.dict :=
  User.mkDict 1 "ana@example.org" "ana" (Some "Ana") None None (Some true).


Lemma birthday_added_to_the_profile :
  let data := mkProfileJson None (Some None) (Iso (Date.ymd 1990 5 17)) in
  let r := update_profile 1 data ana_registered in
  returned r.1 = true
  ∧ credentials <$> users (committed r.2)
    = credentials <$> users (committed ana_registered)
  ∧ (∀ j u, users (committed ana_registered) !! j = Some u →
            User.id u ≠ 1 → users (committed r.2) !! j = Some u)
  ∧ (∀ message d,
       r.1 = Returned (UserPayload message d, 200) →
       get_profile 1 (set_db_faults [] r.2)
       = (Returned (ProfilePayload d, 200), set_db_faults [] r.2)).
Proof.
  apply (update_profile_keeps_credentials 1
           (mkProfileJson None (Some None) (Iso (Date.ymd 1990 5 17)))
           ana_registered).
  reflexivity.
Defined.

Lemma ana_can_log_in :
  let w2 := set_db_faults [] ana_registered in
  ∃ email password,
    j_email ana = Some email ∧ j_password ana = Some password
    ∧ User.d_email ana_row = email
    ∧ login same_password unsigned_token 100
        (mkLoginJson (Some email) (Some password)) w2
      = (Returned
           (TokenPayload "Login successful"
              (UserService.Auth.generate_token unsigned_token 100
                 (User.d_id ana_row))
              ana_row, 200), w2)
    ∧ (∀ other, other ≠ password →
         login same_password unsigned_token 100
           (mkLoginJson (Some email) (Some other)) w2
         = (Returned (ErrorPayload "Invalid credentials", 401), w2))
    ∧ get_profile (User.d_id ana_row) w2
      = (Returned (ProfilePayload ana_row, 200), w2).
Proof.
  apply (registered_user_can_log_in unsalted same_password unsigned_token
           (λ _ _ _, eq_refl) "salt" ana no_users ana_registered
           "User registered successfully" ana_row 100);
    reflexivity.
Defined.

Lemma users_unique_after_first_registration :
  let w := ana_registered in
  (∀ salt data,
     let r := register unsalted salt data w in
     returned r.1 = true ∧ session r.2 = committed r.2
     ∧ unique_users (users (committed r.2)))
  ∧ (∀ user_id data,
       let r := update_profile user_id data w in
       returned r.1 = true ∧ session r.2 = committed r.2
       ∧ unique_users (users (committed r.2)))
  ∧ (∀ utcnow data,
       let r := login same_password unsigned_token utcnow data w in
       returned r.1 = true ∧ ∃ l, r.2 = set_db_faults l w)
  ∧ (∀ user_id,
       let r := get_profile user_id w in
       returned r.1 = true ∧ ∃ l, r.2 = set_db_faults l w)
  ∧ (∀ current_user_id user_id,
       let r := get_user current_user_id user_id w in
       returned r.1 = true ∧ ∃ l, r.2 = set_db_faults l w).
Proof.
  apply (users_stay_unique unsalted same_password unsigned_token
           ana_registered); [reflexivity|].
  vm_compute. split_and!; apply NoDup_singleton.
Defined.

Lemma ana_reads_her_cycle_within_the_day :
  let token := UserService.Auth.generate_token unsigned_token 100 1 in
  let r now :=
    token_required (read_unsigned_token now)
      (λ user, CycleTracking.Routes.get_cycle user 1)
      (Some ("Bearer " +:+ token)) broker_up in
  (r 3700 = CycleTracking.Routes.get_cycle 1 1 broker_up)
  ∧ (r 90000
     = (Returned (CycleTracking.Routes.ErrorPayload
                    "Token is invalid or expired", 401), broker_up)).
Proof.
  cbv zeta.
  destruct (login_opens_the_routes_for_a_day same_password unsigned_token
              read_unsigned_token read_unsigned_token_fresh
              read_unsigned_token_expired unsigned_token_format
              100 (mkLoginJson (Some "ana@example.org") (Some "secret"))
              (set_db_faults [] ana_registered)
              "Login successful"
              (UserService.Auth.generate_token unsigned_token 100 1)
              ana_row 3700
              (λ user, CycleTracking.Routes.get_cycle user 1) broker_up
              eq_refl) as [Hin _].
  destruct (login_opens_the_routes_for_a_day same_password unsigned_token
              read_unsigned_token read_unsigned_token_fresh
              read_unsigned_token_expired unsigned_token_format
              100 (mkLoginJson (Some "ana@example.org") (Some "secret"))
              (set_db_faults [] ana_registered)
              "Login successful"
              (UserService.Auth.generate_token unsigned_token 100 1)
              ana_row 90000
              (λ user, CycleTracking.Routes.get_cycle user 1) broker_up
              eq_refl) as [_ Hout].
  split; [apply Hin; lia|apply Hout; lia].
Defined.
End first_user.
End user_accounts.
